(** * BigQuery client: schema codec, row projection and partial updates

    A shallow embedding of the pure parts of
    [google/cloud/bigquery/table.py], [dataset.py] and [client.py]:
    the recursive schema (de)serialisation, the mapping-to-row
    projection, the bulk-insert row encoder, the snake-case to camelCase
    partial-update builder and the property-bag replacement done by
    [_set_properties]. *)

From Stdlib Require Import List String Ascii ZArith Bool Lia.
Import ListNotations.
Local Open Scope string_scope.

(** ** Python values *)

Module Py.

(** The values that flow through the modelled code.  Dictionaries keep
    their insertion order and are keyed by strings (resource keys,
    field names); [PObject] stands for an instance the model does not
    look into (a bound method, a [datetime]). *)
#[local] Unset Elimination Schemes.
Inductive pyval : Type :=
| PNone
| PBool (b : bool)
| PInt (z : Z)
| PStr (s : string)
| PTuple (l : list pyval)
| PList (l : list pyval)
| PDict (d : list (string * pyval))
| PObject (tag : string).
#[local] Set Elimination Schemes.

Definition dict := list (string * pyval).

(** Exceptions.  A formatted message is kept as its template together
    with the values substituted into it. *)
Inductive exn : Type :=
| KeyError (k : pyval)
| TypeError
| IndexError
| RecursionError
| AttributeError (attr : string)
| ValueError (msg : string) (args : list pyval).

Inductive result (A : Type) : Type :=
| Ok (a : A)
| Raise (e : exn).
Arguments Ok {A} a.
Arguments Raise {A} e.

Definition bind {A B} (m : result A) (k : A -> result B) : result B :=
  match m with
  | Ok a => k a
  | Raise e => Raise e
  end.

Fixpoint mapM {A B} (f : A -> result B) (l : list A) : result (list B) :=
  match l with
  | [] => Ok []
  | x :: t =>
      bind (f x) (fun y => bind (mapM f t) (fun ys => Ok (y :: ys)))
  end.

End Py.
Export Py.

Declare Scope py_scope.
Delimit Scope py_scope with py.
Notation "x <- m ;; k" := (bind m (fun x => k))
  (at level 61, m at next level, right associativity) : py_scope.
Local Open Scope py_scope.

(** ** Dictionaries *)

Module Dict.

(** [key in d] *)
Fixpoint mem (k : string) (d : dict) : bool :=
  match d with
  | [] => false
  | (k', _) :: t => if String.eqb k k' then true else mem k t
  end.

(** [d.get(key)], with [None] for a missing key *)
Fixpoint get (k : string) (d : dict) : option pyval :=
  match d with
  | [] => None
  | (k', v) :: t => if String.eqb k k' then Some v else get k t
  end.

(** [d.get(key, default)] *)
Definition get_default (k : string) (dflt : pyval) (d : dict) : pyval :=
  match get k d with
  | Some v => v
  | None => dflt
  end.

(** [d[key]] *)
Definition getitem (k : string) (d : dict) : result pyval :=
  match get k d with
  | Some v => Ok v
  | None => Raise (KeyError (PStr k))
  end.

(** [d[key] = v]: an existing key keeps its position, a new key goes
    last. *)
Fixpoint set (k : string) (v : pyval) (d : dict) : dict :=
  match d with
  | [] => [(k, v)]
  | (k', v') :: t =>
      if String.eqb k k' then (k, v) :: t else (k', v') :: set k v t
  end.

(** [d.pop(key, None)] as far as the dictionary goes *)
Fixpoint remove (k : string) (d : dict) : dict :=
  match d with
  | [] => []
  | (k', v') :: t =>
      if String.eqb k k' then remove k t else (k', v') :: remove k t
  end.

Definition keys (d : dict) : list string := map fst d.

(** [d.update(other)] *)
Definition update (d other : dict) : dict :=
  fold_left (fun acc kv => set (fst kv) (snd kv) acc) other d.

End Dict.


(** ** Built-in operations on values *)

Module Builtins.

Definition is_str (k : string) (v : pyval) : bool :=
  match v with
  | PStr s => String.eqb k s
  | _ => false
  end.

(** [sub in s] on strings *)
Fixpoint has_substring (sub s : string) : bool :=
  if String.prefix sub s then true
  else match s with
       | EmptyString => false
       | String _ s' => has_substring sub s'
       end.

(** ['key' in v] *)
Definition contains (k : string) (v : pyval) : result bool :=
  match v with
  | PDict d => Ok (Dict.mem k d)
  | PList l | PTuple l => Ok (existsb (is_str k) l)
  | PStr s => Ok (has_substring k s)
  | _ => Raise TypeError
  end.

(** [v['key']]: only a dictionary can be subscripted by a string. *)
Definition getitem (k : string) (v : pyval) : result pyval :=
  match v with
  | PDict d => Dict.getitem k d
  | _ => Raise TypeError
  end.

Fixpoint chars (s : string) : list pyval :=
  match s with
  | EmptyString => []
  | String c s' => PStr (String c EmptyString) :: chars s'
  end.

(** [v.get('key', dflt)]: a method of dictionaries. *)
Definition get (k : string) (dflt : pyval) (v : pyval) : result pyval :=
  match v with
  | PDict d => Ok (Dict.get_default k dflt d)
  | _ => Raise (AttributeError "get")
  end.

(** [for x in v]: the items a loop over [v] visits. *)
Definition iter (v : pyval) : result (list pyval) :=
  match v with
  | PList l | PTuple l => Ok l
  | PDict d => Ok (map PStr (Dict.keys d))
  | PStr s => Ok (chars s)
  | _ => Raise TypeError
  end.

(** Whether a value can be a dictionary key. *)
Fixpoint hashable (v : pyval) : bool :=
  match v with
  | PList _ | PDict _ => false
  | PTuple l => forallb hashable l
  | _ => true
  end.

(** Nesting depth of a value: a bound on the recursion of anything that
    walks it. *)
Fixpoint depth (v : pyval) : nat :=
  match v with
  | PTuple l | PList l => S (list_max (map depth l))
  | PDict d => S (list_max (map (fun kv => depth (snd kv)) d))
  | _ => 0
  end.

End Builtins.

(** ** Schema fields and their codec (table.py) *)

Module Schema.

(** The two kinds of sequence [_parse_schema_resource] returns: the
    tuple [()] and a list. *)
Inductive pyseq (A : Type) : Type :=
| SeqTuple (l : list A)
| SeqList (l : list A).
Arguments SeqTuple {A} l.
Arguments SeqList {A} l.

Definition items {A} (s : pyseq A) : list A :=
  match s with
  | SeqTuple l | SeqList l => l
  end.

(** Modelled from the spec: the class [SchemaField] is declared in
    schema.py, which is not part of the sources at hand.  Following the
    data model it carries a name, a type tag, a mode, an optional
    description ([PNone] when absent) and the ordered sequence of its
    children; the four scalars are kept as the values the constructor
    is handed. *)
#[local] Unset Elimination Schemes.
Inductive SchemaField : Type :=
  mkSchemaField {
      name : pyval;
      field_type : pyval;
      mode : pyval;
      description : pyval;
      fields : list SchemaField
    }.
#[local] Set Elimination Schemes.

(** [SchemaField(name, field_type, mode, description, fields)] *)
Definition new_SchemaField (name field_type mode description : pyval)
    (sub_fields : pyseq SchemaField) : SchemaField :=
  mkSchemaField name field_type mode description (items sub_fields).

(** One turn of the loop of [_parse_schema_resource]; [self] is the
    function itself, for the recursive call. *)
Definition parse_field (self : pyval -> result (pyseq SchemaField))
    (r_field : pyval) : result SchemaField :=
  name <- Builtins.getitem "name" r_field ;;
  field_type <- Builtins.getitem "type" r_field ;;
  mode <- Builtins.get "mode" (PStr "NULLABLE") r_field ;;
  description <- Builtins.get "description" PNone r_field ;;
  sub_fields <- self r_field ;;
  Ok (new_SchemaField name field_type mode description sub_fields).

(** The body of [_parse_schema_resource]. *)
Definition parse_body (self : pyval -> result (pyseq SchemaField))
    (info : pyval) : result (pyseq SchemaField) :=
  has <- Builtins.contains "fields" info ;;
  if negb has then Ok (SeqTuple [])
  else
    r_fields <- Builtins.getitem "fields" info ;;
    r_fields <- Builtins.iter r_fields ;;
    schema <- mapM (parse_field self) r_fields ;;
    Ok (SeqList schema).

(** The recursion, on a call stack of [n] frames. *)
Fixpoint parse_schema_resource_at (n : nat) (info : pyval)
  : result (pyseq SchemaField) :=
  match n with
  | O => Raise RecursionError
  | S n' => parse_body (parse_schema_resource_at n') info
  end.

(** [_parse_schema_resource(info)]: the stack is as deep as the value
    needs, so that [RecursionError] never shows and the function
    satisfies its own recursive equation
    ([_parse_schema_resource_unfold] below). *)
Definition _parse_schema_resource (info : pyval)
  : result (pyseq SchemaField) :=
  parse_schema_resource_at (S (Builtins.depth info)) info.

(** One turn of the loop of [_build_schema_resource]: the [info]
    dictionary of a field. *)
Fixpoint build_field_info (field : SchemaField) : pyval :=
  match field with
  | mkSchemaField f_name f_type f_mode f_description f_fields =>
      let info := [("name", f_name); ("type", f_type); ("mode", f_mode)] in
      let info :=
        match f_description with
        | PNone => info
        | _ => Dict.set "description" f_description info
        end in
      let info :=
        match f_fields with
        | [] => info
        | _ :: _ =>
            Dict.set "fields" (PList (map build_field_info f_fields)) info
        end in
      PDict info
  end.

(** [_build_schema_resource(fields)] *)
Definition _build_schema_resource (fields : list SchemaField) : pyval :=
  PList (map build_field_info fields).

End Schema.

(** ** Lookups with an arbitrary key, loops with an accumulator *)

Module Mapping.

(** The entry a key selects.  The dictionaries of the model are keyed
    by strings, so any other hashable key selects nothing; a key that
    cannot be hashed is a [TypeError]. *)
Definition lookup (k : pyval) (d : dict) : result (option pyval) :=
  match k with
  | PStr s => Ok (Dict.get s d)
  | _ => if Builtins.hashable k then Ok None else Raise TypeError
  end.

(** [mapping[k]] *)
Definition getitem (k : pyval) (d : dict) : result pyval :=
  r <- lookup k d ;;
  match r with
  | Some v => Ok v
  | None => Raise (KeyError k)
  end.

(** [mapping.get(k, dflt)] *)
Definition get (k : pyval) (dflt : pyval) (d : dict) : result pyval :=
  r <- lookup k d ;;
  match r with
  | Some v => Ok v
  | None => Ok dflt
  end.

(** [d[k] = v].  Only string keys can be stored in the dictionaries of
    the model; the others are refused. *)
Definition setitem (k : pyval) (v : pyval) (d : dict) : result dict :=
  match k with
  | PStr s => Ok (Dict.set s v d)
  | _ => Raise TypeError
  end.

Fixpoint foldM {A B} (f : B -> A -> result B) (l : list A) (acc : B)
  : result B :=
  match l with
  | [] => Ok acc
  | x :: t => acc' <- f acc x ;; foldM f t acc'
  end.

(** [seq[index]] for an index produced by [enumerate] *)
Definition getitem_nat (index : nat) (v : pyval) : result pyval :=
  match v with
  | PList l | PTuple l =>
      match nth_error l index with
      | Some x => Ok x
      | None => Raise IndexError
      end
  | PStr s =>
      match nth_error (Builtins.chars s) index with
      | Some x => Ok x
      | None => Raise IndexError
      end
  | PDict _ => Raise (KeyError (PInt (Z.of_nat index)))
  | _ => Raise TypeError
  end.

End Mapping.

(** ** Field names (the snake-case to camelCase step of client.py and
    table.py) *)

Module Names.

(** [str.split(sep)] for a one-character separator. *)
Fixpoint split (sep : ascii) (s : string) : list string :=
  match s with
  | EmptyString => [EmptyString]
  | String c s' =>
      if Ascii.eqb c sep then EmptyString :: split sep s'
      else match split sep s' with
           | w :: ws => String c w :: ws
           | [] => [String c EmptyString]
           end
  end.

Definition is_lower (c : ascii) : bool :=
  (97 <=? nat_of_ascii c)%nat && (nat_of_ascii c <=? 122)%nat.

Definition is_upper (c : ascii) : bool :=
  (65 <=? nat_of_ascii c)%nat && (nat_of_ascii c <=? 90)%nat.

Definition upper (c : ascii) : ascii :=
  if is_lower c then ascii_of_nat (nat_of_ascii c - 32) else c.

Definition lower (c : ascii) : ascii :=
  if is_upper c then ascii_of_nat (nat_of_ascii c + 32) else c.

Fixpoint lower_all (s : string) : string :=
  match s with
  | EmptyString => EmptyString
  | String c s' => String (lower c) (lower_all s')
  end.

(** [str.capitalize] on the ASCII letters: the first character in upper
    case, the others in lower case. *)
Definition capitalize (s : string) : string :=
  match s with
  | EmptyString => EmptyString
  | String c s' => String (upper c) (lower_all s')
  end.

(** [''.join(words)] *)
Definition join (words : list string) : string :=
  fold_right String.append EmptyString words.

(** The two lines shared by [Client.update_dataset] and
    [Table._build_resource]:
    [words = f.split('_')] and
    [api_field = words[0] + ''.join(map(str.capitalize, words[1:]))]. *)
Definition api_field (f : string) : string :=
  let words := split "_"%char f in
  String.append (hd EmptyString words) (join (map capitalize (tl words))).

End Names.

(** ** Requests handed to the connection *)

Record request : Type :=
  mkRequest {
      req_method : string;
      req_path : string;
      req_data : pyval;
      req_headers : pyval
    }.

(** ** Tables (table.py) *)

Module Tables.
Import Schema.

Definition _TABLE_HAS_NO_SCHEMA : string :=
  "Table has no schema:  call 'client.get_table()'".

Record Table : Type :=
  mkTable {
      _project : string;
      _dataset_id : string;
      _table_id : string;
      _properties : dict;
      _schema : list SchemaField
    }.

Definition path (self : Table) : string :=
  "/projects/" ++ _project self ++ "/datasets/" ++ _dataset_id self
    ++ "/tables/" ++ _table_id self.

(** The [schema] property: a fresh list of the stored fields. *)
Definition schema (self : Table) : list SchemaField := _schema self.

(** One turn of the loop of [row_from_mapping]: what is appended to
    [row] for [field]. *)
Definition project_field (mapping : dict) (field : SchemaField)
  : result pyval :=
  if Builtins.is_str "REQUIRED" (mode field)
  then Mapping.getitem (name field) mapping
  else if Builtins.is_str "REPEATED" (mode field)
  then Mapping.get (name field) (PTuple []) mapping
  else if Builtins.is_str "NULLABLE" (mode field)
  then Mapping.get (name field) PNone mapping
  else Raise (ValueError "Unknown field mode: {}" [mode field]).

(** [Table.row_from_mapping] *)
Definition row_from_mapping (self : Table) (mapping : dict) : result pyval :=
  if Nat.eqb (List.length (_schema self)) 0
  then Raise (ValueError _TABLE_HAS_NO_SCHEMA [])
  else
    row <- mapM (project_field mapping) (schema self) ;;
    Ok (PTuple row).

Section InsertData.

(** The converter table of [_helpers.py], keyed by the type tag: not
    among the sources at hand, so left open. *)
Variable _SCALAR_VALUE_TO_JSON_ROW : pyval -> option (pyval -> result pyval).

(** The connection, the built-in [int]. *)
Variable api_request : request -> result pyval.
Variable py_int : pyval -> result pyval.

(** The inner loop of [insert_data]: the [row_info] of one row. *)
Definition row_info_of (self : Table) (row : list pyval) : result dict :=
  Mapping.foldM (fun row_info fv =>
      let '(field, value) := fv in
      value <- match _SCALAR_VALUE_TO_JSON_ROW (field_type field) with
               | Some converter => converter value
               | None => Ok value
               end ;;
      Mapping.setitem (name field) value row_info)
    (combine (_schema self) row) [].

(** The outer loop, over [enumerate(rows)]. *)
Fixpoint rows_info_of (self : Table) (row_ids : pyval) (index : nat)
    (rows : list pyval) : result (list pyval) :=
  match rows with
  | [] => Ok []
  | row :: rest =>
      row <- Builtins.iter row ;;
      row_info <- row_info_of self row ;;
      let info := [("json", PDict row_info)] in
      info <- match row_ids with
              | PNone => Ok info
              | _ => id <- Mapping.getitem_nat index row_ids ;;
                     Ok (Dict.set "insertId" id info)
              end ;;
      infos <- rows_info_of self row_ids (S index) rest ;;
      Ok (PDict info :: infos)
  end.

Definition set_unless_none (k : string) (v : pyval) (d : dict) : dict :=
  match v with
  | PNone => d
  | _ => Dict.set k v d
  end.

(** The [errors] list built from the response. *)
Definition insert_errors (response : pyval) : result pyval :=
  errs <- match response with
          | PDict d => Ok (Dict.get_default "insertErrors" (PTuple []) d)
          | _ => Raise (AttributeError "get")
          end ;;
  errs <- Builtins.iter errs ;;
  errors <- mapM (fun error =>
      index <- Builtins.getitem "index" error ;;
      index <- py_int index ;;
      errs <- Builtins.getitem "errors" error ;;
      Ok (PDict [("index", index); ("errors", errs)])) errs ;;
  Ok (PList errors).

(** [Table.insert_data]: the requests issued, and what the call returns
    or raises. *)
Definition insert_data (self : Table) (rows row_ids skip_invalid_rows
    ignore_unknown_values template_suffix : pyval)
  : list request * result pyval :=
  if Nat.eqb (List.length (_schema self)) 0
  then ([], Raise (ValueError _TABLE_HAS_NO_SCHEMA []))
  else
    match (rows <- Builtins.iter rows ;;
           rows_info_of self row_ids 0 rows) with
    | Raise e => ([], Raise e)
    | Ok rows_info =>
        let data := [("rows", PList rows_info)] in
        let data := set_unless_none "skipInvalidRows" skip_invalid_rows data in
        let data :=
          set_unless_none "ignoreUnknownValues" ignore_unknown_values data in
        let data := set_unless_none "templateSuffix" template_suffix data in
        let req := mkRequest "POST" (path self ++ "/insertAll")
                     (PDict data) PNone in
        ([req], response <- api_request req ;; insert_errors response)
    end.

End InsertData.

(** [if key in cleaned: cleaned[key] = conv(cleaned[key])] *)
Definition convert_if_present (conv : pyval -> result pyval) (k : string)
    (cleaned : dict) : result dict :=
  match Dict.get k cleaned with
  | Some v => v' <- conv v ;; Ok (Dict.set k v' cleaned)
  | None => Ok cleaned
  end.

Section SetProperties.

(** The built-in [float]. *)
Variable py_float : pyval -> result pyval.

(** [Table._set_properties]: the table after the call, and how the
    call ended.  [api_response] is an object of its own, not the
    property bag of the table. *)
Definition _set_properties (self : Table) (api_response : dict)
  : Table * result unit :=
  (* self._properties.clear() *)
  let self := mkTable (_project self) (_dataset_id self) (_table_id self)
                [] (_schema self) in
  let cleaned := api_response in
  let schema :=
    Dict.get_default "schema" (PDict [("fields", PTuple [])]) cleaned in
  let cleaned := Dict.remove "schema" cleaned in
  match _parse_schema_resource schema with
  | Raise e => (self, Raise e)
  | Ok parsed =>
      (* the schema setter: tuple(value) *)
      let self := mkTable (_project self) (_dataset_id self) (_table_id self)
                    (_properties self) (items parsed) in
      match (cleaned <- convert_if_present py_float "creationTime" cleaned ;;
             cleaned <- convert_if_present py_float "lastModifiedTime" cleaned ;;
             convert_if_present py_float "expirationTime" cleaned) with
      | Raise e => (self, Raise e)
      | Ok cleaned =>
          (mkTable (_project self) (_dataset_id self) (_table_id self)
             (Dict.update (_properties self) cleaned) (_schema self),
           Ok tt)
      end
  end.

End SetProperties.

Section BuildResource.

(** The helpers of [google.cloud._helpers] behind the [expires]
    property, and the product [1000.0 * t]. *)
Variable _datetime_from_microseconds : pyval -> result pyval.
Variable _millis_from_datetime : pyval -> result pyval.
Variable times_1000 : pyval -> result pyval.

(** What attribute lookup finds beyond the properties written out
    below: the remaining properties ([created], [modified],
    [num_bytes], [num_rows], [schema]), the methods, the attributes of
    [object]; [AttributeError] for a name that is not an attribute. *)
Variable other_attr : Table -> string -> result pyval.

Definition partitioning_get (k : string) (self : Table) : result pyval :=
  match Dict.get_default "timePartitioning" (PDict []) (_properties self) with
  | PDict d => Ok (Dict.get_default k PNone d)
  | _ => Raise (AttributeError "get")
  end.

Definition view_get (k : string) (self : Table) : result pyval :=
  match Dict.get_default "view" PNone (_properties self) with
  | PNone => Ok PNone
  | PDict view => Ok (Dict.get_default k PNone view)
  | _ => Raise (AttributeError "get")
  end.

Definition view_query := view_get "query".
Definition view_use_legacy_sql := view_get "useLegacySql".

Definition expires (self : Table) : result pyval :=
  match Dict.get_default "expirationTime" PNone (_properties self) with
  | PNone => Ok PNone
  | expiration_time =>
      us <- times_1000 expiration_time ;; _datetime_from_microseconds us
  end.

(** [getattr(self, f)] *)
Definition getattr (self : Table) (f : string) : result pyval :=
  let prop k := Ok (Dict.get_default k PNone (_properties self)) in
  if String.eqb f "project" then Ok (PStr (_project self))
  else if String.eqb f "dataset_id" then Ok (PStr (_dataset_id self))
  else if String.eqb f "table_id" then Ok (PStr (_table_id self))
  else if String.eqb f "path" then Ok (PStr (path self))
  else if String.eqb f "etag" then prop "etag"
  else if String.eqb f "self_link" then prop "selfLink"
  else if String.eqb f "full_table_id" then prop "id"
  else if String.eqb f "table_type" then prop "type"
  else if String.eqb f "description" then prop "description"
  else if String.eqb f "friendly_name" then prop "friendlyName"
  else if String.eqb f "location" then prop "location"
  else if String.eqb f "view_query" then view_query self
  else if String.eqb f "view_use_legacy_sql" then view_use_legacy_sql self
  else if String.eqb f "expires" then expires self
  else if String.eqb f "partitioning_type" then partitioning_get "type" self
  else if String.eqb f "partition_expiration"
  then partitioning_get "expirationMs" self
  else other_attr self f.

(** [resource['view'][k] = v] *)
Definition set_in_view (k : string) (v : pyval) (resource : dict)
  : result dict :=
  view <- Dict.getitem "view" resource ;;
  match view with
  | PDict d => Ok (Dict.set "view" (PDict (Dict.set k v d)) resource)
  | _ => Raise TypeError
  end.

Definition _populate_expires_resource (self : Table) (resource : dict)
  : result dict :=
  e <- expires self ;;
  ms <- _millis_from_datetime e ;;
  Ok (Dict.set "expirationTime" ms resource).

Definition _populate_partitioning_type_resource (self : Table)
    (resource : dict) : result dict :=
  Ok (Dict.set "timePartitioning"
        (Dict.get_default "timePartitioning" PNone (_properties self))
        resource).

Definition _populate_view_use_legacy_sql_resource (self : Table)
    (resource : dict) : result dict :=
  let resource :=
    if Dict.mem "view" resource then resource
    else Dict.set "view" (PDict []) resource in
  v <- view_use_legacy_sql self ;;
  set_in_view "useLegacySql" v resource.

Definition _populate_view_query_resource (self : Table) (resource : dict)
  : result dict :=
  q <- view_query self ;;
  match q with
  | PNone => Ok (Dict.set "view" PNone resource)
  | _ =>
      let resource :=
        if Dict.mem "view" resource then resource
        else Dict.set "view" (PDict []) resource in
      q <- view_query self ;;
      set_in_view "query" q resource
  end.

Definition _populate_schema_resource (self : Table) (resource : dict)
  : result dict :=
  match _schema self with
  | [] => Ok (Dict.set "schema" PNone resource)
  | _ :: _ =>
      Ok (Dict.set "schema"
            (PDict [("fields", _build_schema_resource (_schema self))])
            resource)
  end.

Definition custom_resource_fields (f : string)
  : option (Table -> dict -> result dict) :=
  if String.eqb f "expires" then Some _populate_expires_resource
  else if String.eqb f "partitioning_type"
  then Some _populate_partitioning_type_resource
  else if String.eqb f "view_query" then Some _populate_view_query_resource
  else if String.eqb f "view_use_legacy_sql"
  then Some _populate_view_use_legacy_sql_resource
  else if String.eqb f "schema" then Some _populate_schema_resource
  else None.

(** [Table._build_resource] *)
Definition _build_resource (self : Table) (filter_fields : list string)
  : result dict :=
  let resource :=
    [("tableReference",
      PDict [("projectId", PStr (_project self));
             ("datasetId", PStr (_dataset_id self));
             ("tableId", PStr (_table_id self))])] in
  Mapping.foldM (fun resource f =>
      match custom_resource_fields f with
      | Some populate => populate self resource
      | None =>
          let api_field := Names.api_field f in
          v <- getattr self f ;;
          Ok (Dict.set api_field v resource)
      end) filter_fields resource.

End BuildResource.

End Tables.

(** ** Datasets (dataset.py) *)

Module Datasets.

Record AccessEntry : Type :=
  mkAccessEntry {
      role : pyval;
      entity_type : pyval;
      entity_id : pyval
    }.

Definition ENTITY_TYPES : list string :=
  ["userByEmail"; "groupByEmail"; "domain"; "specialGroup"; "view"].

(** [AccessEntry(role, entity_type, entity_id)] *)
Definition new_AccessEntry (role entity_type entity_id : pyval)
  : result AccessEntry :=
  if negb (existsb (fun t => Builtins.is_str t entity_type) ENTITY_TYPES)
  then Raise (ValueError "Entity type %r not among: %s" [entity_type])
  else if Builtins.is_str "view" entity_type
  then match role with
       | PNone => Ok (mkAccessEntry role entity_type entity_id)
       | _ => Raise (ValueError
                       "Role must be None for a view. Received role: %r"
                       [role])
       end
  else match role with
       | PNone => Raise (ValueError "Role must be set for entity type %r"
                           [entity_type])
       | _ => Ok (mkAccessEntry role entity_type entity_id)
       end.

Record Dataset : Type :=
  mkDataset {
      _dataset_id : string;
      _project : string;
      _properties : dict;
      _access_entries : list AccessEntry
    }.

Definition path (self : Dataset) : string :=
  "/projects/" ++ _project self ++ "/datasets/" ++ _dataset_id self.

Definition etag (self : Dataset) : pyval :=
  Dict.get_default "etag" PNone (_properties self).

(** [Dataset._parse_access_entries] *)
Definition _parse_access_entries (access : pyval)
  : result (list AccessEntry) :=
  access <- Builtins.iter access ;;
  mapM (fun entry =>
      entry <- match entry with
               | PDict d => Ok d
               | PList _ => Raise TypeError
               | _ => Raise (AttributeError "copy")
               end ;;
      let role := Dict.get_default "role" PNone entry in
      let entry := Dict.remove "role" entry in
      match rev entry with
      | [] => Raise (KeyError (PStr "popitem(): dictionary is empty"))
      | (entity_type, entity_id) :: rest =>
          match rest with
          | [] => new_AccessEntry role (PStr entity_type) entity_id
          | _ :: _ =>
              Raise (ValueError "Entry has unexpected keys remaining."
                       [PDict (rev rest)])
          end
      end) access.

Section SetProperties.

(** The built-ins [float] and [int]. *)
Variable py_float : pyval -> result pyval.
Variable py_int : pyval -> result pyval.

(** [Dataset._set_properties]: the dataset after the call, and how the
    call ended.  [api_response] is an object of its own, not the
    property bag of the dataset. *)
Definition _set_properties (self : Dataset) (api_response : dict)
  : Dataset * result unit :=
  (* self._properties.clear() *)
  let self := mkDataset (_dataset_id self) (_project self) []
                (_access_entries self) in
  let cleaned := api_response in
  let access := Dict.get_default "access" (PTuple []) cleaned in
  let cleaned := Dict.remove "access" cleaned in
  match _parse_access_entries access with
  | Raise e => (self, Raise e)
  | Ok entries =>
      let self := mkDataset (_dataset_id self) (_project self)
                    (_properties self) entries in
      match (cleaned <-
               Tables.convert_if_present py_float "creationTime" cleaned ;;
             cleaned <-
               Tables.convert_if_present py_float "lastModifiedTime" cleaned ;;
             Tables.convert_if_present py_int "defaultTableExpirationMs"
               cleaned) with
      | Raise e => (self, Raise e)
      | Ok cleaned =>
          (mkDataset (_dataset_id self) (_project self)
             (Dict.update (_properties self) cleaned) (_access_entries self),
           Ok tt)
      end
  end.

End SetProperties.

Section Attributes.

(** What attribute lookup finds beyond the properties written out
    below: the remaining properties ([created], [modified],
    [access_entries]), the methods, the attributes of [object];
    [AttributeError] for a name that is not an attribute. *)
Variable other_attr : Dataset -> string -> result pyval.

(** [getattr(dataset, f)] *)
Definition getattr (self : Dataset) (f : string) : result pyval :=
  let prop k := Ok (Dict.get_default k PNone (_properties self)) in
  if String.eqb f "project" then Ok (PStr (_project self))
  else if String.eqb f "path" then Ok (PStr (path self))
  else if String.eqb f "dataset_id" then Ok (PStr (_dataset_id self))
  else if String.eqb f "full_dataset_id" then prop "id"
  else if String.eqb f "etag" then prop "etag"
  else if String.eqb f "self_link" then prop "selfLink"
  else if String.eqb f "default_table_expiration_ms"
  then prop "defaultTableExpirationMs"
  else if String.eqb f "description" then prop "description"
  else if String.eqb f "friendly_name" then prop "friendlyName"
  else if String.eqb f "location" then prop "location"
  else other_attr self f.

(** [hasattr(dataset, f)]: false on [AttributeError] only. *)
Definition hasattr (self : Dataset) (f : string) : result bool :=
  match getattr self f with
  | Ok _ => Ok true
  | Raise (AttributeError _) => Ok false
  | Raise e => Raise e
  end.

End Attributes.

End Datasets.

(** ** The client (client.py) *)

Module Client.
Import Datasets.

Section UpdateDataset.

Variable other_attr : Dataset -> string -> result pyval.
Variable api_request : request -> result pyval.

(** One turn of the loop of [update_dataset]. *)
Definition add_field (dataset : Dataset) (partial : dict) (f : string)
  : result dict :=
  has <- hasattr other_attr dataset f ;;
  if negb has
  then Raise (ValueError "No Dataset field %s" [PStr f])
  else
    let api_field := Names.api_field f in
    v <- getattr other_attr dataset f ;;
    Ok (Dict.set api_field v partial).

(** The loop of [update_dataset] that fills [partial]. *)
Definition build_partial (dataset : Dataset) (fields : list string)
  : result dict :=
  Mapping.foldM (add_field dataset) fields [].

(** [Client.update_dataset], up to and including the call of
    [api_request]: the requests issued, and the response or the
    exception.  The conversion of the response into a [Dataset] is not
    part of the model. *)
Definition update_dataset (dataset : Dataset) (fields : list string)
  : list request * result pyval :=
  let path := "/projects/" ++ _project dataset ++ "/datasets/"
                ++ _dataset_id dataset in
  match build_partial dataset fields with
  | Raise e => ([], Raise e)
  | Ok partial =>
      let headers :=
        match etag dataset with
        | PNone => PNone
        | _ => PDict [("If-Match", etag dataset)]
        end in
      let req := mkRequest "PATCH" path (PDict partial) headers in
      ([req], api_request req)
  end.

End UpdateDataset.

End Client.

(** ** The properties of a table and their setters (table.py) *)

Module TableProperties.
Import Schema Tables.

(** The table with another property bag. *)
Definition with_properties (self : Table) (properties : dict) : Table :=
  mkTable (_project self) (_dataset_id self) (_table_id self)
    properties (_schema self).

(** [isinstance(value, six.string_types)] *)
Definition is_string (value : pyval) : bool :=
  match value with
  | PStr _ => true
  | _ => false
  end.

(** [isinstance(value, int)]: a [bool] is an [int]. *)
Definition is_int (value : pyval) : bool :=
  match value with
  | PInt _ | PBool _ => true
  | _ => false
  end.

Definition is_bool (value : pyval) : bool :=
  match value with
  | PBool _ => true
  | _ => false
  end.

Definition is_none (value : pyval) : bool :=
  match value with
  | PNone => true
  | _ => false
  end.

(** [self._properties.get(key)] *)
Definition property (k : string) (self : Table) : pyval :=
  Dict.get_default k PNone (_properties self).

Definition etag := property "etag".
Definition self_link := property "selfLink".
Definition full_table_id := property "id".
Definition table_type := property "type".
Definition description := property "description".
Definition friendly_name := property "friendlyName".
Definition location := property "location".

(** The setters of [description], [friendly_name] and [location]: the
    same check, each on its own key. *)
Definition set_string_property (k : string) (self : Table) (value : pyval)
  : result Table :=
  if negb (is_string value) && negb (is_none value)
  then Raise (ValueError "Pass a string, or None" [])
  else Ok (with_properties self (Dict.set k value (_properties self))).

Definition set_description := set_string_property "description".
Definition set_friendly_name := set_string_property "friendlyName".
Definition set_location := set_string_property "location".

(** [self._properties['view'][k] = value], after
    [if self._properties.get('view') is None:
         self._properties['view'] = {}]. *)
Definition set_view_property (k : string) (self : Table) (value : pyval)
  : result Table :=
  let properties :=
    match Dict.get_default "view" PNone (_properties self) with
    | PNone => Dict.set "view" (PDict []) (_properties self)
    | _ => _properties self
    end in
  properties <- set_in_view k value properties ;;
  Ok (with_properties self properties).

(** The setter of [view_query] *)
Definition set_view_query (self : Table) (value : pyval) : result Table :=
  if negb (is_string value)
  then Raise (ValueError "Pass a string" [])
  else set_view_property "query" self value.

(** The deleter of [view_query] *)
Definition del_view_query (self : Table) : Table :=
  with_properties self (Dict.remove "view" (_properties self)).

(** The setter of [view_use_legacy_sql] *)
Definition set_view_use_legacy_sql (self : Table) (value : pyval)
  : result Table :=
  if negb (is_bool value)
  then Raise (ValueError "Pass a boolean" [])
  else set_view_property "useLegacySql" self value.

Fixpoint upper_all (s : string) : string :=
  match s with
  | EmptyString => EmptyString
  | String c s' => String (Names.upper c) (upper_all s')
  end.

(** [partitioning_type] and [partition_expiration] *)
Definition partitioning_type := partitioning_get "type".
Definition partition_expiration := partitioning_get "expirationMs".

(** The setter of [partitioning_type] *)
Definition set_partitioning_type (self : Table) (value : pyval)
  : result Table :=
  if negb (Builtins.is_str "DAY" value || is_none value)
  then Raise (ValueError "value must be one of ['DAY', None]" [])
  else
    match value with
    | PStr day =>
        (* time_part = self._properties.setdefault('timePartitioning', {}) *)
        let properties :=
          if Dict.mem "timePartitioning" (_properties self)
          then _properties self
          else Dict.set "timePartitioning" (PDict []) (_properties self) in
        match Dict.get_default "timePartitioning" PNone properties with
        | PDict time_part =>
            Ok (with_properties self
                  (Dict.set "timePartitioning"
                     (PDict (Dict.set "type" (PStr (upper_all day)) time_part))
                     properties))
        | _ => Raise TypeError
        end
    | _ =>
        Ok (with_properties self
              (Dict.remove "timePartitioning" (_properties self)))
    end.

(** The setter of [partition_expiration] *)
Definition set_partition_expiration (self : Table) (value : pyval)
  : result Table :=
  if negb (is_int value || is_none value)
  then Raise (ValueError
                "must be an integer representing millisseconds or None" [])
  else
    match value with
    | PNone =>
        match Dict.get "timePartitioning" (_properties self) with
        | None => Ok self
        | Some (PDict time_part) =>
            (* self._properties['timePartitioning'].pop('expirationMs') *)
            if Dict.mem "expirationMs" time_part
            then Ok (with_properties self
                       (Dict.set "timePartitioning"
                          (PDict (Dict.remove "expirationMs" time_part))
                          (_properties self)))
            else Raise (KeyError (PStr "expirationMs"))
        | Some (PList _) => Raise TypeError
        | Some _ => Raise (AttributeError "pop")
        end
    | _ =>
        match Dict.get "timePartitioning" (_properties self) with
        | Some (PDict time_part) =>
            Ok (with_properties self
                  (Dict.set "timePartitioning"
                     (PDict (Dict.set "expirationMs" value time_part))
                     (_properties self)))
        | Some _ => Raise TypeError
        | None =>
            (* except KeyError *)
            Ok (with_properties self
                  (Dict.set "timePartitioning"
                     (PDict [("type", PStr "DAY"); ("expirationMs", value)])
                     (_properties self)))
        end
    end.

End TableProperties.

(** ** Building the resource of a dataset, and its setters (dataset.py) *)

Module DatasetResource.
Import Datasets.

Definition with_properties (self : Dataset) (properties : dict) : Dataset :=
  mkDataset (_dataset_id self) (_project self) properties
    (_access_entries self).

Definition property (k : string) (self : Dataset) : pyval :=
  Dict.get_default k PNone (_properties self).

Definition full_dataset_id := property "id".
Definition self_link := property "selfLink".
Definition default_table_expiration_ms := property "defaultTableExpirationMs".
Definition description := property "description".
Definition friendly_name := property "friendlyName".
Definition location := property "location".

(** The [access_entries] property: a fresh list of the stored entries. *)
Definition access_entries (self : Dataset) : list AccessEntry :=
  _access_entries self.

(** The setter of [default_table_expiration_ms] *)
Definition set_default_table_expiration_ms (self : Dataset) (value : pyval)
  : result Dataset :=
  if negb (TableProperties.is_int value) && negb (TableProperties.is_none value)
  then Raise (ValueError "Pass an integer, or None" [])
  else Ok (with_properties self
             (Dict.set "defaultTableExpirationMs" value (_properties self))).

(** The setters of [description], [friendly_name] and [location] *)
Definition set_string_property (k : string) (self : Dataset) (value : pyval)
  : result Dataset :=
  if negb (TableProperties.is_string value)
     && negb (TableProperties.is_none value)
  then Raise (ValueError "Pass a string, or None" [])
  else Ok (with_properties self (Dict.set k value (_properties self))).

Definition set_description := set_string_property "description".
Definition set_friendly_name := set_string_property "friendlyName".
Definition set_location := set_string_property "location".

(** One turn of the loop of [_build_access_resource]. *)
Definition access_info (entry : AccessEntry) : result pyval :=
  info <- Mapping.setitem (entity_type entry) (entity_id entry) [] ;;
  let info :=
    match role entry with
    | PNone => info
    | _ => Dict.set "role" (role entry) info
    end in
  Ok (PDict info).

(** [Dataset._build_access_resource] *)
Definition _build_access_resource (self : Dataset) : result pyval :=
  result <- mapM access_info (access_entries self) ;;
  Ok (PList result).

(** [resource[k] = value] unless the value is [None] *)
Definition set_if_not_none (k : string) (value : pyval) (resource : dict)
  : dict :=
  match value with
  | PNone => resource
  | _ => Dict.set k value resource
  end.

(** [Dataset._build_resource] *)
Definition _build_resource (self : Dataset) : result dict :=
  let resource :=
    [("datasetReference",
      PDict [("projectId", PStr (_project self));
             ("datasetId", PStr (_dataset_id self))])] in
  let resource :=
    set_if_not_none "defaultTableExpirationMs"
      (default_table_expiration_ms self) resource in
  let resource := set_if_not_none "description" (description self) resource in
  let resource :=
    set_if_not_none "friendlyName" (friendly_name self) resource in
  let resource := set_if_not_none "location" (location self) resource in
  if Nat.ltb 0 (List.length (access_entries self))
  then
    access <- _build_access_resource self ;;
    Ok (Dict.set "access" access resource)
  else Ok resource.

End DatasetResource.

(** ** References to datasets and tables (dataset.py, table.py) *)

Module References.

Record DatasetReference : Type :=
  mkDatasetReference {
      dr_project : pyval;
      dr_dataset_id : pyval
    }.

Record TableReference : Type :=
  mkTableReference {
      tr_project : pyval;
      tr_dataset_id : pyval;
      tr_table_id : pyval
    }.

(** [TableReference(dataset_ref, table_id)] *)
Definition new_TableReference (dataset_ref : DatasetReference)
    (table_id : pyval) : TableReference :=
  mkTableReference (dr_project dataset_ref) (dr_dataset_id dataset_ref)
    table_id.

(** [DatasetReference.table] *)
Definition table (self : DatasetReference) (table_id : pyval)
  : TableReference :=
  new_TableReference self table_id.

(** [TableReference.from_api_repr] *)
Definition from_api_repr (resource : pyval) : result TableReference :=
  project <- Builtins.getitem "projectId" resource ;;
  dataset_id <- Builtins.getitem "datasetId" resource ;;
  table_id <- Builtins.getitem "tableId" resource ;;
  Ok (new_TableReference (mkDatasetReference project dataset_id) table_id).

(** [TableReference.to_api_repr] *)
Definition to_api_repr (self : TableReference) : pyval :=
  PDict [("projectId", tr_project self);
         ("datasetId", tr_dataset_id self);
         ("tableId", tr_table_id self)].

(** The message of the [KeyError] of [Table.from_api_repr]; [quoted]
    puts a word between double quotes. *)
Definition quoted (s : string) : string :=
  String (ascii_of_nat 34)
    (String.append s (String (ascii_of_nat 34) EmptyString)).

Definition lacks_identity : string :=
  String.append "Resource lacks required identity information:["
    (String.append (quoted "tableReference")
       (String.append "]["
          (String.append (quoted "tableId") "]"))).

(** The identity part of [Table.from_api_repr]: the check of the
    resource and the reference of the table it describes. *)
Definition table_reference_of (resource : pyval) : result TableReference :=
  has_ref <- Builtins.contains "tableReference" resource ;;
  has_id <-
    (if (has_ref : bool)
     then ref <- Builtins.getitem "tableReference" resource ;;
          Builtins.contains "tableId" ref
     else Ok false) ;;
  if negb has_ref || negb has_id
  then Raise (KeyError (PStr lacks_identity))
  else
    ref <- Builtins.getitem "tableReference" resource ;;
    project_id <- Builtins.getitem "projectId" ref ;;
    ref <- Builtins.getitem "tableReference" resource ;;
    table_id <- Builtins.getitem "tableId" ref ;;
    ref <- Builtins.getitem "tableReference" resource ;;
    dataset_id <- Builtins.getitem "datasetId" ref ;;
    Ok (table (mkDatasetReference project_id dataset_id) table_id).

End References.

(** * Specification vocabulary *)

Module Canonical.
Import Schema.

(** An optional key of a field object: written when the value is
    there, left out otherwise. *)
Definition opt_entry (k : string) (v : option pyval) : dict :=
  match v with
  | Some x => [(k, x)]
  | None => []
  end.

(** The [fields] key of a field object: left out when there are no
    children. *)
Definition fields_entry (children : list pyval) : dict :=
  match children with
  | [] => []
  | _ :: _ => [("fields", PList children)]
  end.

(** A field object in canonical form: the keys [name], [type], [mode],
    [description], [fields] in this order; [description] only when it
    is not null, [fields] only when there are children, themselves
    canonical.  With [mode_optional] the key [mode] may be left out as
    well; without it the key is always written. *)
#[local] Unset Elimination Schemes.
Inductive canonical_field (mode_optional : bool) : pyval -> Prop :=
| canonical_field_intro :
    forall (n t : pyval) (m descr : option pyval) (children : list pyval),
      (mode_optional = false -> m <> None) ->
      descr <> Some PNone ->
      Forall (canonical_field mode_optional) children ->
      canonical_field mode_optional
        (PDict (("name", n) :: ("type", t) :: opt_entry "mode" m
                  ++ opt_entry "description" descr
                  ++ fields_entry children)%list).
#[local] Set Elimination Schemes.

(** A schema resource whose [fields] array is made of canonical field
    objects. *)
Definition canonical_schema (mode_optional : bool) (x : pyval)
    (children : list pyval) : Prop :=
  Builtins.getitem "fields" x = Ok (PList children) /\
  Forall (canonical_field mode_optional) children.

(** [encode(decode(x))] *)
Definition encode_decode (x : pyval) : result pyval :=
  fields <- _parse_schema_resource x ;;
  Ok (_build_schema_resource (items fields)).

(** The schema with one field object that leaves [mode] out:
    [{"fields": [{"name": "a", "type": "STRING"}]}]. *)
Definition fields_without_mode : list pyval :=
  [PDict [("name", PStr "a"); ("type", PStr "STRING")]].

Definition schema_without_mode : pyval :=
  PDict [("fields", PList fields_without_mode)].

(** A schema with RECORD fields nested two levels deep. *)
Definition zip_field : pyval :=
  PDict [("name", PStr "zip"); ("type", PStr "STRING");
         ("mode", PStr "NULLABLE")].

Definition address_field : pyval :=
  PDict [("name", PStr "address"); ("type", PStr "RECORD");
         ("mode", PStr "REPEATED"); ("fields", PList [zip_field])].

Definition owner_field : pyval :=
  PDict [("name", PStr "owner"); ("type", PStr "RECORD");
         ("mode", PStr "NULLABLE"); ("description", PStr "who");
         ("fields", PList [address_field])].

Definition id_field : pyval :=
  PDict [("name", PStr "id"); ("type", PStr "INTEGER");
         ("mode", PStr "REQUIRED")].

Definition fields_two_levels : list pyval := [id_field; owner_field].

Definition schema_two_levels : pyval :=
  PDict [("fields", PList fields_two_levels)].

End Canonical.

(** Vocabulary for the projection of a mapping onto a row. *)

Module RowSpec.
Import Schema Tables.

Definition is_required (f : SchemaField) : bool :=
  Builtins.is_str "REQUIRED" (mode f).
Definition is_repeated (f : SchemaField) : bool :=
  Builtins.is_str "REPEATED" (mode f).
Definition is_nullable (f : SchemaField) : bool :=
  Builtins.is_str "NULLABLE" (mode f).

(** The mode is one of REQUIRED, NULLABLE, REPEATED. *)
Definition known_mode (f : SchemaField) : bool :=
  is_required f || is_repeated f || is_nullable f.

(** What the mapping holds for a field, if anything. *)
Definition present (mapping : dict) (f : SchemaField) : option pyval :=
  match name f with
  | PStr s => Dict.get s mapping
  | _ => None
  end.

(** The value of a field in the row, in the words of the
    specification: the value of the mapping when there is one, else the
    empty sequence for a REPEATED field and null for the others. *)
Definition projected_value (mapping : dict) (f : SchemaField) : pyval :=
  match present mapping f with
  | Some v => v
  | None => if is_repeated f then PTuple [] else PNone
  end.

(** A field that [row_from_mapping] gets past: a name that can be
    looked up, a known mode, a value when the field is REQUIRED. *)
Definition projectable (mapping : dict) (f : SchemaField) : bool :=
  Builtins.hashable (name f) && known_mode f &&
  (negb (is_required f) ||
   match present mapping f with Some _ => true | None => false end).

Definition leaf (n m : string) : SchemaField :=
  mkSchemaField (PStr n) (PStr "STRING") (PStr m) PNone [].

Definition table_of (schema : list SchemaField) : Table :=
  mkTable "proj" "ds" "tbl" [] schema.

(** The schema [REQUIRED "a", REPEATED "b", NULLABLE "c"]. *)
Definition schema_abc : list SchemaField :=
  [leaf "a" "REQUIRED"; leaf "b" "REPEATED"; leaf "c" "NULLABLE"].

(** A schema with a field of mode BOGUS. *)
Definition schema_bogus : list SchemaField :=
  [leaf "a" "REQUIRED"; leaf "b" "BOGUS"].

(** [self] with another schema. *)
Definition with_schema (self : Table) (schema : list SchemaField) : Table :=
  mkTable (_project self) (_dataset_id self) (_table_id self)
    (_properties self) schema.

End RowSpec.

(** Vocabulary for the bulk insert: a connection that accepts every
    request, an empty converter table, and rows of the wrong arity. *)

Module InsertSpec.
Import Schema Tables RowSpec.

Definition no_converters : pyval -> option (pyval -> result pyval) :=
  fun _ => None.

Definition accepting : request -> result pyval :=
  fun _ => Ok (PDict []).

Definition int_of : pyval -> result pyval := fun v => Ok v.

(** Every converter of the table returns a value. *)
Definition converters_total
    (conv : pyval -> option (pyval -> result pyval)) : Prop :=
  forall t c v, conv t = Some c -> exists v', c v = Ok v'.

Definition named_by_string (f : SchemaField) : Prop :=
  exists s, name f = PStr s.

(** A table with the one-field schema [a]. *)
Definition table_a : Table := table_of [leaf "a" "REQUIRED"].

(** A row of two values for it. *)
Definition long_row : pyval := PTuple [PInt 1; PInt 2].

(** A row of one value for the three fields of [schema_abc]. *)
Definition short_row : pyval := PTuple [PInt 1].

Definition insert_request (self : Table) (rows : list pyval) : request :=
  mkRequest "POST" (path self ++ "/insertAll")
    (PDict [("rows", PList rows)]) PNone.

End InsertSpec.

(** Vocabulary for field names and partial updates. *)

Module UpdateSpec.
Import Datasets.

(** [sep.join(words)] *)
Fixpoint join_with (sep : string) (words : list string) : string :=
  match words with
  | [] => EmptyString
  | [w] => w
  | w :: ws => String.append w (String.append sep (join_with sep ws))
  end.

(** The word holds no underscore. *)
Fixpoint is_word (w : string) : bool :=
  match w with
  | EmptyString => true
  | String c w' => negb (Ascii.eqb c "_"%char) && is_word w'
  end.

(** An object with no attribute beyond the modelled properties. *)
Definition no_other_attr : Dataset -> string -> result pyval :=
  fun _ f => Raise (AttributeError f).

(** The dataset of the example: friendly name ["x"], default table
    expiration 5000 ms, no etag. *)
Definition dataset_x : Dataset :=
  mkDataset "ds" "proj"
    [("friendlyName", PStr "x"); ("defaultTableExpirationMs", PInt 5000)]
    [].

(** The same dataset as fetched from the server, with etag ["abc"]. *)
Definition dataset_abc : Dataset :=
  mkDataset "ds" "proj"
    [("etag", PStr "abc"); ("friendlyName", PStr "x");
     ("defaultTableExpirationMs", PInt 5000)]
    [].

Definition changed_xy : list string :=
  ["friendly_name"; "default_table_expiration_ms"].

Definition body_xy : pyval :=
  PDict [("friendlyName", PStr "x");
         ("defaultTableExpirationMs", PInt 5000)].

(** The keys of a dictionary, as a predicate. *)
Definition has_key (k : string) (d : dict) : Prop := In k (Dict.keys d).

(** A table whose property bag holds a key of an earlier fetch, and a
    response that does not mention it. *)
Definition stale_table : Tables.Table :=
  Tables.mkTable "proj" "ds" "tbl"
    [("stale", PInt 1); ("etag", PStr "old")] [].

Definition stale_dataset : Dataset :=
  mkDataset "ds" "proj" [("stale", PInt 1); ("etag", PStr "old")] [].

Definition fetched : dict :=
  [("etag", PStr "abc"); ("creationTime", PInt 5);
   ("schema", Canonical.schema_two_levels)].

End UpdateSpec.

(** Vocabulary for the schema codec beyond the round trip. *)

Module CodecSpec.
Import Schema.

(** The field [f] is what the loop of [_parse_schema_resource] makes
    of the field object [r]: the [name] and [type] of the object, its
    [mode] or NULLABLE, its [description] or null, and the parse of the
    object itself as children. *)
Definition decodes (r : pyval) (f : SchemaField) : Prop :=
  Builtins.getitem "name" r = Ok (name f) /\
  Builtins.getitem "type" r = Ok (field_type f) /\
  Builtins.get "mode" (PStr "NULLABLE") r = Ok (mode f) /\
  Builtins.get "description" PNone r = Ok (description f) /\
  exists sub, _parse_schema_resource r = Ok sub /\ fields f = items sub.

(** A schema resource around a [fields] array. *)
Definition schema_of (r_fields : list pyval) : pyval :=
  PDict [("fields", PList r_fields)].

(** Field objects without [name], without [type]. *)
Definition nameless : pyval := PDict [("type", PStr "STRING")].
Definition typeless : pyval := PDict [("name", PStr "a")].

End CodecSpec.

(** Vocabulary for the access entries and the resource of a dataset. *)

Module DatasetSpec.
Import Datasets DatasetResource.

(** What the constructor of [AccessEntry] lets through: an entity type
    among [ENTITY_TYPES], no role for a view, a role for the others. *)
Definition valid_entry (e : AccessEntry) : Prop :=
  exists t,
    In t ENTITY_TYPES /\ entity_type e = PStr t /\
    (t = "view" -> role e = PNone) /\
    (t <> "view" -> role e <> PNone).

(** The entry of a property in a resource: none when the property is
    [None]. *)
Definition sent (k : string) (value : pyval) : dict :=
  if TableProperties.is_none value then [] else [(k, value)].

(** The resource of a dataset without its access entries. *)
Definition resource_base (self : Dataset) : dict :=
  (("datasetReference",
    PDict [("projectId", PStr (_project self));
           ("datasetId", PStr (_dataset_id self))])
     :: sent "defaultTableExpirationMs" (default_table_expiration_ms self)
     ++ sent "description" (description self)
     ++ sent "friendlyName" (friendly_name self)
     ++ sent "location" (location self))%list.

Definition owner_entry : AccessEntry :=
  mkAccessEntry (PStr "OWNER") (PStr "userByEmail") (PStr "a@example.com").

Definition view_entry : AccessEntry :=
  mkAccessEntry PNone (PStr "view")
    (PDict [("projectId", PStr "p"); ("datasetId", PStr "d");
            ("tableId", PStr "t")]).

(** A dataset with a friendly name, a null description and two access
    entries. *)
Definition shared_dataset : Dataset :=
  mkDataset "ds" "proj"
    [("friendlyName", PStr "x"); ("description", PNone)]
    [owner_entry; view_entry].

End DatasetSpec.

(** Vocabulary for the payload of the bulk insert. *)

Module PayloadSpec.

(** What the payload holds under the key of an optional argument:
    nothing when the argument is [None]. *)
Definition flag (v : pyval) : option pyval :=
  if TableProperties.is_none v then None else Some v.

End PayloadSpec.

(** Vocabulary for a projected row that is then encoded. *)

Module EncodeSpec.
Import Schema.

(** The key a field is filed under in the JSON of a row. *)
Definition key_of (f : SchemaField) : string :=
  match name f with
  | PStr s => s
  | _ => EmptyString
  end.

End EncodeSpec.

(** Vocabulary for the names [update_dataset] accepts. *)

Module AttributeSpec.
Import Datasets.

(** The properties of [Dataset]: the names declared with [@property]
    in dataset.py. *)
Definition dataset_properties : list string :=
  ["project"; "path"; "access_entries"; "created"; "dataset_id";
   "full_dataset_id"; "etag"; "modified"; "self_link";
   "default_table_expiration_ms"; "description"; "friendly_name";
   "location"].

(** The methods dataset.py defines on [Dataset]. *)
Definition dataset_methods : list string :=
  ["from_api_repr"; "_parse_access_entries"; "_set_properties";
   "_build_access_resource"; "_build_resource"; "table"].

(** Attribute lookup on a dataset beyond the properties of
    [Datasets.getattr]: a method of the class is found, as a bound
    method, and so are the instance attributes [__init__] assigns that
    the record holds.  ([created], [modified], [access_entries],
    [_client], [_access_entries] and the attributes of [object] are
    attributes too; they are not listed here.) *)
Definition dataset_members (self : Dataset) (f : string) : result pyval :=
  if existsb (String.eqb f) dataset_methods
  then Ok (PObject (String.append "bound method Dataset." f))
  else if String.eqb f "_properties" then Ok (PDict (_properties self))
  else if String.eqb f "_dataset_id" then Ok (PStr (_dataset_id self))
  else if String.eqb f "_project" then Ok (PStr (_project self))
  else Raise (AttributeError f).

End AttributeSpec.

(** * Properties of the schema codec *)

Section SchemaCodec.
Import Schema Canonical.

Lemma dict_get_mem (k : string) (d : dict) (v : pyval) :
  Dict.get k d = Some v -> Dict.mem k d = true.
Proof.
  induction d as [|[k' v'] d IH]; simpl; [discriminate|].
  destruct (String.eqb k k'); [reflexivity|exact IH].
Qed.

Lemma mapM_ext_in {A B} (f g : A -> result B) (l : list A) :
  (forall x, In x l -> f x = g x) -> mapM f l = mapM g l.
Proof.
  induction l as [|a l IH]; intros H; simpl; [reflexivity|].
  rewrite (H a) by (left; reflexivity).
  rewrite IH by (intros x Hx; apply H; right; exact Hx).
  reflexivity.
Qed.

Lemma depth_in_list (x : pyval) (l : list pyval) :
  In x l -> Builtins.depth x <= list_max (map Builtins.depth l).
Proof.
  intros Hin.
  assert (H : Forall (fun k => k <= list_max (map Builtins.depth l))
                (map Builtins.depth l))
    by (apply list_max_le; lia).
  rewrite Forall_forall in H. apply H. apply in_map. exact Hin.
Qed.

Lemma depth_dict_get (k : string) (d : dict) (v : pyval) :
  Dict.get k d = Some v -> Builtins.depth v < Builtins.depth (PDict d).
Proof.
  intros Hget.
  assert (Hin : In v (map snd d)).
  { induction d as [|[k' v'] d IH]; simpl in *; [discriminate|].
    destruct (String.eqb k k').
    - injection Hget as ->. left; reflexivity.
    - right. apply IH. exact Hget. }
  apply depth_in_list in Hin. rewrite map_map in Hin.
  simpl. lia.
Qed.

(** A field object reached by the loop lies two levels below [info]. *)
Lemma depth_r_field (info a : pyval) (l : list pyval) (d : dict) :
  Builtins.getitem "fields" info = Ok a ->
  Builtins.iter a = Ok l ->
  In (PDict d) l ->
  S (Builtins.depth (PDict d)) < Builtins.depth info.
Proof.
  intros Hget Hiter Hin.
  destruct info; try discriminate. unfold Builtins.getitem, Dict.getitem in Hget.
  destruct (Dict.get "fields" d0) as [v|] eqn:E; [|discriminate].
  injection Hget as ->.
  apply depth_dict_get in E.
  assert (Builtins.depth (PDict d) < Builtins.depth a); [|lia].
  destruct a; try discriminate; simpl in Hiter; injection Hiter as <-.
  - exfalso. clear E. induction s as [|c s IH]; simpl in Hin; [exact Hin|].
    destruct Hin as [H|H]; [discriminate|auto].
  - apply depth_in_list in Hin. simpl in *. lia.
  - apply depth_in_list in Hin. simpl in *. lia.
  - exfalso. apply in_map_iff in Hin. destruct Hin as [? [? _]]. discriminate.
Qed.

Lemma parse_field_ext (f g : pyval -> result (pyseq SchemaField))
    (r_field : pyval) :
  (forall d, r_field = PDict d -> f r_field = g r_field) ->
  parse_field f r_field = parse_field g r_field.
Proof.
  intros H. destruct r_field; try reflexivity.
  unfold parse_field. rewrite (H d eq_refl). reflexivity.
Qed.

Lemma parse_body_ext (f g : pyval -> result (pyseq SchemaField))
    (info : pyval) :
  (forall d, S (Builtins.depth (PDict d)) < Builtins.depth info ->
             f (PDict d) = g (PDict d)) ->
  parse_body f info = parse_body g info.
Proof.
  intros H. unfold parse_body.
  destruct (Builtins.contains "fields" info) as [[|]|e]; simpl; try reflexivity.
  destruct (Builtins.getitem "fields" info) as [a|e] eqn:Hget; simpl;
    [|reflexivity].
  destruct (Builtins.iter a) as [l|e] eqn:Hiter; simpl; [|reflexivity].
  rewrite (mapM_ext_in (parse_field f) (parse_field g)); [reflexivity|].
  intros x Hx. apply parse_field_ext. intros d ->.
  apply H. eapply depth_r_field; eassumption.
Qed.

(** The result does not depend on the stack bound once it exceeds the
    depth of the value. *)
Lemma parse_schema_resource_at_stable (n m : nat) (info : pyval) :
  Builtins.depth info < n -> Builtins.depth info < m ->
  parse_schema_resource_at n info = parse_schema_resource_at m info.
Proof.
  revert m info. induction n as [|n IH]; intros m info Hn Hm; [lia|].
  destruct m as [|m]; [lia|]. simpl.
  apply parse_body_ext. intros d Hd. apply IH; lia.
Qed.

Lemma parse_schema_resource_at_enough (n : nat) (info : pyval) :
  Builtins.depth info < n ->
  parse_schema_resource_at n info = _parse_schema_resource info.
Proof.
  intros H. apply parse_schema_resource_at_stable; [exact H|lia].
Qed.

(** The recursive equation of the source. *)
Lemma _parse_schema_resource_unfold (info : pyval) :
  _parse_schema_resource info = parse_body _parse_schema_resource info.
Proof.
  unfold _parse_schema_resource at 1. simpl.
  apply parse_body_ext. intros d Hd.
  apply parse_schema_resource_at_enough. lia.
Qed.

Lemma mapM_raises {A B} (f : A -> result B) (l : list A) (e : exn) :
  mapM f l = Raise e -> exists x, In x l /\ f x = Raise e.
Proof.
  induction l as [|a l IH]; simpl; [discriminate|].
  destruct (f a) as [b|e'] eqn:Ha; simpl.
  - destruct (mapM f l) as [bs|e'']; simpl; [discriminate|].
    intros [= ->]. destruct (IH eq_refl) as [x [Hin Hx]].
    exists x. split; [right; exact Hin|exact Hx].
  - intros [= ->]. exists a. split; [left; reflexivity|exact Ha].
Qed.

Lemma getitem_no_overflow (k : string) (v : pyval) :
  Builtins.getitem k v <> Raise RecursionError.
Proof.
  destruct v; try discriminate.
  unfold Builtins.getitem, Dict.getitem.
  destruct (Dict.get k d); discriminate.
Qed.

(** The stack bound is never hit. *)
Lemma _parse_schema_resource_no_overflow (info : pyval) :
  _parse_schema_resource info <> Raise RecursionError.
Proof.
  remember (Builtins.depth info) as k eqn:Hk.
  revert info Hk. induction k as [k IH] using lt_wf_ind. intros info Hk.
  rewrite _parse_schema_resource_unfold. unfold parse_body.
  destruct (Builtins.contains "fields" info) as [[|]|e] eqn:Hc; simpl;
    try discriminate.
  - destruct (Builtins.getitem "fields" info) as [a|e] eqn:Hget; simpl.
    + destruct (Builtins.iter a) as [l|e] eqn:Hiter; simpl.
      * destruct (mapM (parse_field _parse_schema_resource) l) as [fs|e]
          eqn:Hm; simpl; [discriminate|].
        intros [= ->]. apply mapM_raises in Hm. destruct Hm as [x [Hin Hx]].
        destruct x; try discriminate.
        pose proof (depth_r_field _ _ _ _ Hget Hiter Hin) as Hd.
        unfold parse_field in Hx.
        destruct (Builtins.getitem "name" (PDict d)) as [?|?] eqn:E1;
          [|injection Hx as ->; exact (getitem_no_overflow _ _ E1)].
        destruct (Builtins.getitem "type" (PDict d)) as [?|?] eqn:E2;
          [|injection Hx as ->; exact (getitem_no_overflow _ _ E2)].
        simpl in Hx.
        destruct (_parse_schema_resource (PDict d)) as [?|?] eqn:E3;
          [discriminate|].
        simpl in Hx. injection Hx as ->.
        apply (IH (Builtins.depth (PDict d))) with (info := PDict d);
          [lia|reflexivity|exact E3].
      * destruct a; try discriminate Hiter; injection Hiter as <-;
          discriminate.
    + intros [= ->]. exact (getitem_no_overflow _ _ Hget).
  - destruct info; try discriminate Hc; injection Hc as <-; discriminate.
Qed.

Lemma canonical_field_ind (mode_optional : bool) (P : pyval -> Prop) :
  (forall n t m descr children,
      (mode_optional = false -> m <> None) ->
      descr <> Some PNone ->
      Forall (canonical_field mode_optional) children ->
      Forall P children ->
      P (PDict (("name", n) :: ("type", t) :: opt_entry "mode" m
                  ++ opt_entry "description" descr
                  ++ fields_entry children)%list)) ->
  forall v, canonical_field mode_optional v -> P v.
Proof.
  intros step. fix IH 2. intros v H.
  destruct H as [n t m descr children Hm Hd Hc].
  apply step; try assumption.
  revert children Hc. fix IHl 2. intros children Hc.
  destruct Hc as [|c cs Hc Hcs].
  - constructor.
  - constructor; [apply IH; exact Hc|apply IHl; exact Hcs].
Qed.

Lemma mapM_round_trip (l : list pyval) :
  Forall (fun c => exists f,
              parse_field _parse_schema_resource c = Ok f /\
              build_field_info f = c) l ->
  exists fs,
    mapM (parse_field _parse_schema_resource) l = Ok fs /\
    map build_field_info fs = l.
Proof.
  induction 1 as [|c cs [f [Hf Hb]] _ [fs [Hfs Hbs]]]; simpl.
  - exists []. split; reflexivity.
  - exists (f :: fs). rewrite Hf, Hfs. simpl. rewrite Hb, Hbs.
    split; reflexivity.
Qed.

Lemma canonical_field_round_trip (c : pyval) :
  canonical_field false c ->
  exists f,
    parse_field _parse_schema_resource c = Ok f /\ build_field_info f = c.
Proof.
  induction 1 as [n t m descr children Hm Hd _ IH] using canonical_field_ind.
  destruct m as [mv|]; [clear Hm|exfalso; apply Hm; reflexivity].
  apply mapM_round_trip in IH. destruct IH as [fs [Hfs Hbs]].
  unfold parse_field. rewrite _parse_schema_resource_unfold.
  unfold parse_body.
  destruct descr as [dv|]; destruct children as [|c cs]; simpl.
  - eexists. split; [reflexivity|].
    destruct dv; try reflexivity. exfalso; apply Hd; reflexivity.
  - simpl in Hfs. rewrite Hfs. simpl.
    eexists. split; [reflexivity|].
    destruct fs as [|f fs]; [discriminate|].
    simpl. simpl in Hbs. rewrite Hbs.
    destruct dv; try reflexivity. exfalso; apply Hd; reflexivity.
  - eexists. split; reflexivity.
  - simpl in Hfs. rewrite Hfs. simpl.
    eexists. split; [reflexivity|].
    destruct fs as [|f fs]; [discriminate|].
    simpl. simpl in Hbs. rewrite Hbs. reflexivity.
Qed.

(** C1, as amended.  For every schema resource whose [fields] array
    holds canonical field objects -- the keys [name], [type], [mode] in
    this order and always written, then [description] only when it is
    not null and [fields] only when there are children, canonical in
    turn -- building the resource of the parsed fields gives the
    [fields] array back: [encode(decode(x)) == x["fields"]], nested
    RECORD fields included. *)
Theorem schema_round_trip (x : pyval) (children : list pyval) :
  canonical_schema false x children ->
  encode_decode x = Ok (PList children).
Proof.
  intros [Hget Hall].
  assert (IH : Forall (fun c => exists f,
                parse_field _parse_schema_resource c = Ok f /\
                build_field_info f = c) children).
  { eapply Forall_impl; [|exact Hall].
    intros c Hc. apply canonical_field_round_trip. exact Hc. }
  apply mapM_round_trip in IH. destruct IH as [fs [Hfs Hbs]].
  unfold encode_decode. rewrite _parse_schema_resource_unfold.
  unfold parse_body. rewrite Hget.
  destruct x; try discriminate. simpl.
  unfold Builtins.getitem, Dict.getitem in Hget.
  destruct (Dict.get "fields" d) as [v|] eqn:Hv; [|discriminate].
  rewrite (dict_get_mem _ _ _ Hv). simpl. rewrite Hfs. simpl.
  unfold _build_schema_resource. rewrite Hbs. reflexivity.
Qed.

Lemma schema_round_trip_witness :
  canonical_schema false schema_two_levels fields_two_levels /\
  encode_decode schema_two_levels = Ok (PList fields_two_levels).
Proof.
  assert (Hzip : canonical_field false zip_field).
  { apply (canonical_field_intro false (PStr "zip") (PStr "STRING")
             (Some (PStr "NULLABLE")) None []);
      [discriminate|discriminate|constructor]. }
  assert (Haddress : canonical_field false address_field).
  { apply (canonical_field_intro false (PStr "address") (PStr "RECORD")
             (Some (PStr "REPEATED")) None [zip_field]);
      [discriminate|discriminate|repeat constructor; exact Hzip]. }
  assert (Howner : canonical_field false owner_field).
  { apply (canonical_field_intro false (PStr "owner") (PStr "RECORD")
             (Some (PStr "NULLABLE")) (Some (PStr "who")) [address_field]);
      [discriminate|discriminate|repeat constructor; exact Haddress]. }
  assert (Hid : canonical_field false id_field).
  { apply (canonical_field_intro false (PStr "id") (PStr "INTEGER")
             (Some (PStr "REQUIRED")) None []);
      [discriminate|discriminate|constructor]. }
  assert (H : canonical_schema false schema_two_levels fields_two_levels).
  { split; [reflexivity|]. repeat constructor; assumption. }
  split; [exact H|].
  exact (schema_round_trip schema_two_levels fields_two_levels H).
Defined.

(** C1, as stated, fails: a field object that leaves the optional key
    [mode] out is canonical in the sense of the claim, and comes back
    with ["mode": "NULLABLE"] added. *)
Lemma schema_round_trip_counterexample :
  canonical_schema true schema_without_mode fields_without_mode /\
  encode_decode schema_without_mode
  = Ok (PList [PDict [("name", PStr "a"); ("type", PStr "STRING");
                      ("mode", PStr "NULLABLE")]]) /\
  encode_decode schema_without_mode <> Ok (PList fields_without_mode).
Proof.
  split; [|split].
  - split; [reflexivity|].
    repeat constructor.
    apply (canonical_field_intro true (PStr "a") (PStr "STRING")
             None None []); [discriminate|discriminate|constructor].
  - reflexivity.
  - discriminate.
Qed.

(** C2.  For every input without a [fields] key,
    [_parse_schema_resource] returns the empty tuple [()]; for a RECORD
    field object whose [fields] array is empty it returns the empty
    list [[]], a different value. *)
Theorem parse_without_fields_key (info record : pyval) :
  Builtins.contains "fields" info = Ok false ->
  Builtins.getitem "fields" record = Ok (PList []) ->
  _parse_schema_resource info = Ok (SeqTuple []) /\
  items (SeqTuple (A := SchemaField) []) = [] /\
  _parse_schema_resource record = Ok (SeqList []) /\
  _parse_schema_resource info <> _parse_schema_resource record.
Proof.
  intros Hinfo Hrec.
  assert (H1 : _parse_schema_resource info = Ok (SeqTuple [])).
  { rewrite _parse_schema_resource_unfold. unfold parse_body.
    rewrite Hinfo. reflexivity. }
  assert (H2 : _parse_schema_resource record = Ok (SeqList [])).
  { rewrite _parse_schema_resource_unfold. unfold parse_body.
    rewrite Hrec. destruct record; try discriminate. simpl.
    unfold Builtins.getitem, Dict.getitem in Hrec.
    destruct (Dict.get "fields" d) as [v|] eqn:Hv; [|discriminate].
    rewrite (dict_get_mem _ _ _ Hv). reflexivity. }
  rewrite H1, H2. repeat split; discriminate.
Qed.

Lemma parse_without_fields_key_witness :
  _parse_schema_resource (PDict [("name", PStr "a"); ("type", PStr "STRING")])
  = Ok (SeqTuple []) /\
  _parse_schema_resource
    (PDict [("name", PStr "r"); ("type", PStr "RECORD");
            ("fields", PList [])])
  = Ok (SeqList []).
Proof.
  pose proof (parse_without_fields_key
                (PDict [("name", PStr "a"); ("type", PStr "STRING")])
                (PDict [("name", PStr "r"); ("type", PStr "RECORD");
                        ("fields", PList [])])
                eq_refl eq_refl) as [H1 [_ [H2 _]]].
  split; assumption.
Defined.

End SchemaCodec.

(** * Properties of the projection of a mapping onto a row *)

Section RowFromMapping.
Import Schema Tables RowSpec.

Lemma row_from_mapping_loop (self : Table) (mapping : dict) :
  _schema self <> [] ->
  row_from_mapping self mapping
  = (row <- mapM (project_field mapping) (_schema self) ;; Ok (PTuple row)).
Proof.
  intros Hne. unfold row_from_mapping.
  destruct (_schema self) as [|f fs] eqn:E; [contradiction|].
  unfold schema. rewrite E. reflexivity.
Qed.

Lemma lookup_present (mapping : dict) (f : SchemaField) :
  Builtins.hashable (name f) = true ->
  Mapping.lookup (name f) mapping = Ok (present mapping f).
Proof.
  unfold Mapping.lookup, present. intros H.
  destruct (name f); try reflexivity; try discriminate H.
  rewrite H. reflexivity.
Qed.

Lemma project_field_projectable (mapping : dict) (f : SchemaField) :
  projectable mapping f = true ->
  project_field mapping f = Ok (projected_value mapping f).
Proof.
  unfold projectable, known_mode, is_required, is_repeated, is_nullable,
    project_field, projected_value, Mapping.getitem, Mapping.get.
  intros H.
  apply andb_prop in H. destruct H as [H Hreq].
  apply andb_prop in H. destruct H as [Hhash Hmode].
  rewrite (lookup_present _ _ Hhash). simpl.
  unfold is_repeated.
  destruct (Builtins.is_str "REQUIRED" (mode f)) eqn:E1.
  - simpl in Hreq. destruct (present mapping f); [reflexivity|discriminate].
  - destruct (Builtins.is_str "REPEATED" (mode f)) eqn:E2.
    + destruct (present mapping f); reflexivity.
    + simpl in Hmode. rewrite Hmode.
      destruct (present mapping f); reflexivity.
Qed.

Lemma mapM_projectable (mapping : dict) (l : list SchemaField) :
  Forall (fun f => projectable mapping f = true) l ->
  mapM (project_field mapping) l = Ok (map (projected_value mapping) l).
Proof.
  induction 1 as [|f fs Hf _ IH]; simpl; [reflexivity|].
  rewrite (project_field_projectable _ _ Hf), IH. reflexivity.
Qed.

Lemma mapM_first_failure {A B} (f : A -> result B) (pre : list A) (x : A)
    (post : list A) (ys : list B) (e : exn) :
  mapM f pre = Ok ys -> f x = Raise e ->
  mapM f (pre ++ x :: post) = Raise e.
Proof.
  revert ys. induction pre as [|a pre IH]; intros ys Hpre Hx; simpl.
  - rewrite Hx. reflexivity.
  - simpl in Hpre. destruct (f a) as [b|e']; [|discriminate]. simpl in *.
    destruct (mapM f pre) as [bs|e']; [|discriminate].
    rewrite (IH bs eq_refl Hx). reflexivity.
Qed.

Lemma mapM_ok_inv {A B} (f : A -> result B) (l : list A) (ys : list B) :
  mapM f l = Ok ys -> forall x, In x l -> exists y, f x = Ok y.
Proof.
  revert ys. induction l as [|a l IH]; intros ys H x Hin; [contradiction|].
  simpl in H. destruct (f a) as [b|e] eqn:Ha; [|discriminate]. simpl in H.
  destruct (mapM f l) as [bs|e] eqn:Hl; [|discriminate].
  destruct Hin as [<-|Hin]; [exists b; exact Ha|exact (IH bs eq_refl x Hin)].
Qed.

(** C4.  On a table with a schema, [row_from_mapping] walks the fields
    in their declared order.  When every field can be projected -- a
    known mode, and a value in the mapping for each REQUIRED field --
    the row is the tuple of the projected values in schema order: the
    value of the mapping, else [()] for a REPEATED and [None] for a
    NULLABLE field.  When the first field that cannot be projected is a
    REQUIRED one without a value, the call raises [KeyError] for its
    name.  On the schema [REQUIRED a, REPEATED b, NULLABLE c] the
    mapping [{"a": 1}] gives [(1, (), None)] and the empty mapping
    raises [KeyError('a')]. *)
Theorem row_from_mapping_schema_order (self : Table) (mapping : dict) :
  _schema self <> [] ->
  (Forall (fun f => projectable mapping f = true) (_schema self) ->
   row_from_mapping self mapping
   = Ok (PTuple (map (projected_value mapping) (_schema self)))) /\
  (forall pre f post,
      _schema self = (pre ++ f :: post)%list ->
      Forall (fun g => projectable mapping g = true) pre ->
      is_required f = true ->
      Builtins.hashable (name f) = true ->
      present mapping f = None ->
      row_from_mapping self mapping = Raise (KeyError (name f))) /\
  row_from_mapping (table_of schema_abc) [("a", PInt 1)]
  = Ok (PTuple [PInt 1; PTuple []; PNone]) /\
  row_from_mapping (table_of schema_abc) [] = Raise (KeyError (PStr "a")).
Proof.
  intros Hne. rewrite (row_from_mapping_loop _ _ Hne).
  split; [|split; [|split; reflexivity]].
  - intros Hall. rewrite (mapM_projectable _ _ Hall). reflexivity.
  - intros pre f post Hs Hpre Hreq Hhash Habs. rewrite Hs.
    rewrite (mapM_first_failure _ pre f post _ (KeyError (name f))
               (mapM_projectable _ _ Hpre)); [reflexivity|].
    unfold project_field, is_required in *. rewrite Hreq.
    unfold Mapping.getitem. rewrite (lookup_present _ _ Hhash), Habs.
    reflexivity.
Qed.

Lemma row_from_mapping_schema_order_witness :
  row_from_mapping (table_of schema_abc) [("c", PInt 3); ("a", PInt 1)]
  = Ok (PTuple [PInt 1; PTuple []; PInt 3]) /\
  row_from_mapping (table_of schema_abc) [("c", PInt 3)]
  = Raise (KeyError (PStr "a")).
Proof.
  assert (Hne : _schema (table_of schema_abc) <> []) by discriminate.
  destruct (row_from_mapping_schema_order (table_of schema_abc)
              [("c", PInt 3); ("a", PInt 1)] Hne) as [H1 _].
  destruct (row_from_mapping_schema_order (table_of schema_abc)
              [("c", PInt 3)] Hne) as [_ [H2 _]].
  split.
  - apply H1. repeat constructor.
  - apply (H2 [] (leaf "a" "REQUIRED")
             [leaf "b" "REPEATED"; leaf "c" "NULLABLE"]);
      [reflexivity|constructor|reflexivity|reflexivity|reflexivity].
Defined.

(** C5.  A field whose mode is none of REQUIRED, NULLABLE, REPEATED
    never gets a default: with such a field in the schema
    [row_from_mapping] returns no row, and when the fields before it
    can be projected the call raises
    [ValueError("Unknown field mode: <mode>")]; on the schema
    [REQUIRED a, BOGUS b] with [a] in the mapping the mode reported is
    BOGUS. *)
Theorem row_from_mapping_unknown_mode (self : Table) (mapping : dict)
    (pre post : list SchemaField) (f : SchemaField) :
  _schema self = (pre ++ f :: post)%list ->
  known_mode f = false ->
  (forall row, row_from_mapping self mapping <> Ok row) /\
  (Forall (fun g => projectable mapping g = true) pre ->
   row_from_mapping self mapping
   = Raise (ValueError "Unknown field mode: {}" [mode f])) /\
  row_from_mapping (table_of schema_bogus) [("a", PInt 1)]
  = Raise (ValueError "Unknown field mode: {}" [PStr "BOGUS"]).
Proof.
  intros Hs Hmode.
  assert (Hne : _schema self <> []).
  { rewrite Hs. destruct pre; discriminate. }
  assert (Hf : project_field mapping f
               = Raise (ValueError "Unknown field mode: {}" [mode f])).
  { unfold known_mode, is_required, is_repeated, is_nullable in Hmode.
    apply orb_false_elim in Hmode. destruct Hmode as [Hmode H3].
    apply orb_false_elim in Hmode. destruct Hmode as [H1 H2].
    unfold project_field. rewrite H1, H2, H3. reflexivity. }
  rewrite (row_from_mapping_loop _ _ Hne).
  split; [|split; [|reflexivity]].
  - intros row Hrow.
    destruct (mapM (project_field mapping) (_schema self)) as [ys|e] eqn:E;
      [|discriminate].
    destruct (mapM_ok_inv _ _ _ E f) as [y Hy].
    + rewrite Hs. apply in_or_app. right. left. reflexivity.
    + rewrite Hf in Hy. discriminate.
  - intros Hpre. rewrite Hs.
    rewrite (mapM_first_failure _ pre f post _ _
               (mapM_projectable _ _ Hpre) Hf).
    reflexivity.
Qed.

Lemma row_from_mapping_unknown_mode_witness :
  row_from_mapping (table_of schema_bogus) []
  <> Ok (PTuple [PNone; PNone]) /\
  row_from_mapping (table_of schema_bogus) [("a", PInt 1); ("b", PInt 2)]
  = Raise (ValueError "Unknown field mode: {}" [PStr "BOGUS"]).
Proof.
  destruct (row_from_mapping_unknown_mode (table_of schema_bogus) []
              [leaf "a" "REQUIRED"] [] (leaf "b" "BOGUS")
              eq_refl eq_refl) as [H1 _].
  destruct (row_from_mapping_unknown_mode (table_of schema_bogus)
              [("a", PInt 1); ("b", PInt 2)]
              [leaf "a" "REQUIRED"] [] (leaf "b" "BOGUS")
              eq_refl eq_refl) as [_ [H2 _]].
  split; [apply H1|].
  apply H2. repeat constructor.
Defined.

End RowFromMapping.

(** * Properties of the bulk insert *)

Section InsertData.
Import Schema Tables RowSpec InsertSpec.

Variable conv : pyval -> option (pyval -> result pyval).
Variable api_request : request -> result pyval.
Variable py_int : pyval -> result pyval.

Lemma combine_firstn_r {A B} (l : list A) (l' : list B) :
  combine l (firstn (List.length l) l') = combine l l'.
Proof.
  revert l'. induction l as [|a l IH]; intros [|b l']; simpl;
    try reflexivity.
  rewrite IH. reflexivity.
Qed.

Lemma combine_firstn_l {A B} (l : list A) (l' : list B) :
  combine (firstn (List.length l') l) l' = combine l l'.
Proof.
  revert l. induction l' as [|b l' IH]; intros [|a l]; simpl;
    try reflexivity.
  rewrite IH. reflexivity.
Qed.

Lemma row_info_of_drops_surplus (self : Table) (row : list pyval) :
  row_info_of conv self (firstn (List.length (_schema self)) row)
  = row_info_of conv self row.
Proof.
  unfold row_info_of. rewrite combine_firstn_r. reflexivity.
Qed.

Lemma rows_info_of_drops_surplus (self : Table) (row_ids : pyval)
    (rows : list (list pyval)) (index : nat) :
  rows_info_of conv self row_ids index
    (map (fun r => PTuple (firstn (List.length (_schema self)) r)) rows)
  = rows_info_of conv self row_ids index (map PTuple rows).
Proof.
  revert index. induction rows as [|r rows IH]; intros index; simpl;
    [reflexivity|].
  rewrite row_info_of_drops_surplus, IH. reflexivity.
Qed.

Lemma foldM_row_info_ok (l : list (SchemaField * pyval)) (acc : dict) :
  converters_total conv ->
  Forall (fun fv => named_by_string (fst fv)) l ->
  exists d,
    Mapping.foldM (fun row_info fv =>
        let '(field, value) := fv in
        value <- match conv (field_type field) with
                 | Some converter => converter value
                 | None => Ok value
                 end ;;
        Mapping.setitem (name field) value row_info) l acc = Ok d.
Proof.
  intros Hconv Hall. revert acc.
  induction Hall as [|[f v] l [s Hs] _ IH]; intros acc; simpl.
  - exists acc. reflexivity.
  - simpl in Hs. rewrite Hs.
    destruct (conv (field_type f)) as [c|] eqn:Hc; simpl.
    + destruct (Hconv _ c v Hc) as [v' ->]. simpl. apply IH.
    + apply IH.
Qed.

(** C3, as amended.  [insert_data] does not compare the arity of a row
    with the arity of the schema and raises no error for a mismatch:
    fields and values are paired by position up to the shorter of the
    two.  The values beyond the last field are dropped -- the call
    issues the same requests and ends the same way as with the rows cut
    to the arity of the schema -- and the fields beyond the last value
    are left out of the row; with names that are strings and
    converters that return, a row of any arity is encoded. *)
Theorem insert_data_pairs_by_position (self : Table)
    (rows : list (list pyval))
    (row_ids skip_invalid_rows ignore_unknown_values template_suffix : pyval) :
  insert_data conv api_request py_int self
    (PList (map (fun r => PTuple (firstn (List.length (_schema self)) r))
              rows))
    row_ids skip_invalid_rows ignore_unknown_values template_suffix
  = insert_data conv api_request py_int self (PList (map PTuple rows))
      row_ids skip_invalid_rows ignore_unknown_values template_suffix /\
  (forall row,
      row_info_of conv
        (with_schema self (firstn (List.length row) (_schema self))) row
      = row_info_of conv self row) /\
  (converters_total conv ->
   Forall named_by_string (_schema self) ->
   forall row, exists row_info, row_info_of conv self row = Ok row_info).
Proof.
  split; [|split].
  - unfold insert_data. simpl.
    rewrite rows_info_of_drops_surplus. reflexivity.
  - intros row. unfold row_info_of, with_schema. simpl.
    rewrite combine_firstn_l. reflexivity.
  - intros Hconv Hnames row. unfold row_info_of.
    apply foldM_row_info_ok; [exact Hconv|].
    apply Forall_forall. intros [f v] Hin. simpl.
    apply in_combine_l in Hin.
    rewrite Forall_forall in Hnames. apply Hnames. exact Hin.
Qed.

(** C10.  On a table whose schema is the empty sequence both
    [row_from_mapping] and [insert_data] raise
    [ValueError("Table has no schema: ...")], whatever the mapping, the
    rows and the other arguments are, and [insert_data] issues no
    request. *)
Theorem no_schema_is_refused (self : Table) (mapping : dict)
    (rows row_ids skip_invalid_rows ignore_unknown_values
       template_suffix : pyval) :
  _schema self = [] ->
  row_from_mapping self mapping = Raise (ValueError _TABLE_HAS_NO_SCHEMA []) /\
  insert_data conv api_request py_int self rows row_ids skip_invalid_rows
    ignore_unknown_values template_suffix
  = ([], Raise (ValueError _TABLE_HAS_NO_SCHEMA [])).
Proof.
  intros H. unfold row_from_mapping, insert_data. rewrite H.
  split; reflexivity.
Qed.

End InsertData.

Section InsertDataExamples.
Import Schema Tables RowSpec InsertSpec.

Lemma insert_data_pairs_by_position_witness :
  insert_data no_converters accepting int_of (table_of schema_abc)
    (PList [short_row]) PNone PNone PNone PNone
  = ([insert_request (table_of schema_abc)
        [PDict [("json", PDict [("a", PInt 1)])]]],
     Ok (PList [])) /\
  exists row_info,
    row_info_of no_converters table_a [PInt 1; PInt 2] = Ok row_info.
Proof.
  split; [reflexivity|].
  destruct (insert_data_pairs_by_position no_converters accepting int_of
              table_a [] PNone PNone PNone PNone) as [_ [_ H]].
  apply H.
  - intros t c v Hc. discriminate Hc.
  - repeat constructor. exists "a". reflexivity.
Defined.

(** C3, as stated, fails: a row of two values for a schema of one
    field is encoded without any error, the second value dropped. *)
Lemma insert_data_arity_counterexample :
  List.length [PInt 1; PInt 2] <> List.length (_schema table_a) /\
  insert_data no_converters accepting int_of table_a (PList [long_row])
    PNone PNone PNone PNone
  = ([insert_request table_a [PDict [("json", PDict [("a", PInt 1)])]]],
     Ok (PList [])).
Proof.
  split; [discriminate|reflexivity].
Qed.

Lemma no_schema_is_refused_witness :
  row_from_mapping (table_of []) [("a", PInt 1)]
  = Raise (ValueError _TABLE_HAS_NO_SCHEMA []) /\
  insert_data no_converters accepting int_of (table_of [])
    (PList [long_row]) PNone PNone PNone PNone
  = ([], Raise (ValueError _TABLE_HAS_NO_SCHEMA [])).
Proof.
  exact (no_schema_is_refused no_converters accepting int_of (table_of [])
           [("a", PInt 1)] (PList [long_row]) PNone PNone PNone PNone
           eq_refl).
Defined.

End InsertDataExamples.

(** * Properties of dictionaries *)

Section DictFacts.

Lemma dict_get_set_same (k : string) (v : pyval) (d : dict) :
  Dict.get k (Dict.set k v d) = Some v.
Proof.
  induction d as [|[k' v'] d IH]; simpl.
  - rewrite String.eqb_refl. reflexivity.
  - destruct (String.eqb k k') eqn:E; simpl.
    + rewrite String.eqb_refl. reflexivity.
    + rewrite E. exact IH.
Qed.

Lemma dict_get_set_other (k k' : string) (v : pyval) (d : dict) :
  k <> k' -> Dict.get k (Dict.set k' v d) = Dict.get k d.
Proof.
  intros Hne. apply String.eqb_neq in Hne.
  induction d as [|[k'' v''] d IH]; simpl.
  - rewrite Hne. reflexivity.
  - destruct (String.eqb k' k'') eqn:E; simpl.
    + apply String.eqb_eq in E. subst k''. rewrite Hne. reflexivity.
    + destruct (String.eqb k k''); [reflexivity|exact IH].
Qed.

Lemma dict_get_set (k k' : string) (v : pyval) (d : dict) :
  Dict.get k (Dict.set k' v d)
  = if String.eqb k k' then Some v else Dict.get k d.
Proof.
  destruct (String.eqb k k') eqn:E.
  - apply String.eqb_eq in E. subst. apply dict_get_set_same.
  - apply String.eqb_neq in E. apply dict_get_set_other. exact E.
Qed.

Lemma dict_keys_get (k : string) (d : dict) :
  In k (Dict.keys d) <-> exists v, Dict.get k d = Some v.
Proof.
  unfold Dict.keys. induction d as [|[k' v'] d IH]; simpl.
  - split; [contradiction|intros [v H]; discriminate].
  - destruct (String.eqb k k') eqn:E.
    + apply String.eqb_eq in E. subst. split; [eauto|auto].
    + apply String.eqb_neq in E. rewrite IH. split; [|auto].
      intros [H|H]; [congruence|exact H].
Qed.

Lemma dict_get_remove (k k' : string) (d : dict) :
  Dict.get k (Dict.remove k' d)
  = if String.eqb k k' then None else Dict.get k d.
Proof.
  induction d as [|[k'' v''] d IH]; simpl.
  - destruct (String.eqb k k'); reflexivity.
  - destruct (String.eqb k' k'') eqn:E1.
    + apply String.eqb_eq in E1. subst k''. rewrite IH.
      destruct (String.eqb k k'); reflexivity.
    + simpl. rewrite IH. destruct (String.eqb k k'') eqn:E2;
        [|reflexivity].
      apply String.eqb_eq in E2. subst k''.
      rewrite String.eqb_sym, E1. reflexivity.
Qed.

Lemma dict_get_update (k : string) (other d : dict) :
  Dict.get k (Dict.update d other)
  = match Dict.get k (rev other) with
    | Some v => Some v
    | None => Dict.get k d
    end.
Proof.
  unfold Dict.update. rewrite <- fold_left_rev_right.
  induction (rev other) as [|[k' v'] l IH]; simpl; [reflexivity|].
  rewrite dict_get_set. destruct (String.eqb k k'); [reflexivity|exact IH].
Qed.

(** The keys after [d[k] = v] depend on the keys of [d] only. *)
Lemma dict_keys_set (k : string) (v v' : pyval) (d d' : dict) :
  Dict.keys d = Dict.keys d' ->
  Dict.keys (Dict.set k v d) = Dict.keys (Dict.set k v' d').
Proof.
  revert d'. induction d as [|[k1 v1] d IH]; intros [|[k2 v2] d'] H;
    try discriminate H; simpl in *; [reflexivity|].
  injection H as <- H.
  destruct (String.eqb k k1); simpl; [congruence|].
  rewrite (IH d' H). reflexivity.
Qed.

Lemma dict_keys_rev (k : string) (d : dict) :
  In k (Dict.keys (rev d)) <-> In k (Dict.keys d).
Proof.
  unfold Dict.keys. rewrite map_rev, <- in_rev. reflexivity.
Qed.

End DictFacts.

(** * Properties of the field-name translation *)

Section FieldNames.
Import UpdateSpec.

Lemma split_word (w : string) :
  is_word w = true -> Names.split "_" w = [w].
Proof.
  induction w as [|c w IH]; simpl; [reflexivity|].
  intros H. apply andb_prop in H. destruct H as [Hc Hw].
  apply negb_true_iff in Hc. rewrite Hc, (IH Hw). reflexivity.
Qed.

Lemma split_word_sep (w rest : string) :
  is_word w = true ->
  Names.split "_" (String.append w (String "_" rest))
  = w :: Names.split "_" rest.
Proof.
  induction w as [|c w IH]; simpl; [reflexivity|].
  intros H. apply andb_prop in H. destruct H as [Hc Hw].
  apply negb_true_iff in Hc. rewrite Hc, (IH Hw). reflexivity.
Qed.

(** Splitting a name made of words gives the words back. *)
Lemma split_join_with (w : string) (ws : list string) :
  Forall (fun x => is_word x = true) (w :: ws) ->
  Names.split "_" (join_with "_" (w :: ws)) = w :: ws.
Proof.
  revert w. induction ws as [|w' ws IH]; intros w H.
  - simpl. apply split_word. inversion H. assumption.
  - inversion H as [|? ? Hw Hws]; subst.
    change (join_with "_" (w :: w' :: ws))
      with (String.append w (String "_" (join_with "_" (w' :: ws)))).
    rewrite (split_word_sep _ _ Hw), (IH w' Hws). reflexivity.
Qed.

(** Joining the words of a name with the separator gives the name
    back, and no word holds the separator. *)
Lemma join_with_split (f : string) :
  join_with "_" (Names.split "_" f) = f /\
  Forall (fun x => is_word x = true) (Names.split "_" f) /\
  Names.split "_" f <> [].
Proof.
  induction f as [|c f [IH1 [IH2 IH3]]]; simpl.
  - repeat split; [repeat constructor|discriminate].
  - destruct (Ascii.eqb c "_") eqn:E.
    + apply Ascii.eqb_eq in E. subst c.
      destruct (Names.split "_" f) as [|w ws] eqn:Hs; [contradiction|].
      repeat split; [|constructor; [reflexivity|exact IH2]|discriminate].
      change (join_with "_" ("" :: w :: ws))
        with (String.append "" (String "_" (join_with "_" (w :: ws)))).
      rewrite IH1. reflexivity.
    + destruct (Names.split "_" f) as [|w ws] eqn:Hs; [contradiction|].
      pose proof (Forall_inv IH2) as Hw.
      pose proof (Forall_inv_tail IH2) as Hws.
      repeat split; [|constructor; [simpl; rewrite E; exact Hw|exact Hws]
                     |discriminate].
      destruct ws as [|w' ws]; simpl in *; rewrite <- IH1; reflexivity.
Qed.

Lemma api_field_of_words (w : string) (ws : list string) :
  Forall (fun x => is_word x = true) (w :: ws) ->
  Names.api_field (join_with "_" (w :: ws))
  = String.append w (Names.join (map Names.capitalize ws)).
Proof.
  intros H. unfold Names.api_field. rewrite (split_join_with _ _ H).
  reflexivity.
Qed.

End FieldNames.

(** * Properties of the partial update *)

Section UpdateDataset.
Import Datasets Client UpdateSpec.

Variable other_attr : Dataset -> string -> result pyval.
Variable api_request : request -> result pyval.

#[local] Abbreviation getattr := (Datasets.getattr other_attr).
#[local] Abbreviation hasattr := (Datasets.hasattr other_attr).
#[local] Abbreviation add_field := (Client.add_field other_attr).
#[local] Abbreviation build_partial := (Client.build_partial other_attr).
#[local] Abbreviation update_dataset := (Client.update_dataset other_attr api_request).

Lemma add_field_known (dataset : Dataset) (partial : dict) (f : string)
    (v : pyval) :
  getattr dataset f = Ok v ->
  add_field dataset partial f = Ok (Dict.set (Names.api_field f) v partial).
Proof.
  intros H. unfold Client.add_field, Datasets.hasattr. rewrite H.
  reflexivity.
Qed.

Lemma add_field_ok_inv (dataset : Dataset) (partial partial' : dict)
    (f : string) :
  add_field dataset partial f = Ok partial' ->
  exists v, getattr dataset f = Ok v /\
            partial' = Dict.set (Names.api_field f) v partial.
Proof.
  unfold Client.add_field, Datasets.hasattr.
  destruct (getattr dataset f) as [v|e]; simpl.
  - intros [= <-]. exists v. split; reflexivity.
  - destruct e; discriminate.
Qed.

Lemma add_field_unknown (dataset : Dataset) (partial : dict) (f : string) :
  hasattr dataset f = Ok false ->
  add_field dataset partial f
  = Raise (ValueError "No Dataset field %s" [PStr f]).
Proof.
  intros H. unfold Client.add_field. rewrite H. reflexivity.
Qed.

Lemma foldM_add_field_known (dataset : Dataset) (fields : list string)
    (acc : dict) :
  (forall g, In g fields -> exists v, getattr dataset g = Ok v) ->
  exists partial, Mapping.foldM (add_field dataset) fields acc = Ok partial.
Proof.
  revert acc. induction fields as [|f fields IH]; intros acc H; simpl.
  - exists acc. reflexivity.
  - destruct (H f (or_introl eq_refl)) as [v Hv].
    rewrite (add_field_known _ _ _ _ Hv). simpl.
    apply IH. intros g Hg. apply H. right. exact Hg.
Qed.

(** Where the entries of [partial] come from. *)
Lemma foldM_add_field_sound (dataset : Dataset) (fields : list string)
    (acc partial : dict) :
  Mapping.foldM (add_field dataset) fields acc = Ok partial ->
  forall k v,
    Dict.get k partial = Some v ->
    Dict.get k acc = Some v \/
    exists f, In f fields /\ k = Names.api_field f /\
              getattr dataset f = Ok v.
Proof.
  revert acc. induction fields as [|f fields IH]; intros acc H k v Hk;
    simpl in H.
  - injection H as <-. left. exact Hk.
  - destruct (add_field dataset acc f) as [acc'|e] eqn:Hf; [|discriminate].
    simpl in H. apply add_field_ok_inv in Hf. destruct Hf as [w [Hw ->]].
    destruct (IH _ H k v Hk) as [Hacc|[g [Hg [-> Hv]]]].
    + rewrite dict_get_set in Hacc.
      destruct (String.eqb k (Names.api_field f)) eqn:E.
      * apply String.eqb_eq in E. injection Hacc as <-.
        right. exists f. repeat split; [left; reflexivity|exact E|exact Hw].
      * left. exact Hacc.
    + right. exists g. repeat split; [right; exact Hg|exact Hv].
Qed.

(** Every changed field, and every key already there, has an entry. *)
Lemma foldM_add_field_complete (dataset : Dataset) (fields : list string)
    (acc partial : dict) :
  Mapping.foldM (add_field dataset) fields acc = Ok partial ->
  forall k,
    has_key k acc \/ (exists f, In f fields /\ k = Names.api_field f) ->
    has_key k partial.
Proof.
  unfold has_key.
  revert acc. induction fields as [|f fields IH]; intros acc H k Hk;
    simpl in H.
  - injection H as <-. destruct Hk as [Hk|[f [[] _]]]. exact Hk.
  - destruct (add_field dataset acc f) as [acc'|e] eqn:Hf; [|discriminate].
    simpl in H. apply add_field_ok_inv in Hf. destruct Hf as [w [Hw ->]].
    apply (IH _ H k).
    destruct (String.eqb k (Names.api_field f)) eqn:E.
    + left. apply dict_keys_get. exists w. rewrite dict_get_set, E.
      reflexivity.
    + destruct Hk as [Hk|[g [[<-|Hg] ->]]].
      * left. apply dict_keys_get. apply dict_keys_get in Hk.
        destruct Hk as [x Hx]. exists x. rewrite dict_get_set, E. exact Hx.
      * rewrite String.eqb_refl in E. discriminate.
      * right. exists g. split; [exact Hg|reflexivity].
Qed.

(** An entry under a key that no later field is sent under stays. *)
Lemma foldM_add_field_keeps (dataset : Dataset) (fields : list string)
    (acc partial : dict) (k : string) :
  Mapping.foldM (add_field dataset) fields acc = Ok partial ->
  ~ In k (map Names.api_field fields) ->
  Dict.get k partial = Dict.get k acc.
Proof.
  revert acc. induction fields as [|f fields IH]; intros acc H Hk;
    simpl in H.
  - injection H as <-. reflexivity.
  - destruct (add_field dataset acc f) as [acc'|e] eqn:Hf; [|discriminate].
    simpl in H. apply add_field_ok_inv in Hf. destruct Hf as [w [Hw ->]].
    rewrite (IH _ H) by (intros Hin; apply Hk; right; exact Hin).
    apply dict_get_set_other. intros ->. apply Hk. left. reflexivity.
Qed.

Lemma foldM_add_field_values (dataset : Dataset) (fields : list string)
    (acc partial : dict) :
  Mapping.foldM (add_field dataset) fields acc = Ok partial ->
  NoDup (map Names.api_field fields) ->
  forall f, In f fields ->
    exists v, getattr dataset f = Ok v /\
              Dict.get (Names.api_field f) partial = Some v.
Proof.
  revert acc. induction fields as [|g fields IH]; intros acc H Hnd f Hin;
    [contradiction|].
  simpl in H, Hnd.
  destruct (add_field dataset acc g) as [acc'|e] eqn:Hg; [|discriminate].
  simpl in H. apply add_field_ok_inv in Hg. destruct Hg as [w [Hw ->]].
  inversion Hnd as [|? ? Hnotin Hnd']; subst.
  destruct Hin as [->|Hin].
  - exists w. split; [exact Hw|].
    rewrite (foldM_add_field_keeps _ _ _ _ _ H Hnotin).
    apply dict_get_set_same.
  - exact (IH _ H Hnd' f Hin).
Qed.

(** The keys of [partial] depend on the names of the changed fields,
    not on the dataset the values are read from. *)
Lemma foldM_add_field_keys (dataset dataset' : Dataset)
    (fields : list string) (acc acc' partial partial' : dict) :
  Mapping.foldM (add_field dataset) fields acc = Ok partial ->
  Mapping.foldM (add_field dataset') fields acc' = Ok partial' ->
  Dict.keys acc = Dict.keys acc' ->
  Dict.keys partial = Dict.keys partial'.
Proof.
  revert acc acc'. induction fields as [|f fields IH];
    intros acc acc' H H' Hk; simpl in H, H'.
  - injection H as <-. injection H' as <-. exact Hk.
  - destruct (add_field dataset acc f) as [a|e] eqn:Hf; [|discriminate].
    destruct (add_field dataset' acc' f) as [a'|e] eqn:Hf'; [|discriminate].
    simpl in H, H'.
    apply add_field_ok_inv in Hf, Hf'.
    destruct Hf as [v [_ ->]]. destruct Hf' as [v' [_ ->]].
    apply (IH _ _ H H'). apply dict_keys_set. exact Hk.
Qed.

Lemma foldM_first_failure {A B} (f : B -> A -> result B) (pre : list A)
    (x : A) (post : list A) (acc acc' : B) (e : exn) :
  Mapping.foldM f pre acc = Ok acc' -> f acc' x = Raise e ->
  Mapping.foldM f (pre ++ x :: post) acc = Raise e.
Proof.
  revert acc. induction pre as [|a pre IH]; intros acc Hpre Hx; simpl in *.
  - injection Hpre as ->. rewrite Hx. reflexivity.
  - destruct (f acc a) as [b|e']; [|discriminate]. simpl in *.
    apply IH; assumption.
Qed.

Lemma foldM_app_ok_inv {A B} (f : B -> A -> result B) (pre post : list A)
    (acc b : B) :
  Mapping.foldM f (pre ++ post) acc = Ok b ->
  exists acc', Mapping.foldM f pre acc = Ok acc' /\
               Mapping.foldM f post acc' = Ok b.
Proof.
  revert acc. induction pre as [|a pre IH]; intros acc H; simpl in *.
  - exists acc. split; [reflexivity|exact H].
  - destruct (f acc a) as [c|e]; [|discriminate]. simpl in *.
    apply IH. exact H.
Qed.

Lemma update_dataset_request (dataset : Dataset) (fields : list string)
    (partial : dict) :
  build_partial dataset fields = Ok partial ->
  update_dataset dataset fields
  = (let req :=
       mkRequest "PATCH" (path dataset) (PDict partial)
         (match etag dataset with
          | PNone => PNone
          | _ => PDict [("If-Match", etag dataset)]
          end) in
     ([req], api_request req)).
Proof.
  intros H. unfold Client.update_dataset. rewrite H. reflexivity.
Qed.

(** C6.  A field name made of words joined by underscores is sent
    under its first word followed by the other words capitalized, that
    is with the first letter in upper case and the others in lower
    case ([friendly_name] under [friendlyName],
    [default_table_expiration_ms] under [defaultTableExpirationMs]);
    the key is computed from the name alone by [Names.api_field], so
    two datasets updated on the same fields get the same keys.  When
    [update_dataset] gets to its request, the body is [partial]: its
    keys are exactly the translated names of the changed fields, every
    entry holds the current value of a changed field, and a changed
    field whose key is shared with no other holds its own value.
    [Table._build_resource] files a name outside its table of custom
    fields under the same translated key, with its current value. *)
Theorem partial_update_body (dataset : Dataset) (fields : list string)
    (partial : dict) :
  build_partial dataset fields = Ok partial ->
  (exists req,
      update_dataset dataset fields = ([req], api_request req) /\
      req_data req = PDict partial) /\
  (forall k, has_key k partial <->
             exists f, In f fields /\ k = Names.api_field f) /\
  (forall k v, Dict.get k partial = Some v ->
               exists f, In f fields /\ k = Names.api_field f /\
                         getattr dataset f = Ok v) /\
  (NoDup (map Names.api_field fields) ->
   forall f, In f fields ->
             exists v, getattr dataset f = Ok v /\
                       Dict.get (Names.api_field f) partial = Some v) /\
  (forall dataset' partial',
      build_partial dataset' fields = Ok partial' ->
      Dict.keys partial' = Dict.keys partial) /\
  (forall w ws,
      Forall (fun x => is_word x = true) (w :: ws) ->
      Names.api_field (join_with "_" (w :: ws))
      = String.append w (Names.join (map Names.capitalize ws))) /\
  Names.api_field "friendly_name" = "friendlyName" /\
  Names.api_field "default_table_expiration_ms"
  = "defaultTableExpirationMs" /\
  (forall from_us to_millis times table_attr (self : Tables.Table)
          (f : string) (v : pyval),
      Tables.custom_resource_fields from_us to_millis times f = None ->
      Tables.getattr from_us times table_attr self f = Ok v ->
      exists resource,
        Tables._build_resource from_us to_millis times table_attr self [f]
        = Ok resource /\
        Dict.get (Names.api_field f) resource = Some v).
Proof.
  intros H.
  split; [|split; [|split; [|split; [|split; [|split; [|split; [|split]]]]]]].
  - eexists. split; [apply update_dataset_request; exact H|reflexivity].
  - intros k. split.
    + intros Hk. apply dict_keys_get in Hk. destruct Hk as [v Hv].
      destruct (foldM_add_field_sound _ _ _ _ H k v Hv)
        as [Hacc|[f [Hf [Hkf _]]]]; [discriminate|].
      exists f. split; assumption.
    + intros Hk.
      apply (foldM_add_field_complete _ _ _ _ H). right. exact Hk.
  - intros k v Hv.
    destruct (foldM_add_field_sound _ _ _ _ H k v Hv) as [Hacc|Hf];
      [discriminate|exact Hf].
  - intros Hnd. exact (foldM_add_field_values _ _ _ _ H Hnd).
  - intros dataset' partial' H'.
    exact (foldM_add_field_keys _ _ _ _ _ _ _ H' H eq_refl).
  - exact api_field_of_words.
  - reflexivity.
  - reflexivity.
  - intros from_us to_millis times table_attr self f v Hcustom Hv.
    unfold Tables._build_resource, Mapping.foldM.
    rewrite Hcustom. cbv zeta. rewrite Hv. cbv beta iota delta [bind].
    eexists. split; [reflexivity|]. apply dict_get_set_same.
Qed.

(** C7.  When [update_dataset] gets to its request, the headers are
    [{"If-Match": etag}] if the etag of the dataset is not null, and
    no headers at all ([None]) if it is: the [If-Match] header is sent
    if and only if there is an etag, and carries exactly that etag. *)
Theorem if_match_header (dataset : Dataset) (fields : list string)
    (partial : dict) :
  build_partial dataset fields = Ok partial ->
  exists req,
    update_dataset dataset fields = ([req], api_request req) /\
    (etag dataset = PNone -> req_headers req = PNone) /\
    (etag dataset <> PNone ->
     req_headers req = PDict [("If-Match", etag dataset)]) /\
    (forall token,
        Builtins.getitem "If-Match" (req_headers req) = Ok token <->
        etag dataset = token /\ token <> PNone).
Proof.
  intros H. eexists.
  split; [apply update_dataset_request; exact H|]. simpl.
  split; [|split].
  - intros E. rewrite E. reflexivity.
  - intros E. destruct (etag dataset); try reflexivity.
    exfalso. apply E. reflexivity.
  - intros token.
    destruct (etag dataset) eqn:E; simpl; unfold Dict.getitem; simpl;
      split; intros Ht;
      try discriminate Ht;
      try (injection Ht as <-; split; [reflexivity|discriminate]);
      try (destruct Ht as [<- Hn]; try reflexivity;
           exfalso; apply Hn; reflexivity).
Qed.

(** C8, as amended.  A name in the list of changed fields that is not
    an attribute of the dataset ([hasattr] is false) stops
    [update_dataset] before any request is issued, and the call ends
    with an exception; when the names before it are attributes, the
    exception is [ValueError("No Dataset field <name>")]. *)
Theorem unknown_field_is_refused (dataset : Dataset)
    (pre post : list string) (f : string) :
  hasattr dataset f = Ok false ->
  fst (update_dataset dataset (pre ++ f :: post)) = [] /\
  (exists e, snd (update_dataset dataset (pre ++ f :: post)) = Raise e) /\
  ((forall g, In g pre -> exists v, getattr dataset g = Ok v) ->
   update_dataset dataset (pre ++ f :: post)
   = ([], Raise (ValueError "No Dataset field %s" [PStr f]))).
Proof.
  intros Hf.
  assert (Hfail : forall partial,
             build_partial dataset (pre ++ f :: post) <> Ok partial).
  { intros partial H. unfold Client.build_partial in H.
    apply foldM_app_ok_inv in H. destruct H as [acc [_ H]].
    simpl in H. rewrite (add_field_unknown _ _ _ Hf) in H. discriminate. }
  unfold Client.update_dataset.
  destruct (build_partial dataset (pre ++ f :: post)) as [partial|e] eqn:E.
  - exfalso. exact (Hfail partial eq_refl).
  - split; [reflexivity|]. split; [exists e; reflexivity|].
    intros Hpre.
    destruct (foldM_add_field_known dataset pre [] Hpre) as [acc Hacc].
    pose proof (foldM_first_failure _ pre f post [] acc _ Hacc
                  (add_field_unknown _ acc _ Hf)) as E'.
    unfold Client.build_partial in E.
    pose proof (eq_trans (eq_sym E) E') as He.
    injection He as ->. reflexivity.
Qed.

End UpdateDataset.

Section UpdateDatasetExamples.
Import Datasets Client UpdateSpec InsertSpec.

Lemma partial_update_body_witness :
  fst (update_dataset no_other_attr accepting dataset_x changed_xy)
  = [mkRequest "PATCH" "/projects/proj/datasets/ds" body_xy PNone] /\
  Dict.get "friendlyName"
    [("friendlyName", PStr "x"); ("defaultTableExpirationMs", PInt 5000)]
  = Some (PStr "x").
Proof.
  split; [reflexivity|].
  destruct (partial_update_body no_other_attr accepting dataset_x changed_xy
              [("friendlyName", PStr "x");
               ("defaultTableExpirationMs", PInt 5000)] eq_refl)
    as [_ [_ [_ [H _]]]].
  destruct (H ltac:(repeat constructor; simpl; intuition discriminate)
              "friendly_name" (or_introl eq_refl)) as [v [Hv Hget]].
  injection Hv as <-. exact Hget.
Defined.

Lemma if_match_header_witness :
  fst (update_dataset no_other_attr accepting dataset_abc changed_xy)
  = [mkRequest "PATCH" "/projects/proj/datasets/ds" body_xy
       (PDict [("If-Match", PStr "abc")])] /\
  fst (update_dataset no_other_attr accepting dataset_x changed_xy)
  = [mkRequest "PATCH" "/projects/proj/datasets/ds" body_xy PNone] /\
  exists req,
    update_dataset no_other_attr accepting dataset_abc changed_xy
    = ([req], accepting req) /\
    req_headers req = PDict [("If-Match", PStr "abc")].
Proof.
  split; [reflexivity|]. split; [reflexivity|].
  destruct (if_match_header no_other_attr accepting dataset_abc changed_xy
              [("friendlyName", PStr "x");
               ("defaultTableExpirationMs", PInt 5000)] eq_refl)
    as [req [Hreq [_ [Hsome _]]]].
  exists req. split; [exact Hreq|].
  apply Hsome. discriminate.
Defined.

(** C8, as stated, fails: [table] is a method of [Dataset] and
    [_properties] an instance attribute, neither is a property, yet
    both pass [hasattr] and are sent in the PATCH, under [table] and
    [Properties], without any [ValueError]. *)
Lemma unknown_field_counterexample :
  ~ In "table" AttributeSpec.dataset_properties /\
  ~ In "_properties" AttributeSpec.dataset_properties /\
  update_dataset AttributeSpec.dataset_members accepting dataset_x
    ["table"; "_properties"]
  = ([mkRequest "PATCH" "/projects/proj/datasets/ds"
        (PDict [("table", PObject "bound method Dataset.table");
                ("Properties",
                 PDict [("friendlyName", PStr "x");
                        ("defaultTableExpirationMs", PInt 5000)])])
        PNone],
     Ok (PDict [])).
Proof.
  split; [|split].
  - unfold AttributeSpec.dataset_properties. simpl.
    intuition discriminate.
  - unfold AttributeSpec.dataset_properties. simpl.
    intuition discriminate.
  - reflexivity.
Qed.

Lemma unknown_field_is_refused_witness :
  update_dataset no_other_attr accepting dataset_x
    ["friendly_name"; "no_such_field"; "description"]
  = ([], Raise (ValueError "No Dataset field %s" [PStr "no_such_field"])).
Proof.
  destruct (unknown_field_is_refused no_other_attr accepting dataset_x
              ["friendly_name"] ["description"] "no_such_field" eq_refl)
    as [_ [_ H]].
  apply H. intros g [<-|[]]. eexists. reflexivity.
Defined.

End UpdateDatasetExamples.

(** * Properties of [_set_properties] *)

Section SetProperties.
Import UpdateSpec.

Variable py_float : pyval -> result pyval.
Variable py_int : pyval -> result pyval.

Lemma has_key_update_empty (k : string) (d : dict) :
  has_key k (Dict.update [] d) <-> has_key k d.
Proof.
  unfold has_key. rewrite dict_keys_get.
  rewrite <- (dict_keys_rev k d), dict_keys_get.
  split; intros [v Hv].
  - rewrite dict_get_update in Hv.
    destruct (Dict.get k (rev d)) as [w|]; [exists w; reflexivity|].
    discriminate.
  - exists v. rewrite dict_get_update, Hv. reflexivity.
Qed.

Lemma has_key_remove (k k' : string) (d : dict) :
  has_key k (Dict.remove k' d) <-> has_key k d /\ k <> k'.
Proof.
  unfold has_key. rewrite !dict_keys_get. split.
  - intros [v Hv]. rewrite dict_get_remove in Hv.
    destruct (String.eqb k k') eqn:E; [discriminate|].
    apply String.eqb_neq in E. split; [exists v; exact Hv|exact E].
  - intros [[v Hv] Hne]. exists v. rewrite dict_get_remove.
    apply String.eqb_neq in Hne. rewrite Hne. exact Hv.
Qed.

Lemma convert_if_present_keys (conv : pyval -> result pyval) (k : string)
    (d d' : dict) :
  Tables.convert_if_present conv k d = Ok d' ->
  forall k', has_key k' d' <-> has_key k' d.
Proof.
  unfold Tables.convert_if_present, has_key.
  destruct (Dict.get k d) as [v|] eqn:Hk.
  - destruct (conv v) as [v'|e]; simpl; [|discriminate].
    intros [= <-] k'. rewrite !dict_keys_get.
    setoid_rewrite dict_get_set.
    destruct (String.eqb k' k) eqn:E; [|reflexivity].
    apply String.eqb_eq in E. subst k'.
    split; intros _; eauto.
  - intros [= <-] k'. reflexivity.
Qed.

(** C9.  [_set_properties], on a table and on a dataset, replaces the
    property bag: the bag after the call is determined by the response
    alone, whatever the bag held before, and after a successful call
    its keys are exactly the keys of the response, [schema] (for a
    table) or [access] (for a dataset) apart. *)
Theorem set_properties_replaces (api_response : dict) :
  (forall self other : Tables.Table,
      Tables._properties
        (fst (Tables._set_properties py_float self api_response))
      = Tables._properties
          (fst (Tables._set_properties py_float other api_response))) /\
  (forall self : Tables.Table,
      snd (Tables._set_properties py_float self api_response) = Ok tt ->
      forall k,
        has_key k (Tables._properties
                     (fst (Tables._set_properties py_float self
                             api_response)))
        <-> has_key k api_response /\ k <> "schema") /\
  (forall self other : Datasets.Dataset,
      Datasets._properties
        (fst (Datasets._set_properties py_float py_int self api_response))
      = Datasets._properties
          (fst (Datasets._set_properties py_float py_int other
                  api_response))) /\
  (forall self : Datasets.Dataset,
      snd (Datasets._set_properties py_float py_int self api_response)
      = Ok tt ->
      forall k,
        has_key k (Datasets._properties
                     (fst (Datasets._set_properties py_float py_int self
                             api_response)))
        <-> has_key k api_response /\ k <> "access").
Proof.
  split; [|split; [|split]].
  - intros self other. unfold Tables._set_properties.
    destruct (Schema._parse_schema_resource _); [|reflexivity].
    destruct (Tables.convert_if_present py_float "creationTime" _)
      as [c1|]; simpl; [|reflexivity].
    destruct (Tables.convert_if_present py_float "lastModifiedTime" _)
      as [c2|]; simpl; [|reflexivity].
    destruct (Tables.convert_if_present py_float "expirationTime" _);
      reflexivity.
  - intros self. unfold Tables._set_properties.
    destruct (Schema._parse_schema_resource _); [|discriminate].
    destruct (Tables.convert_if_present py_float "creationTime" _)
      as [c1|] eqn:E1; simpl; [|discriminate].
    destruct (Tables.convert_if_present py_float "lastModifiedTime" _)
      as [c2|] eqn:E2; simpl; [|discriminate].
    destruct (Tables.convert_if_present py_float "expirationTime" _)
      as [c3|] eqn:E3; simpl; [|discriminate].
    intros _ k.
    rewrite has_key_update_empty.
    rewrite (convert_if_present_keys _ _ _ _ E3).
    rewrite (convert_if_present_keys _ _ _ _ E2).
    rewrite (convert_if_present_keys _ _ _ _ E1).
    apply has_key_remove.
  - intros self other. unfold Datasets._set_properties.
    destruct (Datasets._parse_access_entries _); [|reflexivity].
    destruct (Tables.convert_if_present py_float "creationTime" _)
      as [c1|]; simpl; [|reflexivity].
    destruct (Tables.convert_if_present py_float "lastModifiedTime" _)
      as [c2|]; simpl; [|reflexivity].
    destruct (Tables.convert_if_present py_int "defaultTableExpirationMs" _);
      reflexivity.
  - intros self. unfold Datasets._set_properties.
    destruct (Datasets._parse_access_entries _); [|discriminate].
    destruct (Tables.convert_if_present py_float "creationTime" _)
      as [c1|] eqn:E1; simpl; [|discriminate].
    destruct (Tables.convert_if_present py_float "lastModifiedTime" _)
      as [c2|] eqn:E2; simpl; [|discriminate].
    destruct (Tables.convert_if_present py_int "defaultTableExpirationMs" _)
      as [c3|] eqn:E3; simpl; [|discriminate].
    intros _ k.
    rewrite has_key_update_empty.
    rewrite (convert_if_present_keys _ _ _ _ E3).
    rewrite (convert_if_present_keys _ _ _ _ E2).
    rewrite (convert_if_present_keys _ _ _ _ E1).
    apply has_key_remove.
Qed.

End SetProperties.

Section SetPropertiesExamples.
Import UpdateSpec InsertSpec.

Lemma set_properties_replaces_witness :
  ~ has_key "stale"
      (Tables._properties
         (fst (Tables._set_properties int_of stale_table fetched))) /\
  has_key "etag"
    (Tables._properties
       (fst (Tables._set_properties int_of stale_table fetched))) /\
  ~ has_key "stale"
      (Datasets._properties
         (fst (Datasets._set_properties int_of int_of stale_dataset
                 fetched))).
Proof.
  destruct (set_properties_replaces int_of int_of fetched)
    as [_ [Htable [_ Hdataset]]].
  specialize (Htable stale_table eq_refl).
  specialize (Hdataset stale_dataset eq_refl).
  split; [|split].
  - intros Hk. apply (proj1 (Htable "stale")) in Hk.
    destruct Hk as [[Hk|[Hk|[Hk|[]]]] _]; discriminate Hk.
  - apply (proj2 (Htable "etag")). split; [left; reflexivity|discriminate].
  - intros Hk. apply (proj1 (Hdataset "stale")) in Hk.
    destruct Hk as [[Hk|[Hk|[Hk|[]]]] _]; discriminate Hk.
Defined.

End SetPropertiesExamples.

(** * More on the schema codec *)

Section SchemaCodecMore.
Import Schema Canonical CodecSpec.

Lemma SchemaField_nested_ind (P : SchemaField -> Prop) :
  (forall n t m d fs, Forall P fs -> P (mkSchemaField n t m d fs)) ->
  forall f, P f.
Proof.
  intros step. fix IH 1. intros [n t m d fs]. apply step.
  induction fs as [|f fs IHfs]; constructor; [apply IH|exact IHfs].
Qed.

Lemma mapM_map_id {A B} (f : B -> result A) (g : A -> B) (l : list A) :
  Forall (fun x => f (g x) = Ok x) l -> mapM f (map g l) = Ok l.
Proof.
  induction 1 as [|x l Hx _ IH]; simpl; [reflexivity|].
  rewrite Hx, IH. reflexivity.
Qed.

Lemma parse_field_build_field_info (f : SchemaField) :
  parse_field _parse_schema_resource (build_field_info f) = Ok f.
Proof.
  induction f as [n t m d fs IH] using SchemaField_nested_ind.
  apply mapM_map_id in IH.
  unfold parse_field. rewrite _parse_schema_resource_unfold.
  unfold parse_body.
  destruct fs as [|f fs].
  - destruct d; reflexivity.
  - assert (E : mapM (parse_field _parse_schema_resource)
                  (map build_field_info (f :: fs)) = Ok (f :: fs))
      by exact IH.
    destruct d; simpl; simpl in E; rewrite E; reflexivity.
Qed.

(** X1.  Parsing the resource built from a list of fields gives the
    fields back, whatever their names, types, modes, descriptions and
    nesting: [decode(encode(fields)) == fields]. *)
Theorem parse_build_round_trip (fs : list SchemaField) :
  _parse_schema_resource (PDict [("fields", _build_schema_resource fs)])
  = Ok (SeqList fs).
Proof.
  rewrite _parse_schema_resource_unfold. unfold parse_body. simpl.
  rewrite (mapM_map_id (parse_field _parse_schema_resource)
             build_field_info fs).
  - reflexivity.
  - apply Forall_forall. intros f _. apply parse_field_build_field_info.
Qed.

Lemma build_field_info_shape (n t m d : pyval) (fs : list SchemaField) :
  build_field_info (mkSchemaField n t m d fs)
  = PDict (("name", n) :: ("type", t) :: opt_entry "mode" (Some m)
             ++ opt_entry "description"
                  (match d with PNone => None | _ => Some d end)
             ++ fields_entry (map build_field_info fs))%list.
Proof.
  destruct fs as [|f fs]; destruct d; reflexivity.
Qed.

(** X2.  [_build_schema_resource] only writes canonical field objects:
    the keys [name], [type], [mode] in this order, then [description]
    unless it is null and [fields] unless there are no children, at
    every level of nesting. *)
Theorem build_schema_resource_canonical (fs : list SchemaField) :
  exists r_fields,
    _build_schema_resource fs = PList r_fields /\
    List.length r_fields = List.length fs /\
    Forall (canonical_field false) r_fields.
Proof.
  exists (map build_field_info fs).
  split; [reflexivity|]. split; [apply length_map|].
  apply Forall_forall. intros r Hr. apply in_map_iff in Hr.
  destruct Hr as [f [<- _]]. clear fs.
  induction f as [n t m d fs IH] using SchemaField_nested_ind.
  rewrite build_field_info_shape.
  apply canonical_field_intro.
  - intros _. discriminate.
  - destruct d; discriminate.
  - apply Forall_forall. intros r Hr. apply in_map_iff in Hr.
    destruct Hr as [f [<- Hf]].
    rewrite Forall_forall in IH. apply IH. exact Hf.
Qed.

Lemma mapM_Forall2 {A B} (f : A -> result B) (R : A -> B -> Prop)
    (l : list A) (ys : list B) :
  (forall x y, In x l -> f x = Ok y -> R x y) ->
  mapM f l = Ok ys -> Forall2 R l ys.
Proof.
  revert ys. induction l as [|a l IH]; intros ys HR H; simpl in H.
  - injection H as <-. constructor.
  - destruct (f a) as [b|e] eqn:Ha; [|discriminate]. simpl in H.
    destruct (mapM f l) as [bs|e] eqn:Hl; [|discriminate].
    injection H as <-. constructor.
    + apply HR; [left; reflexivity|exact Ha].
    + apply IH; [|reflexivity].
      intros x y Hx. apply HR. right. exact Hx.
Qed.

Lemma parse_field_decodes (r : pyval) (f : SchemaField) :
  parse_field _parse_schema_resource r = Ok f -> decodes r f.
Proof.
  unfold parse_field, decodes. intros H.
  destruct (Builtins.getitem "name" r) as [n|]; [|discriminate].
  destruct (Builtins.getitem "type" r) as [t|]; [|discriminate].
  simpl in H.
  destruct (Builtins.get "mode" (PStr "NULLABLE") r) as [m|]; [|discriminate].
  destruct (Builtins.get "description" PNone r) as [d|]; [|discriminate].
  simpl in H.
  destruct (_parse_schema_resource r) as [sub|]; [|discriminate].
  injection H as <-. simpl.
  repeat split. exists sub. split; reflexivity.
Qed.

(** X3.  When [_parse_schema_resource] succeeds on a resource with a
    [fields] array, it returns one field per field object, in the order
    of the array; each field has the [name] and [type] of its object,
    its [mode] or NULLABLE when the object has none, its [description]
    or null, and as children the parse of the object. *)
Theorem parse_keeps_order (info : pyval) (r_fields : list pyval)
    (parsed : pyseq SchemaField) :
  Builtins.getitem "fields" info = Ok (PList r_fields) ->
  _parse_schema_resource info = Ok parsed ->
  Forall2 decodes r_fields (items parsed) /\
  List.length (items parsed) = List.length r_fields.
Proof.
  intros Hget H.
  assert (HF : Forall2 decodes r_fields (items parsed)).
  { rewrite _parse_schema_resource_unfold in H. unfold parse_body in H.
    rewrite Hget in H.
    destruct info; try discriminate Hget. simpl in H.
    unfold Builtins.getitem, Dict.getitem in Hget.
    destruct (Dict.get "fields" d) as [v|] eqn:Hv; [|discriminate].
    rewrite (dict_get_mem _ _ _ Hv) in H. simpl in H.
    destruct (mapM (parse_field _parse_schema_resource) r_fields)
      as [fs|] eqn:E; [|discriminate].
    injection H as <-. simpl.
    apply (mapM_Forall2 _ _ _ _ (fun x y _ => parse_field_decodes x y) E). }
  split; [exact HF|]. symmetry. exact (Forall2_length HF).
Qed.

Lemma parse_keeps_order_witness :
  Forall2 decodes fields_two_levels
    (items (SeqList (A := SchemaField)
       [mkSchemaField (PStr "id") (PStr "INTEGER") (PStr "REQUIRED") PNone [];
        mkSchemaField (PStr "owner") (PStr "RECORD") (PStr "NULLABLE")
          (PStr "who")
          [mkSchemaField (PStr "address") (PStr "RECORD") (PStr "REPEATED")
             PNone
             [mkSchemaField (PStr "zip") (PStr "STRING") (PStr "NULLABLE")
                PNone []]]])).
Proof.
  exact (proj1 (parse_keeps_order schema_two_levels fields_two_levels _
                  eq_refl eq_refl)).
Defined.

Lemma parse_fields_array (r_fields : list pyval) :
  _parse_schema_resource (schema_of r_fields)
  = (schema <- mapM (parse_field _parse_schema_resource) r_fields ;;
     Ok (SeqList schema)).
Proof.
  rewrite _parse_schema_resource_unfold. reflexivity.
Qed.

Lemma mapM_canonical (l : list pyval) :
  Forall (canonical_field false) l ->
  exists fs, mapM (parse_field _parse_schema_resource) l = Ok fs.
Proof.
  intros H.
  assert (IH : Forall (fun c => exists f,
                parse_field _parse_schema_resource c = Ok f /\
                build_field_info f = c) l).
  { eapply Forall_impl; [|exact H].
    intros c Hc. apply canonical_field_round_trip. exact Hc. }
  apply mapM_round_trip in IH. destruct IH as [fs [Hfs _]].
  exists fs. exact Hfs.
Qed.

(** X4.  The first field object that cannot be read decides how
    [_parse_schema_resource] fails: after canonical field objects, an
    item that is not a dictionary raises [TypeError], a field object
    without [name] raises [KeyError('name')], and one with a [name] but
    without [type] raises [KeyError('type')]; the items after it are
    not looked at. *)
Theorem parse_rejects_incomplete_field (pre post : list pyval)
    (bad : pyval) :
  Forall (canonical_field false) pre ->
  ((forall d, bad <> PDict d) ->
   _parse_schema_resource (schema_of (pre ++ bad :: post))
   = Raise TypeError) /\
  (forall d, bad = PDict d -> Dict.get "name" d = None ->
   _parse_schema_resource (schema_of (pre ++ bad :: post))
   = Raise (KeyError (PStr "name"))) /\
  (forall d n, bad = PDict d -> Dict.get "name" d = Some n ->
   Dict.get "type" d = None ->
   _parse_schema_resource (schema_of (pre ++ bad :: post))
   = Raise (KeyError (PStr "type"))).
Proof.
  intros Hpre. destruct (mapM_canonical _ Hpre) as [ys Hys].
  rewrite parse_fields_array.
  split; [|split].
  - intros Hbad.
    rewrite (mapM_first_failure _ pre bad post ys TypeError Hys);
      [reflexivity|].
    destruct bad; try reflexivity. exfalso. exact (Hbad d eq_refl).
  - intros d -> Hname.
    rewrite (mapM_first_failure _ pre (PDict d) post ys
               (KeyError (PStr "name")) Hys); [reflexivity|].
    unfold parse_field, Builtins.getitem, Dict.getitem. rewrite Hname.
    reflexivity.
  - intros d n -> Hname Htype.
    rewrite (mapM_first_failure _ pre (PDict d) post ys
               (KeyError (PStr "type")) Hys); [reflexivity|].
    unfold parse_field, Builtins.getitem, Dict.getitem.
    rewrite Hname, Htype. reflexivity.
Qed.

Lemma parse_rejects_incomplete_field_witness :
  _parse_schema_resource (schema_of [id_field; PStr "zip"; nameless])
  = Raise TypeError /\
  _parse_schema_resource (schema_of [id_field; nameless; typeless])
  = Raise (KeyError (PStr "name")) /\
  _parse_schema_resource (schema_of [id_field; typeless; nameless])
  = Raise (KeyError (PStr "type")).
Proof.
  assert (Hid : Forall (canonical_field false) [id_field]).
  { repeat constructor.
    apply (canonical_field_intro false (PStr "id") (PStr "INTEGER")
             (Some (PStr "REQUIRED")) None []);
      [discriminate|discriminate|constructor]. }
  split; [|split].
  - apply (proj1 (parse_rejects_incomplete_field [id_field] [nameless]
                    (PStr "zip") Hid)).
    discriminate.
  - apply (proj1 (proj2 (parse_rejects_incomplete_field [id_field]
                           [typeless] nameless Hid))
             [("type", PStr "STRING")]); reflexivity.
  - apply (proj2 (proj2 (parse_rejects_incomplete_field [id_field]
                           [nameless] typeless Hid))
             [("name", PStr "a")] (PStr "a")); reflexivity.
Defined.

End SchemaCodecMore.

(** * Properties of the setters of a table *)

Section TableSetters.
Import Tables TableProperties.

Lemma get_default_set (k k' : string) (dflt v : pyval) (d : dict) :
  Dict.get_default k dflt (Dict.set k' v d)
  = if String.eqb k k' then v else Dict.get_default k dflt d.
Proof.
  unfold Dict.get_default. rewrite dict_get_set.
  destruct (String.eqb k k'); reflexivity.
Qed.

Lemma get_default_remove (k k' : string) (dflt : pyval) (d : dict) :
  Dict.get_default k dflt (Dict.remove k' d)
  = if String.eqb k k' then dflt else Dict.get_default k dflt d.
Proof.
  unfold Dict.get_default. rewrite dict_get_remove.
  destruct (String.eqb k k'); reflexivity.
Qed.

(** X5.  The setters of [description], [friendly_name] and [location]
    of a table accept a string or [None] and nothing else: an accepted
    value is what the property reads afterwards, the other properties
    and the schema are untouched; any other value raises
    [ValueError("Pass a string, or None")]. *)
Theorem table_string_setters (k : string) (self : Table) (value : pyval) :
  (is_string value || is_none value = true ->
   exists self',
     set_string_property k self value = Ok self' /\
     property k self' = value /\
     (forall k', k' <> k -> property k' self' = property k' self) /\
     _schema self' = _schema self) /\
  (is_string value || is_none value = false ->
   set_string_property k self value
   = Raise (ValueError "Pass a string, or None" [])).
Proof.
  unfold set_string_property. split; intros H.
  - assert (E : negb (is_string value) && negb (is_none value) = false).
    { rewrite <- negb_orb, H. reflexivity. }
    rewrite E. eexists. split; [reflexivity|].
    unfold property. simpl. split; [|split; [|reflexivity]].
    + rewrite get_default_set, String.eqb_refl. reflexivity.
    + intros k' Hk. rewrite get_default_set.
      apply String.eqb_neq in Hk. rewrite Hk. reflexivity.
  - rewrite <- negb_orb, H. reflexivity.
Qed.

Lemma table_string_setters_witness :
  (exists self',
      set_friendly_name (RowSpec.table_of RowSpec.schema_abc) (PStr "t")
      = Ok self' /\
      friendly_name self' = PStr "t") /\
  set_friendly_name (RowSpec.table_of RowSpec.schema_abc) (PInt 3)
  = Raise (ValueError "Pass a string, or None" []).
Proof.
  destruct (table_string_setters "friendlyName"
              (RowSpec.table_of RowSpec.schema_abc) (PStr "t")) as [H _].
  destruct (table_string_setters "friendlyName"
              (RowSpec.table_of RowSpec.schema_abc) (PInt 3)) as [_ H'].
  split.
  - destruct (H eq_refl) as [self' [Hset [Hget _]]].
    exists self'. split; assumption.
  - exact (H' eq_refl).
Defined.

Lemma view_get_with_properties (k : string) (self : Table)
    (properties view : dict) :
  Dict.get "view" properties = Some (PDict view) ->
  view_get k (with_properties self properties)
  = Ok (Dict.get_default k PNone view).
Proof.
  intros H. unfold view_get, with_properties, Dict.get_default. simpl.
  rewrite H. reflexivity.
Qed.

Lemma set_in_view_dict (k : string) (v : pyval) (properties view : dict) :
  Dict.get "view" properties = Some (PDict view) ->
  set_in_view k v properties
  = Ok (Dict.set "view" (PDict (Dict.set k v view)) properties).
Proof.
  intros H. unfold set_in_view, Dict.getitem. rewrite H. reflexivity.
Qed.

Lemma set_view_property_ok (k : string) (self self' : Table)
    (value : pyval) :
  set_view_property k self value = Ok self' ->
  view_get k self' = Ok value /\
  (forall k', k' <> k -> view_get k' self' = view_get k' self) /\
  (forall k', k' <> "view" -> property k' self' = property k' self) /\
  _schema self' = _schema self.
Proof.
  unfold set_view_property.
  assert (Hfresh : forall properties,
             set_in_view k value (Dict.set "view" (PDict []) properties)
             = Ok (Dict.set "view" (PDict (Dict.set k value []))
                     (Dict.set "view" (PDict []) properties))).
  { intros properties. apply set_in_view_dict. apply dict_get_set_same. }
  assert (Hnone : Dict.get_default "view" PNone (_properties self) = PNone ->
            forall k', view_get k' self = Ok PNone).
  { intros E k'. unfold view_get. rewrite E. reflexivity. }
  destruct (Dict.get_default "view" PNone (_properties self)) eqn:E;
    try (unfold Dict.get_default in E;
         destruct (Dict.get "view" (_properties self)) as [view|] eqn:E';
         [|discriminate E]; subst view;
         unfold set_in_view, Dict.getitem; rewrite E'; discriminate).
  - rewrite Hfresh. cbn [bind]. intros [= <-].
    split; [|split; [|split; [|reflexivity]]].
    + rewrite (view_get_with_properties _ _ _ _ (dict_get_set_same _ _ _)).
      change [(k, value)] with (Dict.set k value []).
      rewrite get_default_set, String.eqb_refl. reflexivity.
    + intros k' Hk.
      rewrite (view_get_with_properties _ _ _ _ (dict_get_set_same _ _ _)).
      change [(k, value)] with (Dict.set k value []).
      rewrite get_default_set. apply String.eqb_neq in Hk. rewrite Hk.
      rewrite (Hnone eq_refl). reflexivity.
    + intros k' Hk. unfold property. simpl.
      rewrite !get_default_set. apply String.eqb_neq in Hk.
      rewrite Hk. reflexivity.
  - unfold Dict.get_default in E.
    destruct (Dict.get "view" (_properties self)) as [view|] eqn:E';
      [|discriminate E]. subst view.
    rewrite (set_in_view_dict _ _ _ _ E'). cbn [bind]. intros [= <-].
    split; [|split; [|split; [|reflexivity]]].
    + rewrite (view_get_with_properties _ _ _ _ (dict_get_set_same _ _ _)).
      rewrite get_default_set, String.eqb_refl. reflexivity.
    + intros k' Hk.
      rewrite (view_get_with_properties _ _ _ _ (dict_get_set_same _ _ _)).
      rewrite get_default_set. apply String.eqb_neq in Hk. rewrite Hk.
      unfold view_get, Dict.get_default. rewrite E'. reflexivity.
    + intros k' Hk. unfold property. simpl.
      rewrite get_default_set. apply String.eqb_neq in Hk.
      rewrite Hk. reflexivity.
Qed.

(** X6.  [view_query] and [view_use_legacy_sql] live in the same
    [view] entry of the property bag without disturbing each other: a
    successful setter of one makes it read the value set, leaves the
    other as it read before, and leaves the other properties alone.
    [view_query] only takes a string and [view_use_legacy_sql] only a
    boolean. *)
Theorem view_setters_keep_each_other (self self' : Table) (value : pyval) :
  (set_view_query self value = Ok self' ->
   is_string value = true /\
   view_query self' = Ok value /\
   view_use_legacy_sql self' = view_use_legacy_sql self /\
   (forall k, k <> "view" -> property k self' = property k self)) /\
  (set_view_use_legacy_sql self value = Ok self' ->
   is_bool value = true /\
   view_use_legacy_sql self' = Ok value /\
   view_query self' = view_query self /\
   (forall k, k <> "view" -> property k self' = property k self)).
Proof.
  unfold set_view_query, set_view_use_legacy_sql, view_query,
    view_use_legacy_sql.
  split; intros H.
  - destruct (is_string value); [|discriminate]. simpl in H.
    apply set_view_property_ok in H. destruct H as [H1 [H2 [H3 _]]].
    repeat split; [exact H1|apply H2; discriminate|exact H3].
  - destruct (is_bool value); [|discriminate]. simpl in H.
    apply set_view_property_ok in H. destruct H as [H1 [H2 [H3 _]]].
    repeat split; [exact H1|apply H2; discriminate|exact H3].
Qed.

Lemma view_setters_keep_each_other_witness :
  exists t1 t2,
    set_view_query (RowSpec.table_of []) (PStr "SELECT 1") = Ok t1 /\
    set_view_use_legacy_sql t1 (PBool false) = Ok t2 /\
    view_query t2 = Ok (PStr "SELECT 1") /\
    view_use_legacy_sql t2 = Ok (PBool false).
Proof.
  eexists. eexists. split; [reflexivity|]. split; [reflexivity|].
  match goal with
  | |- view_query ?t2 = _ /\ _ =>
      destruct (view_setters_keep_each_other
                  (with_properties (RowSpec.table_of [])
                     [("view", PDict [("query", PStr "SELECT 1")])])
                  t2 (PBool false)) as [_ H]
  end.
  destruct (H eq_refl) as [_ [H1 [H2 _]]].
  split; [rewrite H2; reflexivity|exact H1].
Defined.

(** X7.  Deleting [view_query] removes the whole [view] entry:
    afterwards both [view_query] and [view_use_legacy_sql] read
    [None], whatever they were, and the other properties are
    untouched.  The setter is no way to clear the query: it refuses
    [None] with [ValueError("Pass a string")]. *)
Theorem del_view_query_drops_view (self : Table) :
  view_query (del_view_query self) = Ok PNone /\
  view_use_legacy_sql (del_view_query self) = Ok PNone /\
  (forall k, k <> "view" ->
             property k (del_view_query self) = property k self) /\
  set_view_query self PNone = Raise (ValueError "Pass a string" []).
Proof.
  unfold view_query, view_use_legacy_sql, view_get, del_view_query,
    property.
  simpl. rewrite get_default_remove. simpl.
  repeat split.
  intros k Hk. rewrite get_default_remove.
  apply String.eqb_neq in Hk. rewrite Hk. reflexivity.
Qed.

Lemma del_view_query_drops_view_witness :
  view_use_legacy_sql
    (del_view_query
       (with_properties (RowSpec.table_of [])
          [("view", PDict [("query", PStr "SELECT 1");
                           ("useLegacySql", PBool true)]);
           ("description", PStr "d")]))
  = Ok PNone /\
  description
    (del_view_query
       (with_properties (RowSpec.table_of [])
          [("view", PDict [("query", PStr "SELECT 1");
                           ("useLegacySql", PBool true)]);
           ("description", PStr "d")]))
  = PStr "d".
Proof.
  destruct (del_view_query_drops_view
              (with_properties (RowSpec.table_of [])
                 [("view", PDict [("query", PStr "SELECT 1");
                                  ("useLegacySql", PBool true)]);
                  ("description", PStr "d")])) as [_ [H1 [H2 _]]].
  split; [exact H1|].
  unfold description. rewrite H2; [reflexivity|discriminate].
Defined.

Lemma dict_get_none_mem (k : string) (d : dict) :
  Dict.get k d = None -> Dict.mem k d = false.
Proof.
  induction d as [|[k' v'] d IH]; simpl; [reflexivity|].
  destruct (String.eqb k k'); [discriminate|exact IH].
Qed.

Lemma partitioning_get_with_properties (k : string) (self : Table)
    (properties time_part : dict) :
  Dict.get "timePartitioning" properties = Some (PDict time_part) ->
  partitioning_get k (with_properties self properties)
  = Ok (Dict.get_default k PNone time_part).
Proof.
  intros H. unfold partitioning_get, with_properties, Dict.get_default.
  simpl. rewrite H. reflexivity.
Qed.

(** X8.  On a table without time partitioning, setting
    [partition_expiration] to an integer also turns partitioning on:
    afterwards [partitioning_type] reads ["DAY"] and
    [partition_expiration] the value set; setting it to [None] changes
    nothing. *)
Theorem partition_expiration_turns_partitioning_on (self : Table)
    (value : pyval) :
  Dict.get "timePartitioning" (_properties self) = None ->
  set_partition_expiration self PNone = Ok self /\
  (is_int value = true ->
   exists self',
     set_partition_expiration self value = Ok self' /\
     partition_expiration self' = Ok value /\
     partitioning_type self' = Ok (PStr "DAY")).
Proof.
  intros H. unfold set_partition_expiration. simpl. rewrite H.
  split; [reflexivity|]. intros Hint. rewrite Hint. simpl.
  unfold partition_expiration, partitioning_type.
  destruct value; try discriminate Hint;
    (eexists; split; [reflexivity|];
     rewrite !(partitioning_get_with_properties _ _ _ _
                 (dict_get_set_same _ _ _));
     split; reflexivity).
Qed.

Lemma partition_expiration_turns_partitioning_on_witness :
  exists self',
    set_partition_expiration (RowSpec.table_of []) (PInt 1000) = Ok self' /\
    partition_expiration self' = Ok (PInt 1000) /\
    partitioning_type self' = Ok (PStr "DAY").
Proof.
  exact (proj2 (partition_expiration_turns_partitioning_on
                  (RowSpec.table_of []) (PInt 1000) eq_refl) eq_refl).
Defined.

(** X9.  On a partitioned table, setting [partition_expiration] to an
    integer keeps the partitioning type; setting it to [None] removes
    the expiration when there is one and raises
    [KeyError('expirationMs')] when there is none. *)
Theorem partition_expiration_on_partitioned (self : Table)
    (time_part : dict) (value : pyval) :
  Dict.get "timePartitioning" (_properties self) = Some (PDict time_part) ->
  (is_int value = true ->
   exists self',
     set_partition_expiration self value = Ok self' /\
     partition_expiration self' = Ok value /\
     partitioning_type self' = partitioning_type self) /\
  (Dict.mem "expirationMs" time_part = false ->
   set_partition_expiration self PNone
   = Raise (KeyError (PStr "expirationMs"))) /\
  (Dict.mem "expirationMs" time_part = true ->
   exists self',
     set_partition_expiration self PNone = Ok self' /\
     partition_expiration self' = Ok PNone /\
     partitioning_type self' = partitioning_type self).
Proof.
  intros H. unfold set_partition_expiration. rewrite H.
  assert (Htype : partitioning_type self
                  = Ok (Dict.get_default "type" PNone time_part)).
  { unfold partitioning_type, partitioning_get, Dict.get_default.
    rewrite H. reflexivity. }
  unfold partition_expiration. rewrite Htype. unfold partitioning_type.
  split; [|split].
  - intros Hint. rewrite Hint. simpl.
    destruct value; try discriminate Hint;
      (eexists; split; [reflexivity|];
       rewrite !(partitioning_get_with_properties _ _ _ _
                   (dict_get_set_same _ _ _));
       rewrite !get_default_set; split; reflexivity).
  - intros Hmem. simpl. rewrite Hmem. reflexivity.
  - intros Hmem. simpl. rewrite Hmem.
    eexists; split; [reflexivity|].
    rewrite !(partitioning_get_with_properties _ _ _ _
                (dict_get_set_same _ _ _)).
    rewrite !get_default_remove. split; reflexivity.
Qed.

Lemma partition_expiration_on_partitioned_witness :
  set_partition_expiration
    (with_properties (RowSpec.table_of [])
       [("timePartitioning", PDict [("type", PStr "DAY")])]) PNone
  = Raise (KeyError (PStr "expirationMs")).
Proof.
  exact (proj1 (proj2 (partition_expiration_on_partitioned
                         (with_properties (RowSpec.table_of [])
                            [("timePartitioning",
                              PDict [("type", PStr "DAY")])])
                         [("type", PStr "DAY")] PNone eq_refl))
           eq_refl).
Defined.

(** X10.  The setter of [partitioning_type] takes ["DAY"] or [None]
    and raises [ValueError] for anything else, lower-case ["day"]
    included.  [None] removes the partitioning together with the
    partition expiration; ["DAY"], on a table without partitioning or
    with a partitioning entry, makes the type read ["DAY"] and keeps
    the expiration. *)
Theorem partitioning_type_setter (self : Table) (value : pyval) :
  (value <> PStr "DAY" -> value <> PNone ->
   set_partitioning_type self value
   = Raise (ValueError "value must be one of ['DAY', None]" [])) /\
  (exists self',
      set_partitioning_type self PNone = Ok self' /\
      partitioning_type self' = Ok PNone /\
      partition_expiration self' = Ok PNone) /\
  ((Dict.get "timePartitioning" (_properties self) = None \/
    exists time_part,
      Dict.get "timePartitioning" (_properties self)
      = Some (PDict time_part)) ->
   exists self',
     set_partitioning_type self (PStr "DAY") = Ok self' /\
     partitioning_type self' = Ok (PStr "DAY") /\
     partition_expiration self' = partition_expiration self).
Proof.
  split; [|split].
  - intros H1 H2. unfold set_partitioning_type.
    destruct value; try reflexivity; try (exfalso; apply H2; reflexivity).
    unfold Builtins.is_str.
    destruct (String.eqb "DAY" s) eqn:E; [|reflexivity].
    apply String.eqb_eq in E. subst s. exfalso. apply H1. reflexivity.
  - eexists. split; [reflexivity|].
    unfold partitioning_type, partition_expiration, partitioning_get.
    simpl. rewrite get_default_remove. simpl. split; reflexivity.
  - unfold set_partitioning_type, partition_expiration, partitioning_type.
    simpl.
    intros [H|[time_part H]].
    + rewrite (dict_get_none_mem _ _ H). rewrite get_default_set. simpl.
      eexists. split; [reflexivity|].
      rewrite !(partitioning_get_with_properties _ _ _ _
                  (dict_get_set_same _ _ _)).
      unfold partitioning_get, Dict.get_default. rewrite H.
      split; reflexivity.
    + rewrite (dict_get_mem _ _ _ H).
      unfold Dict.get_default at 1. rewrite H.
      eexists. split; [reflexivity|].
      rewrite !(partitioning_get_with_properties _ _ _ _
                  (dict_get_set_same _ _ _)).
      rewrite !get_default_set. simpl.
      unfold partitioning_get, Dict.get_default at 2. rewrite H.
      split; reflexivity.
Qed.

Lemma partitioning_type_setter_witness :
  set_partitioning_type (RowSpec.table_of []) (PStr "day")
  = Raise (ValueError "value must be one of ['DAY', None]" []) /\
  exists self',
    set_partitioning_type (RowSpec.table_of []) (PStr "DAY") = Ok self' /\
    partitioning_type self' = Ok (PStr "DAY").
Proof.
  destruct (partitioning_type_setter (RowSpec.table_of []) (PStr "day"))
    as [H [_ H']].
  split.
  - apply H; discriminate.
  - destruct (H' (or_introl eq_refl)) as [self' [H1 [H2 _]]].
    exists self'. split; assumption.
Defined.

End TableSetters.

(** * Properties of the access entries of a dataset *)

Section AccessEntries.
Import Datasets DatasetResource DatasetSpec.

Lemma new_AccessEntry_valid (r ty id : pyval) (e : AccessEntry) :
  new_AccessEntry r ty id = Ok e ->
  e = mkAccessEntry r ty id /\ valid_entry e.
Proof.
  unfold new_AccessEntry.
  destruct (existsb (fun t => Builtins.is_str t ty) ENTITY_TYPES) eqn:Hex;
    [|discriminate].
  apply existsb_exists in Hex. destruct Hex as [t [Hin Ht]].
  destruct ty; try discriminate Ht. unfold Builtins.is_str in Ht.
  apply String.eqb_eq in Ht. subst s. unfold Builtins.is_str.
  destruct (String.eqb "view" t) eqn:Hview.
  - apply String.eqb_eq in Hview. subst t.
    destruct r; try discriminate. intros [= <-].
    split; [reflexivity|]. exists "view". simpl.
    repeat split; [exact Hin|intros H; exfalso; apply H; reflexivity].
  - apply String.eqb_neq in Hview.
    destruct r; try discriminate; intros [= <-];
      (split; [reflexivity|]; exists t; cbn [entity_type role];
       repeat split; [exact Hin|intros ->; exfalso; apply Hview; reflexivity
                     |discriminate]).
Qed.

Lemma parse_access_entries_list (l : list pyval) (x : pyval) :
  _parse_access_entries (PList (x :: l))
  = (e <- _parse_access_entries (PList [x]) ;;
     es <- _parse_access_entries (PList l) ;;
     Ok (e ++ es)%list).
Proof.
  unfold _parse_access_entries. cbn [Builtins.iter bind mapM].
  match goal with
  | |- bind ?hd _ = _ => destruct hd as [e|err]
  end; cbn [bind]; [|reflexivity].
  match goal with
  | |- bind ?tl _ = _ => destruct tl as [es|err]
  end; reflexivity.
Qed.

Lemma parse_access_info (e : AccessEntry) :
  valid_entry e ->
  exists info,
    access_info e = Ok info /\ _parse_access_entries (PList [info]) = Ok [e].
Proof.
  intros [t [Hin [Hty [Hview Hother]]]].
  destruct e as [r ty id]. simpl in *. subst ty.
  unfold access_info. simpl.
  destruct Hin as [<-|[<-|[<-|[<-|[<-|[]]]]]];
    try (destruct r;
         try (exfalso; apply Hother; [discriminate|reflexivity]);
         eexists; split; reflexivity).
  rewrite (Hview eq_refl). eexists. split; reflexivity.
Qed.

Lemma build_parse_access (entries : list AccessEntry) :
  Forall valid_entry entries ->
  exists access,
    mapM access_info entries = Ok access /\
    List.length access = List.length entries /\
    _parse_access_entries (PList access) = Ok entries.
Proof.
  induction 1 as [|e es He _ [access [Hb [Hlen Hp]]]].
  - exists []. repeat split.
  - destruct (parse_access_info e He) as [info [Hinfo Hparse]].
    exists (info :: access). simpl. rewrite Hinfo, Hb. cbn [bind].
    split; [reflexivity|]. split; [rewrite Hlen; reflexivity|].
    rewrite parse_access_entries_list, Hparse, Hp. reflexivity.
Qed.

(** X11.  The access entries of a dataset survive the trip through
    their resource: for entries the constructor of [AccessEntry] lets
    through, [_parse_access_entries] on what [_build_access_resource]
    builds gives the same entries in the same order. *)
Theorem access_entries_round_trip (self : Dataset) :
  Forall valid_entry (_access_entries self) ->
  exists access,
    _build_access_resource self = Ok (PList access) /\
    List.length access = List.length (_access_entries self) /\
    _parse_access_entries (PList access) = Ok (_access_entries self).
Proof.
  intros H. destruct (build_parse_access _ H) as [access [Hb [Hlen Hp]]].
  exists access. unfold _build_access_resource, access_entries.
  rewrite Hb. repeat split; assumption.
Qed.

Lemma access_entries_round_trip_witness :
  exists access,
    _build_access_resource shared_dataset = Ok (PList access) /\
    _parse_access_entries (PList access) = Ok [owner_entry; view_entry].
Proof.
  assert (H : Forall valid_entry (_access_entries shared_dataset)).
  { repeat constructor.
    - exists "userByEmail". simpl.
      repeat split; [left; reflexivity|discriminate|discriminate].
    - exists "view". simpl.
      repeat split; [do 4 right; left; reflexivity
                    |intros E; exfalso; apply E; reflexivity]. }
  destruct (access_entries_round_trip shared_dataset H)
    as [access [Hb [_ Hp]]].
  exists access. split; assumption.
Defined.

(** X12.  Every entry [_parse_access_entries] returns is one the
    constructor of [AccessEntry] lets through: its entity type is among
    [ENTITY_TYPES], a view has no role and any other entity has one;
    and there is one entry per item of the resource. *)
Theorem parsed_access_entries_valid (access : pyval)
    (entries : list AccessEntry) :
  _parse_access_entries access = Ok entries ->
  Forall valid_entry entries /\
  exists items, Builtins.iter access = Ok items /\
                List.length entries = List.length items.
Proof.
  unfold _parse_access_entries.
  destruct (Builtins.iter access) as [l|]; [|discriminate]. cbn [bind].
  intros H.
  match type of H with
  | mapM ?f l = _ =>
      pose proof (mapM_Forall2 f (fun _ e => valid_entry e) l entries) as HF
  end.
  assert (F2 : Forall2 (fun (_ : pyval) e => valid_entry e) l entries).
  { apply HF; [|exact H]. clear. intros x e _ Hx.
    destruct x; try discriminate Hx. cbn [bind] in Hx.
    destruct (rev (Dict.remove "role" d)) as [|[ty id] rest];
      [discriminate|].
    destruct rest; [|discriminate].
    apply new_AccessEntry_valid in Hx. apply Hx. }
  split.
  - clear -F2. induction F2; constructor; assumption.
  - exists l. split; [reflexivity|]. symmetry. exact (Forall2_length F2).
Qed.

Lemma parsed_access_entries_valid_witness :
  Forall valid_entry [owner_entry].
Proof.
  exact (proj1 (parsed_access_entries_valid
                  (PList [PDict [("role", PStr "OWNER");
                                 ("userByEmail", PStr "a@example.com")]])
                  [owner_entry] eq_refl)).
Defined.

(** X13.  An access item must name exactly one entity next to its
    optional [role]: with none, [_parse_access_entries] raises the
    [KeyError] of [popitem] on an empty dictionary; with more than one,
    it raises [ValueError("Entry has unexpected keys remaining.")]
    carrying the keys left after the last one was taken. *)
Theorem parse_access_entries_entity_count (d : dict) (rest : list pyval) :
  (Dict.remove "role" d = [] ->
   _parse_access_entries (PList (PDict d :: rest))
   = Raise (KeyError (PStr "popitem(): dictionary is empty"))) /\
  (forall init last,
      init <> [] ->
      Dict.remove "role" d = (init ++ [last])%list ->
      _parse_access_entries (PList (PDict d :: rest))
      = Raise (ValueError "Entry has unexpected keys remaining."
                 [PDict init])).
Proof.
  unfold _parse_access_entries. cbn [Builtins.iter bind mapM].
  split.
  - intros ->. reflexivity.
  - intros init [lk lv] Hne ->.
    rewrite rev_app_distr. cbn [rev app].
    destruct (rev init) as [|x xs] eqn:E.
    + exfalso. apply Hne. rewrite <- (rev_involutive init), E. reflexivity.
    + rewrite <- E, rev_involutive. reflexivity.
Qed.

Lemma parse_access_entries_entity_count_witness :
  _parse_access_entries (PList [PDict [("role", PStr "OWNER")]])
  = Raise (KeyError (PStr "popitem(): dictionary is empty")) /\
  _parse_access_entries
    (PList [PDict [("role", PStr "OWNER"); ("userByEmail", PStr "a");
                   ("groupByEmail", PStr "g")]])
  = Raise (ValueError "Entry has unexpected keys remaining."
             [PDict [("userByEmail", PStr "a")]]).
Proof.
  split.
  - exact (proj1 (parse_access_entries_entity_count
                    [("role", PStr "OWNER")] []) eq_refl).
  - apply (proj2 (parse_access_entries_entity_count
                    [("role", PStr "OWNER"); ("userByEmail", PStr "a");
                     ("groupByEmail", PStr "g")] [])
             [("userByEmail", PStr "a")] ("groupByEmail", PStr "g"));
      [discriminate|reflexivity].
Defined.

End AccessEntries.

(** * Properties of the resource of a dataset *)

Section DatasetBuildResource.
Import Datasets DatasetResource DatasetSpec UpdateSpec.

Lemma is_none_eq (v : pyval) : TableProperties.is_none v = true -> v = PNone.
Proof. destruct v; try discriminate. reflexivity. Qed.

Lemma set_if_not_none_is_none (k : string) (v : pyval) (d : dict) :
  set_if_not_none k v d
  = if TableProperties.is_none v then d else Dict.set k v d.
Proof. destruct v; reflexivity. Qed.

Lemma dict_get_in (k : string) (v : pyval) (d : dict) :
  Dict.get k d = Some v -> In (k, v) d.
Proof.
  induction d as [|[k' v'] d IH]; simpl; [discriminate|].
  destruct (String.eqb k k') eqn:E.
  - apply String.eqb_eq in E. subst k'. intros [= ->]. left. reflexivity.
  - intros H. right. apply IH. exact H.
Qed.

Lemma build_resource_base (self : Dataset) :
  set_if_not_none "location" (location self)
    (set_if_not_none "friendlyName" (friendly_name self)
       (set_if_not_none "description" (description self)
          (set_if_not_none "defaultTableExpirationMs"
             (default_table_expiration_ms self)
             [("datasetReference",
               PDict [("projectId", PStr (_project self));
                      ("datasetId", PStr (_dataset_id self))])])))
  = resource_base self.
Proof.
  unfold resource_base, sent. rewrite !set_if_not_none_is_none.
  destruct (TableProperties.is_none (default_table_expiration_ms self));
    destruct (TableProperties.is_none (description self));
    destruct (TableProperties.is_none (friendly_name self));
    destruct (TableProperties.is_none (location self)); reflexivity.
Qed.

Lemma sent_not_none (k k' : string) (v v' : pyval) :
  In (k', v') (sent k v) -> k' = k /\ v' = v /\ v <> PNone.
Proof.
  unfold sent. destruct v; simpl; intros H; try contradiction;
    destruct H as [H|[]]; injection H as <- <-;
    repeat split; discriminate.
Qed.

Lemma resource_base_not_none (self : Dataset) (k : string) (v : pyval) :
  In (k, v) (resource_base self) -> v <> PNone.
Proof.
  unfold resource_base. intros Hin. apply in_inv in Hin.
  destruct Hin as [Hin|Hin].
  - injection Hin as _ <-. discriminate.
  - repeat (apply in_app_or in Hin; destruct Hin as [Hin|Hin]);
      apply sent_not_none in Hin; destruct Hin as [_ [-> Hv]]; exact Hv.
Qed.

Lemma dataset_resource_shape (self : Dataset) (resource : dict) :
  _build_resource self = Ok resource ->
  _access_entries self = [] /\ resource = resource_base self \/
  exists access,
    _access_entries self <> [] /\
    mapM access_info (_access_entries self) = Ok access /\
    resource = (resource_base self ++ [("access", PList access)])%list.
Proof.
  unfold _build_resource. rewrite build_resource_base. intros H.
  unfold access_entries in H.
  destruct (_access_entries self) as [|e es] eqn:E.
  - left. injection H as <-. split; reflexivity.
  - right. cbn [List.length Nat.ltb Nat.leb] in H.
    unfold _build_access_resource, access_entries in H.
    rewrite E in H.
    destruct (mapM access_info (e :: es)) as [l|]; [|discriminate H].
    cbn [bind] in H. injection H as <-.
    exists l. split; [discriminate|]. split; [reflexivity|].
    unfold resource_base, sent.
    destruct (TableProperties.is_none (default_table_expiration_ms self));
      destruct (TableProperties.is_none (description self));
      destruct (TableProperties.is_none (friendly_name self));
      destruct (TableProperties.is_none (location self)); reflexivity.
Qed.

(** X14.  The resource [Dataset._build_resource] builds holds
    [datasetReference] first, then, in this order, those of
    [defaultTableExpirationMs], [description], [friendlyName] and
    [location] whose property is not [None], then [access] when there
    are access entries: a property that is [None] is not sent at all,
    and no entry of the resource is null. *)
Theorem dataset_resource_sends_no_null (self : Dataset) (resource : dict) :
  _build_resource self = Ok resource ->
  (_access_entries self = [] /\ resource = resource_base self \/
   exists access,
     _access_entries self <> [] /\
     _build_access_resource self = Ok (PList access) /\
     resource = (resource_base self ++ [("access", PList access)])%list) /\
  (forall k v, Dict.get k resource = Some v -> v <> PNone).
Proof.
  intros H. apply dataset_resource_shape in H.
  split.
  - destruct H as [H|[access [Hne [Hb Hr]]]]; [left; exact H|right].
    exists access. unfold _build_access_resource, access_entries.
    rewrite Hb. repeat split; assumption.
  - intros k v Hget. apply dict_get_in in Hget.
    destruct H as [[_ ->]|[access [_ [_ ->]]]].
    + exact (resource_base_not_none _ _ _ Hget).
    + apply in_app_or in Hget. destruct Hget as [Hget|[Hget|[]]].
      * exact (resource_base_not_none _ _ _ Hget).
      * injection Hget as _ <-. discriminate.
Qed.

Lemma dataset_resource_sends_no_null_witness :
  exists resource,
    _build_resource shared_dataset = Ok resource /\
    Dict.keys resource = ["datasetReference"; "friendlyName"; "access"] /\
    forall k v, Dict.get k resource = Some v -> v <> PNone.
Proof.
  eexists. split; [reflexivity|]. split; [reflexivity|].
  exact (proj2 (dataset_resource_sends_no_null shared_dataset _ eq_refl)).
Defined.

(** X15.  The setters of a dataset check the kind of value:
    [default_table_expiration_ms] takes an integer or [None],
    [description], [friendly_name] and [location] a string or [None];
    an accepted value is what the property reads afterwards and the
    other properties are untouched, any other value raises
    [ValueError] and nothing is stored. *)
Theorem dataset_setters (k : string) (self : Dataset) (value : pyval) :
  (TableProperties.is_string value || TableProperties.is_none value = true ->
   exists self',
     set_string_property k self value = Ok self' /\
     property k self' = value /\
     forall k', k' <> k -> property k' self' = property k' self) /\
  (TableProperties.is_string value || TableProperties.is_none value = false ->
   set_string_property k self value
   = Raise (ValueError "Pass a string, or None" [])) /\
  (TableProperties.is_int value || TableProperties.is_none value = true ->
   exists self',
     set_default_table_expiration_ms self value = Ok self' /\
     default_table_expiration_ms self' = value /\
     forall k', k' <> "defaultTableExpirationMs" ->
                property k' self' = property k' self) /\
  (TableProperties.is_int value || TableProperties.is_none value = false ->
   set_default_table_expiration_ms self value
   = Raise (ValueError "Pass an integer, or None" [])).
Proof.
  unfold set_string_property, set_default_table_expiration_ms,
    default_table_expiration_ms, property.
  rewrite <- !negb_orb.
  repeat split; intros H; rewrite H; cbn [negb];
    try reflexivity;
    (eexists; split; [reflexivity|]; simpl; split;
     [rewrite get_default_set, String.eqb_refl; reflexivity
     |intros k' Hk; rewrite get_default_set;
      apply String.eqb_neq in Hk; rewrite Hk; reflexivity]).
Qed.

Lemma dataset_setters_witness :
  set_default_table_expiration_ms dataset_x (PStr "5000")
  = Raise (ValueError "Pass an integer, or None" []) /\
  exists self',
    set_description dataset_x (PStr "d") = Ok self' /\
    description self' = PStr "d".
Proof.
  destruct (dataset_setters "description" dataset_x (PStr "d"))
    as [H _].
  destruct (dataset_setters "description" dataset_x (PStr "5000"))
    as [_ [_ [_ H']]].
  split; [exact (H' eq_refl)|].
  destruct (H eq_refl) as [self' [H1 [H2 _]]].
  exists self'. split; assumption.
Defined.

Variable py_float : pyval -> result pyval.
Variable py_int : pyval -> result pyval.

Ltac by_sent self :=
  unfold resource_base, sent;
  destruct (TableProperties.is_none (default_table_expiration_ms self))
    eqn:?;
  destruct (TableProperties.is_none (description self)) eqn:?;
  destruct (TableProperties.is_none (friendly_name self)) eqn:?;
  destruct (TableProperties.is_none (location self)) eqn:?.

Lemma resource_base_property (self : Dataset) :
  Dict.get_default "defaultTableExpirationMs" PNone (resource_base self)
  = default_table_expiration_ms self /\
  Dict.get_default "description" PNone (resource_base self)
  = description self /\
  Dict.get_default "friendlyName" PNone (resource_base self)
  = friendly_name self /\
  Dict.get_default "location" PNone (resource_base self) = location self.
Proof.
  by_sent self; cbv [Dict.get_default]; simpl;
    repeat match goal with
           | H : TableProperties.is_none _ = true |- _ =>
               apply is_none_eq in H; rewrite H
           end;
    repeat split.
Qed.

Lemma resource_base_conversions (self : Dataset) :
  (default_table_expiration_ms self = PNone \/
   py_int (default_table_expiration_ms self)
   = Ok (default_table_expiration_ms self)) ->
  (cleaned <-
     Tables.convert_if_present py_float "creationTime" (resource_base self) ;;
   cleaned <-
     Tables.convert_if_present py_float "lastModifiedTime" cleaned ;;
   Tables.convert_if_present py_int "defaultTableExpirationMs" cleaned)
  = Ok (resource_base self).
Proof.
  intros Hint. unfold Tables.convert_if_present.
  by_sent self; simpl;
    try reflexivity;
    (destruct Hint as [Hint|Hint];
     [rewrite Hint in *; discriminate|rewrite Hint; reflexivity]).
Qed.

Lemma resource_base_update (self : Dataset) :
  Dict.update [] (resource_base self) = resource_base self.
Proof. by_sent self; reflexivity. Qed.

Lemma resource_base_access (self : Dataset) (access : pyval) :
  Dict.get_default "access" (PTuple []) (resource_base self) = PTuple [] /\
  Dict.remove "access" (resource_base self) = resource_base self /\
  Dict.get_default "access" (PTuple [])
    (resource_base self ++ [("access", access)])%list = access /\
  Dict.remove "access" (resource_base self ++ [("access", access)])%list
  = resource_base self.
Proof. by_sent self; repeat split. Qed.

(** X16.  What [Dataset._build_resource] sends is enough to rebuild
    the dataset: when the resource is handed to [_set_properties] of
    any dataset, the call succeeds, the access entries are those of
    the sender and [default_table_expiration_ms], [description],
    [friendly_name] and [location] read as on the sender (for entries
    the constructor of [AccessEntry] lets through and an expiration
    that [int] leaves as it is). *)
Theorem dataset_resource_round_trip (self other : Dataset)
    (resource : dict) :
  Forall valid_entry (_access_entries self) ->
  (default_table_expiration_ms self = PNone \/
   py_int (default_table_expiration_ms self)
   = Ok (default_table_expiration_ms self)) ->
  _build_resource self = Ok resource ->
  exists after,
    Datasets._set_properties py_float py_int other resource
    = (after, Ok tt) /\
    _access_entries after = _access_entries self /\
    default_table_expiration_ms after = default_table_expiration_ms self /\
    description after = description self /\
    friendly_name after = friendly_name self /\
    location after = location self.
Proof.
  intros Hvalid Hint Hbuild.
  destruct (resource_base_access self (PTuple [])) as [A1 [A2 _]].
  pose proof (resource_base_conversions self Hint) as Hconv.
  pose proof (resource_base_property self) as [P1 [P2 [P3 P4]]].
  unfold Datasets._set_properties.
  apply dataset_resource_shape in Hbuild.
  destruct Hbuild as [[Hnil ->]|[access [_ [Hb ->]]]].
  - rewrite A1, A2. cbn [_parse_access_entries Builtins.iter bind mapM].
    cbn [_properties _access_entries _dataset_id _project].
    rewrite Hconv, resource_base_update.
    eexists. split; [reflexivity|].
    unfold default_table_expiration_ms, description, friendly_name,
      location, property in *.
    cbn [_properties _access_entries].
    rewrite P1, P2, P3, P4, Hnil. repeat split.
  - destruct (resource_base_access self (PList access)) as [_ [_ [A3 A4]]].
    rewrite A3, A4.
    destruct (build_parse_access _ Hvalid) as [access' [Hb' [_ Hp]]].
    rewrite Hb in Hb'. injection Hb' as <-. rewrite Hp.
    cbn [_properties _access_entries _dataset_id _project].
    rewrite Hconv, resource_base_update.
    eexists. split; [reflexivity|].
    unfold default_table_expiration_ms, description, friendly_name,
      location, property in *.
    cbn [_properties _access_entries].
    rewrite P1, P2, P3, P4. repeat split.
Qed.

End DatasetBuildResource.

Section DatasetBuildResourceExamples.
Import Datasets DatasetResource DatasetSpec UpdateSpec InsertSpec.

Lemma dataset_resource_round_trip_witness :
  exists resource after,
    _build_resource shared_dataset = Ok resource /\
    Datasets._set_properties int_of int_of stale_dataset resource
    = (after, Ok tt) /\
    _access_entries after = [owner_entry; view_entry] /\
    friendly_name after = PStr "x".
Proof.
  assert (H : Forall valid_entry (_access_entries shared_dataset)).
  { repeat constructor.
    - exists "userByEmail". simpl.
      repeat split; [left; reflexivity|discriminate|discriminate].
    - exists "view". simpl.
      repeat split; [do 4 right; left; reflexivity
                    |intros E; exfalso; apply E; reflexivity]. }
  eexists.
  destruct (dataset_resource_round_trip int_of int_of shared_dataset
              stale_dataset _ H (or_introl eq_refl) eq_refl)
    as [after [Hset [Hacc [_ [_ [Hname _]]]]]].
  exists after. split; [reflexivity|]. split; [exact Hset|].
  split; assumption.
Defined.

End DatasetBuildResourceExamples.

(** * More on [_set_properties] *)

Section SetPropertiesMore.
Import UpdateSpec.

Variable py_float : pyval -> result pyval.
Variable py_int : pyval -> result pyval.

(** X17.  A call of [_set_properties] that fails leaves the property
    bag empty, on a table and on a dataset: the bag is cleared before
    the response is read, and filled only at the very end. *)
Theorem failed_set_properties_empties (api_response : dict) (e : exn) :
  (forall self : Tables.Table,
      snd (Tables._set_properties py_float self api_response) = Raise e ->
      Tables._properties
        (fst (Tables._set_properties py_float self api_response)) = []) /\
  (forall self : Datasets.Dataset,
      snd (Datasets._set_properties py_float py_int self api_response)
      = Raise e ->
      Datasets._properties
        (fst (Datasets._set_properties py_float py_int self api_response))
      = []).
Proof.
  split; intros self.
  - unfold Tables._set_properties.
    destruct (Schema._parse_schema_resource _); [|reflexivity].
    destruct (Tables.convert_if_present py_float "creationTime" _)
      as [c1|]; simpl; [|reflexivity].
    destruct (Tables.convert_if_present py_float "lastModifiedTime" _)
      as [c2|]; simpl; [|reflexivity].
    destruct (Tables.convert_if_present py_float "expirationTime" _);
      simpl; [discriminate|reflexivity].
  - unfold Datasets._set_properties.
    destruct (Datasets._parse_access_entries _); [|reflexivity].
    destruct (Tables.convert_if_present py_float "creationTime" _)
      as [c1|]; simpl; [|reflexivity].
    destruct (Tables.convert_if_present py_float "lastModifiedTime" _)
      as [c2|]; simpl; [|reflexivity].
    destruct (Tables.convert_if_present py_int "defaultTableExpirationMs" _);
      simpl; [discriminate|reflexivity].
Qed.

Lemma dict_keys_set_present (k : string) (v : pyval) (d : dict) :
  Dict.mem k d = true -> Dict.keys (Dict.set k v d) = Dict.keys d.
Proof.
  unfold Dict.keys. induction d as [|[k' v'] d IH]; simpl; [discriminate|].
  destruct (String.eqb k k') eqn:E; simpl.
  - apply String.eqb_eq in E. subst. reflexivity.
  - intros H. rewrite (IH H). reflexivity.
Qed.

Lemma dict_keys_remove_in (k k' : string) (d : dict) :
  In k (Dict.keys (Dict.remove k' d)) -> In k (Dict.keys d).
Proof.
  intros H. apply has_key_remove in H. apply H.
Qed.

Lemma dict_remove_nodup (k : string) (d : dict) :
  NoDup (Dict.keys d) -> NoDup (Dict.keys (Dict.remove k d)).
Proof.
  unfold Dict.keys. induction d as [|[k' v'] d IH]; simpl; intros H;
    [constructor|].
  inversion H as [|? ? Hnotin Hnd]; subst.
  destruct (String.eqb k k'); [exact (IH Hnd)|].
  simpl. constructor; [|exact (IH Hnd)].
  intros Hin. apply Hnotin. exact (dict_keys_remove_in _ _ _ Hin).
Qed.

Lemma dict_set_fresh (k : string) (v : pyval) (d : dict) :
  ~ In k (Dict.keys d) -> Dict.set k v d = (d ++ [(k, v)])%list.
Proof.
  unfold Dict.keys. induction d as [|[k' v'] d IH]; simpl; intros H;
    [reflexivity|].
  destruct (String.eqb k k') eqn:E.
  - apply String.eqb_eq in E. subst. exfalso. apply H. left. reflexivity.
  - rewrite IH; [reflexivity|]. intros Hin. apply H. right. exact Hin.
Qed.

(** Filling a dictionary with the entries of a real one, keys all
    different, copies them in their order. *)
Lemma dict_update_nodup (d acc : dict) :
  NoDup (Dict.keys d) ->
  (forall k, In k (Dict.keys d) -> ~ In k (Dict.keys acc)) ->
  Dict.update acc d = (acc ++ d)%list.
Proof.
  unfold Dict.update. revert acc.
  induction d as [|[k v] d IH]; intros acc Hnd Hdisj; simpl.
  - rewrite app_nil_r. reflexivity.
  - inversion Hnd as [|? ? Hnotin Hnd']; subst.
    rewrite (dict_set_fresh k v acc)
      by (apply Hdisj; left; reflexivity).
    rewrite IH; [rewrite <- app_assoc; reflexivity|exact Hnd'|].
    intros k' Hk' Hin. unfold Dict.keys in Hin.
    rewrite map_app in Hin. apply in_app_or in Hin.
    destruct Hin as [Hin|[<-|[]]].
    + apply (Hdisj k'); [right; exact Hk'|exact Hin].
    + apply Hnotin. exact Hk'.
Qed.

Lemma convert_if_present_get (conv : pyval -> result pyval) (k : string)
    (d d' : dict) :
  Tables.convert_if_present conv k d = Ok d' ->
  Dict.keys d' = Dict.keys d /\
  (forall k', k' <> k -> Dict.get k' d' = Dict.get k' d) /\
  (forall v, Dict.get k d = Some v ->
             exists v', conv v = Ok v' /\ Dict.get k d' = Some v') /\
  (Dict.get k d = None -> d' = d).
Proof.
  unfold Tables.convert_if_present.
  destruct (Dict.get k d) as [v|] eqn:Hk.
  - destruct (conv v) as [v'|] eqn:Hv; simpl; [|discriminate].
    intros [= <-]. split; [|split; [|split]].
    + apply dict_keys_set_present. exact (dict_get_mem _ _ _ Hk).
    + intros k' Hne. apply dict_get_set_other. exact Hne.
    + intros w [= <-]. exists v'. split; [exact Hv|].
      apply dict_get_set_same.
    + discriminate.
  - intros [= <-]. repeat split; try reflexivity. discriminate.
Qed.

(** X18.  After a successful [Table._set_properties] on a response
    (a dictionary: its keys all different), the property bag is the
    response without [schema], in the order of the response: every
    other key holds the value of the response, except
    [creationTime], [lastModifiedTime] and [expirationTime], which hold
    what [float] makes of it. *)
Theorem table_properties_after_fetch (self : Tables.Table)
    (api_response : dict) :
  NoDup (Dict.keys api_response) ->
  snd (Tables._set_properties py_float self api_response) = Ok tt ->
  let properties :=
    Tables._properties
      (fst (Tables._set_properties py_float self api_response)) in
  Dict.keys properties = Dict.keys (Dict.remove "schema" api_response) /\
  (forall k,
      ~ In k ["schema"; "creationTime"; "lastModifiedTime";
              "expirationTime"] ->
      Dict.get k properties = Dict.get k api_response) /\
  (forall k v,
      In k ["creationTime"; "lastModifiedTime"; "expirationTime"] ->
      Dict.get k api_response = Some v ->
      exists v', py_float v = Ok v' /\ Dict.get k properties = Some v').
Proof.
  intros Hnd. unfold Tables._set_properties.
  destruct (Schema._parse_schema_resource _); [|discriminate].
  destruct (Tables.convert_if_present py_float "creationTime" _)
    as [c1|] eqn:E1; simpl; [|discriminate].
  destruct (Tables.convert_if_present py_float "lastModifiedTime" _)
    as [c2|] eqn:E2; simpl; [|discriminate].
  destruct (Tables.convert_if_present py_float "expirationTime" _)
    as [c3|] eqn:E3; simpl; [|discriminate].
  intros _.
  apply convert_if_present_get in E1, E2, E3.
  destruct E1 as [K1 [O1 [S1 _]]]. destruct E2 as [K2 [O2 [S2 _]]].
  destruct E3 as [K3 [O3 [S3 _]]].
  assert (Hk : Dict.keys c3 = Dict.keys (Dict.remove "schema" api_response))
    by congruence.
  assert (Hc3 : Dict.update [] c3 = c3).
  { apply (dict_update_nodup c3 []).
    - rewrite Hk. apply dict_remove_nodup. exact Hnd.
    - intros k _ []. }
  rewrite Hc3. split; [exact Hk|]. split.
  - intros k Hk'.
    assert (H0 : k <> "schema") by (intros ->; apply Hk'; simpl; auto).
    assert (H1 : k <> "creationTime")
      by (intros ->; apply Hk'; simpl; auto).
    assert (H2 : k <> "lastModifiedTime")
      by (intros ->; apply Hk'; simpl; auto).
    assert (H3 : k <> "expirationTime")
      by (intros ->; apply Hk'; simpl; auto).
    rewrite (O3 k H3), (O2 k H2), (O1 k H1), dict_get_remove.
    apply String.eqb_neq in H0. rewrite H0. reflexivity.
  - intros k v Hin Hv.
    assert (Hr : forall k', k' <> "schema" ->
               Dict.get k' (Dict.remove "schema" api_response)
               = Dict.get k' api_response).
    { intros k' Hne. rewrite dict_get_remove.
      apply String.eqb_neq in Hne. rewrite Hne. reflexivity. }
    destruct Hin as [<-|[<-|[<-|[]]]].
    + rewrite <- Hr in Hv by discriminate.
      destruct (S1 v Hv) as [v' [Hc Hg]]. exists v'. split; [exact Hc|].
      rewrite O3, O2 by discriminate. exact Hg.
    + rewrite <- Hr, <- O1 in Hv by discriminate.
      destruct (S2 v Hv) as [v' [Hc Hg]]. exists v'. split; [exact Hc|].
      rewrite O3 by discriminate. exact Hg.
    + rewrite <- Hr, <- O1, <- O2 in Hv by discriminate.
      exact (S3 v Hv).
Qed.

End SetPropertiesMore.

Section SetPropertiesMoreExamples.
Import UpdateSpec InsertSpec.

Lemma failed_set_properties_empties_witness :
  Tables._properties
    (fst (Tables._set_properties int_of stale_table [("schema", PNone)]))
  = [].
Proof.
  exact (proj1 (failed_set_properties_empties int_of int_of
                  [("schema", PNone)] TypeError) stale_table eq_refl).
Defined.

Lemma table_properties_after_fetch_witness :
  Dict.keys
    (Tables._properties
       (fst (Tables._set_properties int_of stale_table fetched)))
  = ["etag"; "creationTime"].
Proof.
  assert (Hnd : NoDup (Dict.keys fetched)).
  { repeat constructor; simpl; intuition discriminate. }
  exact (proj1 (table_properties_after_fetch int_of stale_table fetched
                  Hnd eq_refl)).
Defined.

End SetPropertiesMoreExamples.

(** * The schema of a table across a fetch and a build *)

Section TableSchemaFlow.
Import Schema Tables UpdateSpec.

Variable py_float : pyval -> result pyval.
Variable _datetime_from_microseconds : pyval -> result pyval.
Variable _millis_from_datetime : pyval -> result pyval.
Variable times_1000 : pyval -> result pyval.
Variable other_attr : Table -> string -> result pyval.

#[local] Abbreviation build_resource :=
  (Tables._build_resource _datetime_from_microseconds _millis_from_datetime
     times_1000 other_attr).

Lemma parse_built_schema (fs : list SchemaField) :
  _parse_schema_resource (PDict [("fields", _build_schema_resource fs)])
  = Ok (SeqList fs).
Proof.
  rewrite _parse_schema_resource_unfold. unfold parse_body. simpl.
  rewrite (mapM_map_id (parse_field _parse_schema_resource)
             build_field_info fs); [reflexivity|].
  apply Forall_forall. intros f _. apply parse_field_build_field_info.
Qed.

Lemma set_properties_schema (self : Table) (api_response : dict)
    (parsed : pyseq SchemaField) :
  _parse_schema_resource
    (Dict.get_default "schema" (PDict [("fields", PTuple [])]) api_response)
  = Ok parsed ->
  _schema (fst (Tables._set_properties py_float self api_response))
  = items parsed.
Proof.
  intros H. unfold Tables._set_properties. rewrite H.
  destruct (Tables.convert_if_present py_float "creationTime" _)
    as [c1|]; simpl; [|reflexivity].
  destruct (Tables.convert_if_present py_float "lastModifiedTime" _)
    as [c2|]; simpl; [|reflexivity].
  destruct (Tables.convert_if_present py_float "expirationTime" _);
    reflexivity.
Qed.

(** X19.  [Table._set_properties] replaces the schema of the table by
    the one of the response: a response whose [schema] was built from
    a list of fields leaves exactly these fields, and a response
    without [schema] leaves the table without schema, so that
    [row_from_mapping] on it raises
    [ValueError("Table has no schema: ...")], whatever the schema was
    before. *)
Theorem fetch_replaces_schema (self : Table) (api_response : dict) :
  (forall fs,
      Dict.get "schema" api_response
      = Some (PDict [("fields", _build_schema_resource fs)]) ->
      _schema (fst (Tables._set_properties py_float self api_response))
      = fs) /\
  (Dict.get "schema" api_response = None ->
   _schema (fst (Tables._set_properties py_float self api_response)) = [] /\
   forall mapping,
     row_from_mapping
       (fst (Tables._set_properties py_float self api_response)) mapping
     = Raise (ValueError _TABLE_HAS_NO_SCHEMA [])).
Proof.
  split.
  - intros fs H.
    rewrite (set_properties_schema self api_response (SeqList fs));
      [reflexivity|].
    unfold Dict.get_default. rewrite H. apply parse_built_schema.
  - intros H.
    assert (E : _schema
                  (fst (Tables._set_properties py_float self api_response))
                = []).
    { rewrite (set_properties_schema self api_response (SeqList []));
        [reflexivity|].
      unfold Dict.get_default. rewrite H. reflexivity. }
    split; [exact E|].
    intros mapping. unfold row_from_mapping. rewrite E. reflexivity.
Qed.

Lemma has_key_set (k k' : string) (v : pyval) (d : dict) :
  has_key k d -> has_key k (Dict.set k' v d).
Proof.
  unfold has_key. rewrite !dict_keys_get. intros [w Hw].
  rewrite dict_get_set. destruct (String.eqb k k'); eauto.
Qed.

Lemma set_in_view_keeps (k key : string) (v : pyval)
    (resource resource' : dict) :
  Tables.set_in_view key v resource = Ok resource' ->
  has_key k resource -> has_key k resource'.
Proof.
  unfold Tables.set_in_view.
  destruct (Dict.getitem "view" resource) as [view|]; [|discriminate].
  cbn [bind]. destruct view; try discriminate.
  intros [= <-]. apply has_key_set.
Qed.

Lemma populate_keeps (k f : string) (self : Table)
    (populate : Table -> dict -> result dict) (resource resource' : dict) :
  Tables.custom_resource_fields _datetime_from_microseconds
    _millis_from_datetime times_1000 f = Some populate ->
  populate self resource = Ok resource' ->
  has_key k resource -> has_key k resource'.
Proof.
  unfold Tables.custom_resource_fields.
  destruct (String.eqb f "expires");
    [|destruct (String.eqb f "partitioning_type");
      [|destruct (String.eqb f "view_query");
        [|destruct (String.eqb f "view_use_legacy_sql");
          [|destruct (String.eqb f "schema"); [|discriminate]]]]];
    intros [= <-].
  - unfold Tables._populate_expires_resource.
    destruct (Tables.expires _ _ self) as [e|]; [|discriminate].
    cbn [bind]. destruct (_millis_from_datetime e); [|discriminate].
    cbn [bind]. intros [= <-]. apply has_key_set.
  - unfold Tables._populate_partitioning_type_resource.
    intros [= <-]. apply has_key_set.
  - unfold Tables._populate_view_query_resource.
    destruct (Tables.view_query self) as [q|]; [|discriminate].
    cbn [bind]. destruct q;
      try (intros [= <-]; apply has_key_set);
      (intros H Hk; destruct (Dict.mem "view" resource);
       [exact (set_in_view_keeps _ _ _ _ _ H Hk)
       |apply (set_in_view_keeps _ _ _ _ _ H); apply has_key_set;
        exact Hk]).
  - unfold Tables._populate_view_use_legacy_sql_resource.
    destruct (Tables.view_use_legacy_sql self) as [q|]; [|discriminate].
    cbn [bind]. intros H Hk. destruct (Dict.mem "view" resource).
    + exact (set_in_view_keeps _ _ _ _ _ H Hk).
    + apply (set_in_view_keeps _ _ _ _ _ H). apply has_key_set. exact Hk.
  - unfold Tables._populate_schema_resource.
    destruct (_schema self); intros [= <-]; apply has_key_set.
Qed.

Lemma build_resource_loop_keeps (k : string) (self : Table)
    (filter_fields : list string) (acc resource : dict) :
  Mapping.foldM (fun resource f =>
      match Tables.custom_resource_fields _datetime_from_microseconds
              _millis_from_datetime times_1000 f with
      | Some populate => populate self resource
      | None =>
          let api_field := Names.api_field f in
          v <- Tables.getattr _datetime_from_microseconds times_1000
                 other_attr self f ;;
          Ok (Dict.set api_field v resource)
      end) filter_fields acc = Ok resource ->
  has_key k acc -> has_key k resource.
Proof.
  revert acc. induction filter_fields as [|f fields IH]; intros acc H Hk;
    simpl in H.
  - injection H as <-. exact Hk.
  - destruct (Tables.custom_resource_fields _ _ _ f) as [populate|] eqn:Hc.
    + destruct (populate self acc) as [acc'|] eqn:Hp; [|discriminate].
      cbn [bind] in H. apply (IH _ H).
      exact (populate_keeps _ _ _ _ _ _ Hc Hp Hk).
    + cbv zeta in H.
      destruct (Tables.getattr _ _ _ self f) as [v|]; [|discriminate].
      cbn [bind] in H. apply (IH _ H). apply has_key_set. exact Hk.
Qed.

(** X20.  Whatever fields are asked for, the resource
    [Table._build_resource] returns carries [tableReference], and a
    field outside the table of custom fields that is asked for has its
    translated key in it: the loop only ever adds or overwrites
    keys. *)
Theorem table_resource_keeps_reference (self : Table)
    (filter_fields : list string) (resource : dict) :
  build_resource self filter_fields = Ok resource ->
  has_key "tableReference" resource /\
  (filter_fields = [] ->
   resource
   = [("tableReference",
       PDict [("projectId", PStr (_project self));
              ("datasetId", PStr (_dataset_id self));
              ("tableId", PStr (_table_id self))])]) /\
  forall f,
    In f filter_fields ->
    Tables.custom_resource_fields _datetime_from_microseconds
      _millis_from_datetime times_1000 f = None ->
    has_key (Names.api_field f) resource.
Proof.
  unfold Tables._build_resource. intros H.
  split; [|split].
  - apply (build_resource_loop_keeps _ _ _ _ _ H). left. reflexivity.
  - intros ->. simpl in H. injection H as <-. reflexivity.
  - intros f Hin Hnone. apply in_split in Hin.
    destruct Hin as [pre [post ->]].
    apply foldM_app_ok_inv in H. destruct H as [acc [_ H]].
    simpl in H. rewrite Hnone in H. cbv zeta in H.
    destruct (Tables.getattr _ _ _ self f) as [v|]; [|discriminate].
    cbn [bind] in H.
    apply (build_resource_loop_keeps _ _ _ _ _ H).
    apply dict_keys_get. exists v. apply dict_get_set_same.
Qed.

(** X21.  The order of [view_query] and [view_use_legacy_sql] in the
    fields matters on a table without a view query: asked for in this
    order, [view_query] files [None] under [view] and
    [view_use_legacy_sql] then fails with [TypeError]; asked for in
    the other order, the resource is built, with [None] under
    [view]. *)
Theorem table_resource_view_order (self : Table) :
  Tables.view_query self = Ok PNone ->
  build_resource self ["view_query"; "view_use_legacy_sql"]
  = Raise TypeError /\
  build_resource self ["view_use_legacy_sql"; "view_query"]
  = Ok [("tableReference",
         PDict [("projectId", PStr (_project self));
                ("datasetId", PStr (_dataset_id self));
                ("tableId", PStr (_table_id self))]);
        ("view", PNone)].
Proof.
  intros Hq.
  assert (Hl : exists v, Tables.view_use_legacy_sql self = Ok v).
  { unfold Tables.view_query, Tables.view_use_legacy_sql, Tables.view_get
      in *.
    destruct (Dict.get_default "view" PNone (_properties self));
      try discriminate Hq; eexists; reflexivity. }
  destruct Hl as [v Hv].
  unfold Tables._build_resource. simpl.
  unfold Tables._populate_view_query_resource,
    Tables._populate_view_use_legacy_sql_resource.
  rewrite Hq, Hv. split; reflexivity.
Qed.

(** X22.  The [schema] field of [Table._build_resource] and
    [Table._set_properties] are inverse on a table with a schema: the
    resource built for [schema] alone, handed to [_set_properties] of
    any table, leaves that table with the schema of the first.  On a
    table without schema the resource holds [None] under [schema], and
    [_set_properties] on it raises [TypeError]. *)
Theorem table_resource_schema_round_trip (self other : Table) :
  exists resource,
    build_resource self ["schema"] = Ok resource /\
    (_schema self <> [] ->
     _schema (fst (Tables._set_properties py_float other resource))
     = _schema self) /\
    (_schema self = [] ->
     Dict.get "schema" resource = Some PNone /\
     snd (Tables._set_properties py_float other resource)
     = Raise TypeError).
Proof.
  unfold Tables._build_resource. simpl.
  unfold Tables._populate_schema_resource.
  destruct (_schema self) as [|f fs] eqn:E.
  - eexists. split; [reflexivity|]. split; [intros H; contradiction|].
    intros _. split; reflexivity.
  - eexists. split; [reflexivity|]. split; [|discriminate].
    intros _.
    rewrite (set_properties_schema other _ (SeqList (f :: fs)));
      [reflexivity|].
    apply parse_built_schema.
Qed.

End TableSchemaFlow.

Section TableSchemaFlowExamples.
Import Schema Tables UpdateSpec InsertSpec RowSpec.

Lemma fetch_replaces_schema_witness :
  row_from_mapping
    (fst (Tables._set_properties int_of (table_of schema_abc)
            [("etag", PStr "abc")])) [("a", PInt 1)]
  = Raise (ValueError _TABLE_HAS_NO_SCHEMA []).
Proof.
  exact (proj2 (proj2 (fetch_replaces_schema int_of (table_of schema_abc)
                         [("etag", PStr "abc")]) eq_refl)
           [("a", PInt 1)]).
Defined.

Lemma table_resource_keeps_reference_witness :
  has_key "tableReference"
    [("tableReference",
      PDict [("projectId", PStr "proj"); ("datasetId", PStr "ds");
             ("tableId", PStr "tbl")]);
     ("friendlyName", PNone); ("schema", PNone)].
Proof.
  exact (proj1 (table_resource_keeps_reference int_of int_of int_of
                  (fun _ f => Raise (AttributeError f)) (table_of [])
                  ["friendly_name"; "schema"] _ eq_refl)).
Defined.

Lemma table_resource_view_order_witness :
  Tables._build_resource int_of int_of int_of
    (fun _ f => Raise (AttributeError f)) (table_of schema_abc)
    ["view_query"; "view_use_legacy_sql"]
  = Raise TypeError.
Proof.
  exact (proj1 (table_resource_view_order int_of int_of int_of
                  (fun _ f => Raise (AttributeError f))
                  (table_of schema_abc) eq_refl)).
Defined.

Lemma table_resource_schema_round_trip_witness :
  exists resource,
    Tables._build_resource int_of int_of int_of
      (fun _ f => Raise (AttributeError f)) (table_of schema_abc)
      ["schema"] = Ok resource /\
    _schema (fst (Tables._set_properties int_of stale_table resource))
    = schema_abc.
Proof.
  destruct (table_resource_schema_round_trip int_of int_of int_of int_of
              (fun _ f => Raise (AttributeError f))
              (table_of schema_abc) stale_table) as [resource [H [H' _]]].
  exists resource. split; [exact H|]. apply H'. discriminate.
Defined.

End TableSchemaFlowExamples.

(** * More on the bulk insert *)

Section InsertDataMore.
Import Schema Tables RowSpec InsertSpec.

Variable conv : pyval -> option (pyval -> result pyval).
Variable api_request : request -> result pyval.
Variable py_int : pyval -> result pyval.

Lemma row_info_of_total (self : Table) (row : list pyval) :
  converters_total conv ->
  Forall named_by_string (_schema self) ->
  exists row_info, row_info_of conv self row = Ok row_info.
Proof.
  intros Hconv Hnames. unfold row_info_of.
  apply foldM_row_info_ok; [exact Hconv|].
  apply Forall_forall. intros [f v] Hin. simpl.
  apply in_combine_l in Hin.
  rewrite Forall_forall in Hnames. apply Hnames. exact Hin.
Qed.

Lemma rows_info_of_short_ids (self : Table) (ids : list pyval)
    (rows : list (list pyval)) (index : nat) :
  converters_total conv ->
  Forall named_by_string (_schema self) ->
  index <= List.length ids ->
  List.length ids < index + List.length rows ->
  rows_info_of conv self (PList ids) index (map PTuple rows)
  = Raise IndexError.
Proof.
  intros Hconv Hnames. revert index.
  induction rows as [|row rows IH]; intros index Hle Hlt; simpl in *;
    [lia|].
  destruct (row_info_of_total self row Hconv Hnames) as [row_info ->].
  cbn [bind].
  destruct (nth_error ids index) as [id|] eqn:Hid; cbn [bind].
  - assert (index < List.length ids)
      by (apply nth_error_Some; congruence).
    rewrite IH by lia. reflexivity.
  - reflexivity.
Qed.

(** X23.  With fewer [row_ids] than rows, [insert_data] raises
    [IndexError] when it reaches the first row without an id, and
    issues no request: the rows before it are encoded for nothing. *)
Theorem insert_data_short_row_ids (self : Table) (rows : list (list pyval))
    (ids : list pyval)
    (skip_invalid_rows ignore_unknown_values template_suffix : pyval) :
  _schema self <> [] ->
  converters_total conv ->
  Forall named_by_string (_schema self) ->
  List.length ids < List.length rows ->
  insert_data conv api_request py_int self (PList (map PTuple rows))
    (PList ids) skip_invalid_rows ignore_unknown_values template_suffix
  = ([], Raise IndexError).
Proof.
  intros Hne Hconv Hnames Hlt. unfold insert_data.
  destruct (_schema self) as [|f fs] eqn:E; [contradiction|].
  cbn [List.length Nat.eqb Builtins.iter bind].
  rewrite <- E in Hnames.
  rewrite (rows_info_of_short_ids self ids rows 0 Hconv Hnames);
    [reflexivity|lia|lia].
Qed.

Lemma rows_info_of_length (self : Table) (row_ids : pyval)
    (rows infos : list pyval) (index : nat) :
  rows_info_of conv self row_ids index rows = Ok infos ->
  List.length infos = List.length rows.
Proof.
  revert index infos. induction rows as [|row rows IH];
    intros index infos H; simpl in H.
  - injection H as <-. reflexivity.
  - destruct (Builtins.iter row) as [r|]; [|discriminate]. cbn [bind] in H.
    destruct (row_info_of conv self r) as [ri|]; [|discriminate].
    cbn [bind] in H.
    destruct (match row_ids with PNone => _ | _ => _ end) as [info|];
      [|discriminate].
    cbn [bind] in H.
    destruct (rows_info_of conv self row_ids (S index) rows) as [l|] eqn:E;
      [|discriminate].
    injection H as <-. simpl. rewrite (IH _ _ E). reflexivity.
Qed.

Lemma set_unless_none_is_none (k : string) (v : pyval) (d : dict) :
  set_unless_none k v d
  = if TableProperties.is_none v then d else Dict.set k v d.
Proof. destruct v; reflexivity. Qed.

(** X24.  [insert_data] issues at most one request, and only once
    every row is encoded: a POST to the path of the table followed by
    [/insertAll], without headers, whose payload holds under [rows]
    one entry per row and holds [skipInvalidRows],
    [ignoreUnknownValues] and [templateSuffix] exactly when the
    argument is not [None]; what the call returns is made of the
    response to this request. *)
Theorem insert_data_request (self : Table)
    (rows row_ids skip_invalid_rows ignore_unknown_values
       template_suffix : pyval) :
  (fst (insert_data conv api_request py_int self rows row_ids
          skip_invalid_rows ignore_unknown_values template_suffix) = [] /\
   exists e,
     snd (insert_data conv api_request py_int self rows row_ids
            skip_invalid_rows ignore_unknown_values template_suffix)
     = Raise e) \/
  exists data rows_info items,
    insert_data conv api_request py_int self rows row_ids
      skip_invalid_rows ignore_unknown_values template_suffix
    = (let req := mkRequest "POST" (path self ++ "/insertAll")
                    (PDict data) PNone in
       ([req], response <- api_request req ;;
               insert_errors py_int response)) /\
    Builtins.iter rows = Ok items /\
    Dict.get "rows" data = Some (PList rows_info) /\
    List.length rows_info = List.length items /\
    Dict.get "skipInvalidRows" data = PayloadSpec.flag skip_invalid_rows /\
    Dict.get "ignoreUnknownValues" data
    = PayloadSpec.flag ignore_unknown_values /\
    Dict.get "templateSuffix" data = PayloadSpec.flag template_suffix.
Proof.
  unfold insert_data.
  destruct (Nat.eqb (List.length (_schema self)) 0).
  { left. split; [reflexivity|]. eexists. reflexivity. }
  destruct (Builtins.iter rows) as [items|e] eqn:Hit; cbn [bind].
  2:{ left. split; [reflexivity|]. eexists. reflexivity. }
  destruct (rows_info_of conv self row_ids 0 items) as [rows_info|e] eqn:Hr.
  2:{ left. split; [reflexivity|]. eexists. reflexivity. }
  right. eexists. exists rows_info, items.
  split; [reflexivity|]. split; [reflexivity|].
  rewrite !set_unless_none_is_none. unfold PayloadSpec.flag.
  split; [|split; [exact (rows_info_of_length _ _ _ _ _ Hr)|]];
    destruct (TableProperties.is_none skip_invalid_rows);
    destruct (TableProperties.is_none ignore_unknown_values);
    destruct (TableProperties.is_none template_suffix);
    repeat split.
Qed.

Lemma mapM_length {A B} (f : A -> result B) (l : list A) (ys : list B) :
  mapM f l = Ok ys -> List.length ys = List.length l.
Proof.
  intros H.
  pose proof (mapM_Forall2 f (fun _ _ => True) l ys (fun _ _ _ _ => I) H)
    as HF.
  symmetry. exact (Forall2_length HF).
Qed.

(** X25.  The list [insert_data] makes of the response: nothing when
    the response has no [insertErrors], else one entry per item of
    [insertErrors], in their order, holding under [index] what [int]
    makes of the [index] of the item and under [errors] its [errors];
    a response that is not a dictionary raises [AttributeError]. *)
Theorem insert_errors_of_response (response : pyval) :
  (forall d, response = PDict d -> Dict.get "insertErrors" d = None ->
             insert_errors py_int response = Ok (PList [])) /\
  ((forall d, response <> PDict d) ->
   insert_errors py_int response = Raise (AttributeError "get")) /\
  (forall errors,
      insert_errors py_int response = Ok errors ->
      exists d items entries,
        response = PDict d /\
        Builtins.iter (Dict.get_default "insertErrors" (PTuple []) d)
        = Ok items /\
        errors = PList entries /\
        Forall2 (fun item entry =>
                   exists index index' errs,
                     Builtins.getitem "index" item = Ok index /\
                     py_int index = Ok index' /\
                     Builtins.getitem "errors" item = Ok errs /\
                     entry = PDict [("index", index'); ("errors", errs)])
          items entries).
Proof.
  unfold insert_errors. split; [|split].
  - intros d -> H. unfold Dict.get_default. rewrite H. reflexivity.
  - intros H. destruct response; try reflexivity.
    exfalso. exact (H d eq_refl).
  - intros errors H. destruct response; try discriminate H.
    cbn [bind] in H.
    destruct (Builtins.iter (Dict.get_default "insertErrors" (PTuple []) d))
      as [items|] eqn:Hit; [|discriminate H].
    cbn [bind] in H.
    match type of H with
    | bind (mapM ?f items) _ = _ =>
        destruct (mapM f items) as [entries|] eqn:Hm; [|discriminate H];
        pose proof (mapM_Forall2 f
          (fun item entry =>
             exists index index' errs,
               Builtins.getitem "index" item = Ok index /\
               py_int index = Ok index' /\
               Builtins.getitem "errors" item = Ok errs /\
               entry = PDict [("index", index'); ("errors", errs)])
          items entries) as HF
    end.
    cbn [bind] in H. injection H as <-.
    exists d, items, entries.
    split; [reflexivity|]. split; [exact Hit|]. split; [reflexivity|].
    apply HF; [|exact Hm].
    clear. intros item entry _ H.
    destruct (Builtins.getitem "index" item) as [index|]; [|discriminate].
    cbn [bind] in H.
    destruct (py_int index) as [index'|] eqn:Hi; [|discriminate].
    cbn [bind] in H.
    destruct (Builtins.getitem "errors" item) as [errs|]; [|discriminate].
    injection H as <-. exists index, index', errs. repeat split. exact Hi.
Qed.

End InsertDataMore.

Section InsertDataMoreExamples.
Import Schema Tables RowSpec InsertSpec.

Lemma insert_data_short_row_ids_witness :
  insert_data no_converters accepting int_of (table_of schema_abc)
    (PList [PTuple [PInt 1]; PTuple [PInt 2]]) (PList [PStr "id1"])
    PNone PNone PNone
  = ([], Raise IndexError).
Proof.
  apply (insert_data_short_row_ids no_converters accepting int_of
           (table_of schema_abc) [[PInt 1]; [PInt 2]] [PStr "id1"]).
  - discriminate.
  - intros t c v Hc. discriminate Hc.
  - repeat constructor; eexists; reflexivity.
  - simpl. lia.
Defined.

Lemma insert_errors_of_response_witness :
  insert_errors int_of (PDict [("kind", PStr "bigquery#tableDataInsertAllResponse")])
  = Ok (PList []) /\
  insert_errors int_of PNone = Raise (AttributeError "get").
Proof.
  destruct (insert_errors_of_response int_of PNone) as [_ [H _]].
  destruct (insert_errors_of_response int_of
              (PDict [("kind", PStr "bigquery#tableDataInsertAllResponse")]))
    as [H' _].
  split.
  - exact (H' _ eq_refl eq_refl).
  - apply H. discriminate.
Defined.

End InsertDataMoreExamples.

(** * More on the projection of a mapping onto a row *)

Section RowFromMappingMore.
Import Schema Tables RowSpec InsertSpec EncodeSpec.

Variable conv : pyval -> option (pyval -> result pyval).

(** X26.  A key of the mapping that names no field of the schema is
    ignored: adding it, or changing its value, changes neither the row
    [row_from_mapping] returns nor the exception it raises. *)
Theorem row_from_mapping_ignores_other_keys (self : Table) (mapping : dict)
    (k : string) (v : pyval) :
  (forall f, In f (_schema self) -> name f <> PStr k) ->
  row_from_mapping self (Dict.set k v mapping)
  = row_from_mapping self mapping.
Proof.
  intros H. unfold row_from_mapping, schema.
  destruct (Nat.eqb (List.length (_schema self)) 0); [reflexivity|].
  rewrite (mapM_ext_in (project_field (Dict.set k v mapping))
             (project_field mapping)); [reflexivity|].
  intros f Hf. specialize (H f Hf).
  unfold project_field, Mapping.getitem, Mapping.get, Mapping.lookup.
  destruct (name f); try reflexivity.
  rewrite dict_get_set_other; [reflexivity|].
  intros ->. apply H. reflexivity.
Qed.

Lemma row_from_mapping_ignores_other_keys_witness :
  row_from_mapping (table_of schema_abc)
    [("a", PInt 1); ("unknown", PInt 7)]
  = row_from_mapping (table_of schema_abc) [("a", PInt 1)].
Proof.
  apply (row_from_mapping_ignores_other_keys (table_of schema_abc)
           [("a", PInt 1)] "unknown" (PInt 7)).
  intros f [<-|[<-|[<-|[]]]]; discriminate.
Defined.

Lemma foldM_row_info_fresh (l : list SchemaField) (g : SchemaField -> pyval)
    (acc : dict) :
  Forall named_by_string l ->
  (forall f, In f l -> conv (field_type f) = None) ->
  NoDup (map key_of l) ->
  (forall f, In f l -> ~ In (key_of f) (Dict.keys acc)) ->
  Mapping.foldM (fun row_info fv =>
      let '(field, value) := fv in
      value <- match conv (field_type field) with
               | Some converter => converter value
               | None => Ok value
               end ;;
      Mapping.setitem (name field) value row_info)
    (combine l (map g l)) acc
  = Ok (acc ++ map (fun f => (key_of f, g f)) l)%list.
Proof.
  revert acc. induction l as [|f l IH]; intros acc Hnames Hconv Hnd Hfresh;
    simpl.
  - rewrite app_nil_r. reflexivity.
  - rewrite (Hconv f (or_introl eq_refl)). cbn [bind].
    inversion Hnames as [|? ? [s Hs] Hnames']; subst.
    inversion Hnd as [|? ? Hnotin Hnd']; subst.
    assert (Hkey : key_of f = s) by (unfold key_of; rewrite Hs; reflexivity).
    rewrite Hs. cbn [Mapping.setitem bind].
    rewrite dict_set_fresh
      by (rewrite <- Hkey; apply Hfresh; left; reflexivity).
    rewrite IH; try assumption.
    + rewrite <- app_assoc, Hkey. reflexivity.
    + intros f' Hf'. apply Hconv. right. exact Hf'.
    + intros f' Hf' Hin. unfold Dict.keys in Hin.
      rewrite map_app in Hin. apply in_app_or in Hin.
      destruct Hin as [Hin|[Hin|[]]].
      * apply (Hfresh f'); [right; exact Hf'|exact Hin].
      * apply Hnotin. simpl in Hin. rewrite Hkey, Hin.
        apply in_map. exact Hf'.
Qed.

(** X27.  A row made by [row_from_mapping] has the arity of the
    schema, and the row encoder of [insert_data] files each of its
    values under the name of its field: for a schema of fields with
    distinct names whose types need no converter, the JSON of the row
    lists, in schema order, every field name with the value projected
    from the mapping. *)
Theorem projected_row_is_encoded (self : Table) (mapping : dict) :
  _schema self <> [] ->
  Forall (fun f => projectable mapping f = true) (_schema self) ->
  Forall named_by_string (_schema self) ->
  NoDup (map key_of (_schema self)) ->
  (forall f, In f (_schema self) -> conv (field_type f) = None) ->
  exists values,
    row_from_mapping self mapping = Ok (PTuple values) /\
    List.length values = List.length (_schema self) /\
    row_info_of conv self values
    = Ok (map (fun f => (key_of f, projected_value mapping f))
            (_schema self)).
Proof.
  intros Hne Hproj Hnames Hnd Hconv.
  exists (map (projected_value mapping) (_schema self)).
  split; [|split].
  - rewrite (row_from_mapping_loop _ _ Hne), (mapM_projectable _ _ Hproj).
    reflexivity.
  - apply length_map.
  - unfold row_info_of.
    rewrite (foldM_row_info_fresh (_schema self) (projected_value mapping)
               []); try assumption; [reflexivity|].
    intros f _ [].
Qed.

End RowFromMappingMore.

Section RowFromMappingMoreExamples.
Import Schema Tables RowSpec InsertSpec EncodeSpec.

Lemma projected_row_is_encoded_witness :
  exists values,
    row_from_mapping (table_of schema_abc) [("a", PInt 1)]
    = Ok (PTuple values) /\
    row_info_of no_converters (table_of schema_abc) values
    = Ok [("a", PInt 1); ("b", PTuple []); ("c", PNone)].
Proof.
  destruct (projected_row_is_encoded no_converters (table_of schema_abc)
              [("a", PInt 1)]) as [values [H1 [_ H2]]].
  - discriminate.
  - repeat constructor.
  - repeat constructor; eexists; reflexivity.
  - repeat constructor; simpl; intuition discriminate.
  - intros f _. reflexivity.
  - exists values. split; assumption.
Defined.

End RowFromMappingMoreExamples.

(** * More on the field-name translation *)

Section FieldNamesMore.
Import UpdateSpec.

Lemma upper_not_underscore (c : ascii) :
  Ascii.eqb c "_" = false -> Ascii.eqb (Names.upper c) "_" = false.
Proof.
  destruct c as [[] [] [] [] [] [] [] []]; intros H;
    first [discriminate H | reflexivity].
Qed.

Lemma lower_not_underscore (c : ascii) :
  Ascii.eqb c "_" = false -> Ascii.eqb (Names.lower c) "_" = false.
Proof.
  destruct c as [[] [] [] [] [] [] [] []]; intros H;
    first [discriminate H | reflexivity].
Qed.

Lemma is_word_lower_all (w : string) :
  is_word w = true -> is_word (Names.lower_all w) = true.
Proof.
  induction w as [|c w IH]; simpl; [reflexivity|].
  intros H. apply andb_prop in H. destruct H as [Hc Hw].
  apply negb_true_iff in Hc.
  rewrite (lower_not_underscore _ Hc), (IH Hw). reflexivity.
Qed.

Lemma is_word_capitalize (w : string) :
  is_word w = true -> is_word (Names.capitalize w) = true.
Proof.
  destruct w as [|c w]; simpl; [reflexivity|].
  intros H. apply andb_prop in H. destruct H as [Hc Hw].
  apply negb_true_iff in Hc.
  rewrite (upper_not_underscore _ Hc), (is_word_lower_all _ Hw).
  reflexivity.
Qed.

Lemma is_word_append (a b : string) :
  is_word a = true -> is_word b = true ->
  is_word (String.append a b) = true.
Proof.
  induction a as [|c a IH]; simpl; intros Ha Hb; [exact Hb|].
  apply andb_prop in Ha. destruct Ha as [Hc Ha].
  rewrite Hc, (IH Ha Hb). reflexivity.
Qed.

Lemma is_word_join_capitalize (ws : list string) :
  Forall (fun x => is_word x = true) ws ->
  is_word (Names.join (map Names.capitalize ws)) = true.
Proof.
  induction 1 as [|w ws Hw _ IH]; simpl; [reflexivity|].
  apply is_word_append; [apply is_word_capitalize; exact Hw|exact IH].
Qed.

Lemma append_empty (s : string) : String.append s EmptyString = s.
Proof.
  induction s as [|c s IH]; simpl; [reflexivity|]. rewrite IH. reflexivity.
Qed.

Lemma api_field_is_word (f : string) : is_word (Names.api_field f) = true.
Proof.
  unfold Names.api_field.
  destruct (join_with_split f) as [_ [Hwords Hne]].
  destruct (Names.split "_" f) as [|w ws]; [contradiction|].
  inversion Hwords; subst. simpl.
  apply is_word_append; [assumption|].
  apply is_word_join_capitalize. assumption.
Qed.

Lemma api_field_of_word (f : string) :
  is_word f = true -> Names.api_field f = f.
Proof.
  intros H. unfold Names.api_field. rewrite (split_word _ H). simpl.
  apply append_empty.
Qed.

(** X28.  The key a field name is translated to never holds an
    underscore; a name without underscore is its own key; translating
    twice is translating once. *)
Theorem api_field_has_no_underscore (f : string) :
  is_word (Names.api_field f) = true /\
  (is_word f = true -> Names.api_field f = f) /\
  Names.api_field (Names.api_field f) = Names.api_field f.
Proof.
  split; [apply api_field_is_word|]. split; [apply api_field_of_word|].
  apply api_field_of_word. apply api_field_is_word.
Qed.

Lemma api_field_has_no_underscore_witness :
  Names.api_field "description" = "description".
Proof.
  exact (proj1 (proj2 (api_field_has_no_underscore "description")) eq_refl).
Defined.

End FieldNamesMore.

(** * Properties of the references *)

Section ReferencesFacts.
Import References.

(** X29.  A table reference survives the trip through its
    resource: [from_api_repr] of [to_api_repr] gives the reference
    back, and the resource of a parsed reference holds the
    [projectId], [datasetId] and [tableId] of the resource it was
    parsed from; a resource without one of them raises [KeyError] for
    the first one missing, in this order. *)
Theorem table_reference_round_trip :
  (forall r, from_api_repr (to_api_repr r) = Ok r) /\
  (forall resource r,
      from_api_repr resource = Ok r ->
      Builtins.getitem "projectId" (to_api_repr r)
      = Builtins.getitem "projectId" resource /\
      Builtins.getitem "datasetId" (to_api_repr r)
      = Builtins.getitem "datasetId" resource /\
      Builtins.getitem "tableId" (to_api_repr r)
      = Builtins.getitem "tableId" resource) /\
  (forall d,
      Dict.get "projectId" d = None ->
      from_api_repr (PDict d) = Raise (KeyError (PStr "projectId"))) /\
  (forall d p,
      Dict.get "projectId" d = Some p -> Dict.get "datasetId" d = None ->
      from_api_repr (PDict d) = Raise (KeyError (PStr "datasetId"))) /\
  (forall d p ds,
      Dict.get "projectId" d = Some p -> Dict.get "datasetId" d = Some ds ->
      Dict.get "tableId" d = None ->
      from_api_repr (PDict d) = Raise (KeyError (PStr "tableId"))).
Proof.
  split; [|split; [|split; [|split]]].
  - intros [p d t]. reflexivity.
  - intros resource r H. unfold from_api_repr in H.
    destruct (Builtins.getitem "projectId" resource) as [p|];
      [|discriminate].
    destruct (Builtins.getitem "datasetId" resource) as [d|];
      [|discriminate].
    destruct (Builtins.getitem "tableId" resource) as [t|];
      [|discriminate].
    injection H as <-. repeat split.
  - intros d H. unfold from_api_repr, Builtins.getitem, Dict.getitem.
    rewrite H. reflexivity.
  - intros d p H1 H2. unfold from_api_repr, Builtins.getitem, Dict.getitem.
    rewrite H1, H2. reflexivity.
  - intros d p ds H1 H2 H3.
    unfold from_api_repr, Builtins.getitem, Dict.getitem.
    rewrite H1, H2, H3. reflexivity.
Qed.

Lemma table_reference_round_trip_witness :
  from_api_repr (PDict [("projectId", PStr "p"); ("tableId", PStr "t")])
  = Raise (KeyError (PStr "datasetId")).
Proof.
  exact (proj1 (proj2 (proj2 (proj2 table_reference_round_trip)))
           [("projectId", PStr "p"); ("tableId", PStr "t")] (PStr "p")
           eq_refl eq_refl).
Defined.

(** X30.  [Table.from_api_repr] first checks the identity of the
    resource: without [tableReference], or with a [tableReference]
    that has no [tableId], it raises the [KeyError] on the missing
    identity, whatever else is missing; with a [tableId], the
    reference it goes on with is the one
    [TableReference.from_api_repr] reads from [tableReference]. *)
Theorem table_identity_check (d : dict) :
  (Dict.get "tableReference" d = None ->
   table_reference_of (PDict d) = Raise (KeyError (PStr lacks_identity))) /\
  (forall ref,
      Dict.get "tableReference" d = Some (PDict ref) ->
      Dict.get "tableId" ref = None ->
      table_reference_of (PDict d)
      = Raise (KeyError (PStr lacks_identity))) /\
  (forall ref id,
      Dict.get "tableReference" d = Some (PDict ref) ->
      Dict.get "tableId" ref = Some id ->
      table_reference_of (PDict d) = from_api_repr (PDict ref)).
Proof.
  unfold table_reference_of, from_api_repr.
  split; [|split].
  - intros H. cbn [Builtins.contains bind].
    rewrite (dict_get_none_mem _ _ H). reflexivity.
  - intros ref H Hid. cbn [Builtins.contains bind].
    rewrite (dict_get_mem _ _ _ H).
    unfold Builtins.getitem at 1, Dict.getitem. rewrite H.
    cbn [bind Builtins.contains]. rewrite (dict_get_none_mem _ _ Hid).
    reflexivity.
  - intros ref id H Hid. cbn [Builtins.contains bind].
    rewrite (dict_get_mem _ _ _ H).
    unfold Builtins.getitem, Dict.getitem. rewrite H.
    cbn [bind Builtins.contains]. rewrite (dict_get_mem _ _ _ Hid).
    cbn [negb orb]. rewrite Hid.
    destruct (Dict.get "projectId" ref); [|reflexivity].
    destruct (Dict.get "datasetId" ref); reflexivity.
Qed.

Lemma table_identity_check_witness :
  table_reference_of (PDict [("etag", PStr "abc")])
  = Raise (KeyError (PStr lacks_identity)) /\
  table_reference_of
    (PDict [("tableReference",
             PDict [("projectId", PStr "p"); ("datasetId", PStr "d");
                    ("tableId", PStr "t")])])
  = Ok (mkTableReference (PStr "p") (PStr "d") (PStr "t")).
Proof.
  split.
  - exact (proj1 (table_identity_check [("etag", PStr "abc")]) eq_refl).
  - exact (proj2 (proj2 (table_identity_check
                           [("tableReference",
                             PDict [("projectId", PStr "p");
                                    ("datasetId", PStr "d");
                                    ("tableId", PStr "t")])]))
             [("projectId", PStr "p"); ("datasetId", PStr "d");
              ("tableId", PStr "t")] (PStr "t") eq_refl eq_refl).
Defined.

End ReferencesFacts.
